(** * neuroctrl: the G0 admission gate and the post-run evidence harness

    A shallow embedding of

    - [.codex/tools/g0_enter_work.py]  (the admission gate, "G0"), and
    - [tools/evidence/collect_packet_evidence.py]  (the evidence harness),

    together with the properties their specification states about them.

    Conventions of the embedding.

    - A Python [str] is a [string] of bytes (its UTF-8 encoding).  The string
      methods the tools call ([strip], [splitlines], [isdigit], ...) are
      modelled on the ASCII range.
    - A decoded JSON document is a [json] value; Python's dynamic typing is
      kept: an attribute missing on a value raises, as in the source.
    - Library functions whose definition is not part of the repository
      ([fnmatch.fnmatch], [repr], [json.dumps], [hashlib.sha256], [pathlib])
      are the fields of the class [Runtime]; every theorem holds for all
      instances.  [World] is the state of the machine the tools observe
      through [subprocess.run] and the file system.
    - In the gate the calls that change the file system, [mkdir] and the
      final [write_text], raise [OSError] when the machine says so
      ([w_mkdir], [w_write]); [exists] and [resolve] answer without
      raising. *)

From Stdlib Require Import ZArith String Ascii List Lia Bool QArith_base DecimalString Sorted.
From stdpp Require Import base option gmap strings list.

Local Open Scope string_scope.
Local Open Scope Z_scope.

(** ** Python string methods *)

Module Str.

Definition chr (n : nat) : ascii := ascii_of_nat n.

Definition in_chars (cs : string) (c : ascii) : bool :=
  existsb (Ascii.eqb c) (list_ascii_of_string cs).

(** [str.isspace] on one ASCII character: TAB..CR, FS..US and the blank. *)
Definition is_space (c : ascii) : bool :=
  let n := nat_of_ascii c in
  ((9 <=? n)%nat && (n <=? 13)%nat) || ((28 <=? n)%nat && (n <=? 32)%nat).

Definition is_digit (c : ascii) : bool :=
  let n := nat_of_ascii c in (48 <=? n)%nat && (n <=? 57)%nat.

Fixpoint lstrip_by (f : ascii -> bool) (s : string) : string :=
  match s with
  | EmptyString => EmptyString
  | String c r => if f c then lstrip_by f r else s
  end.

Fixpoint rstrip_by (f : ascii -> bool) (s : string) : string :=
  match s with
  | EmptyString => EmptyString
  | String c r =>
      match rstrip_by f r with
      | EmptyString => if f c then EmptyString else String c EmptyString
      | r' => String c r'
      end
  end.

(** [s.lstrip(cs)], [s.rstrip(cs)]: [cs] is a set of characters. *)
Definition lstrip_chars (cs s : string) : string := lstrip_by (in_chars cs) s.
Definition rstrip_chars (cs s : string) : string := rstrip_by (in_chars cs) s.

(** [s.strip()] *)
Definition strip (s : string) : string := rstrip_by is_space (lstrip_by is_space s).

(** [s.replace(a, b)] for one-character [a] and [b]. *)
Fixpoint replace_char (a b : ascii) (s : string) : string :=
  match s with
  | EmptyString => EmptyString
  | String c r => String (if Ascii.eqb c a then b else c) (replace_char a b r)
  end.

Definition snoc (s : string) (c : ascii) : string := s +:+ String c EmptyString.

(** Line boundaries of [str.splitlines] in the ASCII range, CR apart:
    LF, VT, FF, FS, GS, RS. *)
Definition is_linebreak (c : ascii) : bool :=
  let n := nat_of_ascii c in
  (n =? 10)%nat || (n =? 11)%nat || (n =? 12)%nat ||
  (n =? 28)%nat || (n =? 29)%nat || (n =? 30)%nat.

Definition is_cr (c : ascii) : bool := (nat_of_ascii c =? 13)%nat.
Definition is_lf (c : ascii) : bool := (nat_of_ascii c =? 10)%nat.

Fixpoint splitlines_from (cur s : string) : list string :=
  match s with
  | EmptyString => match cur with EmptyString => [] | _ => [cur] end
  | String c r =>
      if is_cr c then
        match r with
        | String c' r' =>
            if is_lf c' then cur :: splitlines_from EmptyString r'
            else cur :: splitlines_from EmptyString r
        | EmptyString => [cur]
        end
      else if is_linebreak c then cur :: splitlines_from EmptyString r
      else splitlines_from (snoc cur c) r
  end.

(** [s.splitlines()] *)
Definition splitlines (s : string) : list string := splitlines_from EmptyString s.

(** [sep.join(l)] *)
Fixpoint join (sep : string) (l : list string) : string :=
  match l with
  | [] => EmptyString
  | [x] => x
  | x :: r => x +:+ sep +:+ join sep r
  end.

Fixpoint drop (n : nat) (s : string) : string :=
  match n, s with
  | O, _ => s
  | S n', String _ r => drop n' r
  | S _, EmptyString => EmptyString
  end.

(** The text after the first occurrence of [pat], if there is one:
    [s.split(pat, 1)[1]], and [pat in s] when it is [Some]. *)
Fixpoint after_first (pat s : string) : option string :=
  if String.prefix pat s then Some (drop (String.length pat) s)
  else match s with
       | EmptyString => None
       | String _ r => after_first pat r
       end.

(** [s.partition(sep)] for a one-character [sep]: head and tail when [sep]
    occurs. *)
Fixpoint cut (sep : ascii) (s : string) : option (string * string) :=
  match s with
  | EmptyString => None
  | String c r =>
      if Ascii.eqb c sep then Some (EmptyString, r)
      else match cut sep r with
           | Some (a, b) => Some (String c a, b)
           | None => None
           end
  end.

(** [s.split(sep, 2)] for a one-character [sep]. *)
Definition split2 (sep : ascii) (s : string) : list string :=
  match cut sep s with
  | None => [s]
  | Some (a, r) =>
      match cut sep r with
      | None => [a; r]
      | Some (b, t) => [a; b; t]
      end
  end.

(** [s.isdigit()] *)
Definition isdigit (s : string) : bool :=
  match s with
  | EmptyString => false
  | _ => forallb is_digit (list_ascii_of_string s)
  end.

(** [int(s)] for a string of decimal digits. *)
Definition int_of_digits (s : string) : Z :=
  fold_left (fun acc c => 10 * acc + (Z.of_nat (nat_of_ascii c) - 48))
            (list_ascii_of_string s) 0.

Definition nonblank (s : string) : bool :=
  negb (String.eqb (strip s) EmptyString).

(** [sorted(set(l))] on strings: insertion into a strictly increasing list. *)
Fixpoint insert_sorted (x : string) (l : list string) : list string :=
  match l with
  | [] => [x]
  | y :: r =>
      match String.compare x y with
      | Lt => x :: l
      | Eq => l
      | Gt => y :: insert_sorted x r
      end
  end.

Definition sorted_set (l : list string) : list string :=
  fold_right insert_sorted [] l.

End Str.

(** ** Decoded JSON and Python's dynamic operations on it *)

Unset Elimination Schemes.
Inductive json : Type :=
| JNull
| JBool (b : bool)
| JInt (n : Z)
| JFloat (q : Q)
| JStr (s : string)
| JArr (items : list json)
| JObj (members : list (string * json)).
Set Elimination Schemes.

Inductive exn : Type :=
| AttributeError
| TypeError
| ValueError
| OSError (msg : string).

Inductive result (A : Type) : Type :=
| Ok (a : A)
| Raise (e : exn).
Arguments Ok {A} a.
Arguments Raise {A} e.

Definition rbind {A B} (m : result A) (k : A -> result B) : result B :=
  match m with
  | Ok a => k a
  | Raise e => Raise e
  end.

Notation "x <~ m ;; k" := (rbind m (fun x => k))
  (at level 100, m at next level, right associativity).

(** Truth value of a decoded JSON value. *)
Definition truthy (v : json) : bool :=
  match v with
  | JNull => false
  | JBool b => b
  | JInt n => negb (n =? 0)
  | JFloat q => negb (Qnum q =? 0)
  | JStr s => negb (String.eqb s EmptyString)
  | JArr l => match l with [] => false | _ => true end
  | JObj m => match m with [] => false | _ => true end
  end.

(** [a or b] *)
Definition py_or (a b : json) : json := if truthy a then a else b.

(** Members are in document order; a repeated key keeps its last value. *)
Fixpoint lookup_last (k : string) (m : list (string * json)) : option json :=
  match m with
  | [] => None
  | (k', v) :: r =>
      match lookup_last k r with
      | Some x => Some x
      | None => if String.eqb k k' then Some v else None
      end
  end.

(** [d.get(k, dflt)] on a dict. *)
Definition dict_get (k : string) (dflt : json) (m : list (string * json)) : json :=
  match lookup_last k m with
  | Some v => v
  | None => dflt
  end.

(** [v.get(k, dflt)]: only a dict has the method. *)
Definition jget_default (k : string) (dflt : json) (v : json) : result json :=
  match v with
  | JObj m => Ok (dict_get k dflt m)
  | _ => Raise AttributeError
  end.

Definition jget (k : string) (v : json) : result json := jget_default k JNull v.

(** [v[k]] read from a document written by the tools, [JNull] when it is
    not there. *)
Definition member (k : string) (v : json) : json :=
  match v with
  | JObj m => dict_get k JNull m
  | _ => JNull
  end.

(** [isinstance(v, int)]: [bool] is a subclass of [int]. *)
Definition is_int (v : json) : bool :=
  match v with
  | JInt _ | JBool _ => true
  | _ => false
  end.

Definition int_value (v : json) : Z :=
  match v with
  | JInt n => n
  | JBool true => 1
  | _ => 0
  end.

(** [v == s] for a string literal [s]. *)
Definition is_str (s : string) (v : json) : bool :=
  match v with
  | JStr t => String.eqb t s
  | _ => false
  end.

(** Keys of a dict in insertion order. *)
Fixpoint dict_keys (seen : list string) (m : list (string * json)) : list string :=
  match m with
  | [] => []
  | (k, _) :: r =>
      if existsb (String.eqb k) seen then dict_keys seen r
      else k :: dict_keys (k :: seen) r
  end.

(** [list(v)] *)
Definition py_list (v : json) : result (list json) :=
  match v with
  | JArr l => Ok l
  | JStr s => Ok (map (fun c => JStr (String c EmptyString)) (list_ascii_of_string s))
  | JObj m => Ok (map JStr (dict_keys [] m))
  | _ => Raise TypeError
  end.

Definition hashable (v : json) : bool :=
  match v with
  | JArr _ | JObj _ => false
  | _ => true
  end.

(** One element of the sequence given to [dict(...)]: a key and a value. *)
Definition dict_item (v : json) : result (json * json) :=
  match v with
  | JArr [k; x] => Ok (k, x)
  | JStr (String a (String b EmptyString)) =>
      Ok (JStr (String a EmptyString), JStr (String b EmptyString))
  | JObj m =>
      match dict_keys [] m with
      | [a; b] => Ok (JStr a, JStr b)
      | _ => Raise ValueError
      end
  | JArr _ | JStr _ => Raise ValueError
  | _ => Raise TypeError
  end.

(** [dict(v)], observed through [.get] with string keys only: an entry with
    a key that is not a string is dropped once it is known to be hashable. *)
Fixpoint dict_of_items (l : list json) : result (list (string * json)) :=
  match l with
  | [] => Ok []
  | it :: r =>
      kv <~ dict_item it ;;
      if hashable (fst kv) then
        rest <~ dict_of_items r ;;
        match fst kv with
        | JStr k => Ok ((k, snd kv) :: rest)
        | _ => Ok rest
        end
      else Raise TypeError
  end.

Definition py_dict (v : json) : result (list (string * json)) :=
  match v with
  | JObj m => Ok m
  | JArr l => dict_of_items l
  | JStr s => dict_of_items (map (fun c => JStr (String c EmptyString)) (list_ascii_of_string s))
  | _ => Raise TypeError
  end.

(** ** The libraries and the machine *)

(** What [subprocess.run] does with a command: it completes with a return
    code and the two captured streams, or the process cannot be started
    (no executable, no such working directory) and [OSError] is raised. *)
Inductive proc : Type :=
| Completed (rc : Z) (out err : string)
| NotStarted (why : string).

Class Runtime : Type := {
  (** [fnmatch.fnmatch(name, pat)] *)
  fnmatch : string -> string -> bool;
  (** [repr(v)], which is [str(v)] for every value that is not a [str] *)
  py_repr : json -> string;
  (** [json.dumps(v, indent=2, sort_keys=True)] *)
  json_dumps : json -> string;
  (** [hashlib.sha256(b).hexdigest()] *)
  sha256_hex : string -> string;
  (** [str(Path(s))] *)
  path_str : string -> string;
  (** [str(Path(a) / b)] *)
  path_join : string -> string -> string;
  (** [str(Path(s).parent)] *)
  path_parent : string -> string;
}.

(** [str(v)] *)
Definition py_str `{RT : Runtime} (v : json) : string :=
  match v with
  | JStr s => s
  | _ => py_repr v
  end.

(** ** The decision accumulator ([g0_enter_work.Decision]) *)

Record Decision : Type := mkDecision {
  allow : bool;
  deny_code : option string;
  message : option string;
}.

(** [Decision()] *)
Definition Decision_new : Decision := mkDecision true None None.

(** [Decision.deny] *)
Definition deny (self : Decision) (code message : string) : Decision :=
  if allow self then mkDecision false (Some code) (Some message) else self.

(** A sequence of [deny] calls, first call first. *)
Definition deny_all (d : Decision) (calls : list (string * string)) : Decision :=
  fold_left (fun acc cm => deny acc (fst cm) (snd cm)) calls d.

(** ** The path matcher of the harness *)

Section PathMatcher.
Context `{RT : Runtime}.

(** [normalize_path] *)
Definition normalize_path (s : string) : string :=
  Str.lstrip_chars "./" (Str.replace_char "\" "/" s).

(** [any(ch in pat for ch in ["*", "?", "["])] *)
Definition has_wildcard (pat : string) : bool :=
  existsb (fun c => Str.in_chars "*?[" c) (list_ascii_of_string pat).

(** One pattern of the loop body shared by [matches_allowed] and
    [matches_any], on the normalized path [p]. *)
Definition pattern_hit (p pat : string) : bool :=
  let pat_norm := normalize_path pat in
  if has_wildcard pat_norm then fnmatch p pat_norm
  else
    let pat_dir := Str.rstrip_chars "/" pat_norm in
    String.eqb p pat_dir || String.prefix (pat_dir +:+ "/") p.

(** [matches_allowed] *)
Fixpoint matches_allowed (path : string) (allowed : list string) : bool :=
  let p := normalize_path path in
  match allowed with
  | [] => false
  | a :: rest => if pattern_hit p a then true else matches_allowed path rest
  end.

(** [matches_any] *)
Fixpoint matches_any (path : string) (patterns : list string) : bool :=
  let p := normalize_path path in
  match patterns with
  | [] => false
  | pat :: rest => if pattern_hit p pat then true else matches_any path rest
  end.

End PathMatcher.

(** The characters that [normalize_path] strips from the front. *)
Definition lead_char (c : ascii) : Prop := c = "."%char \/ c = "/"%char.

(** ** The machine the tools run on *)

(** A path read as a JSON document, [json.loads(p.read_text())]. *)
Inductive doc : Type :=
| DocMissing (oserr : string)
  (** no such file; [oserr] is the text of the [FileNotFoundError] *)
| DocUnreadable (err : string)
  (** the file exists, reading or decoding it raises; [err] is [str(e)] *)
| DocJson (v : json).

Record World : Type := mkWorld {
  (** [subprocess.run(cmd, cwd=...)], which may depend on the files
      written so far *)
  w_run : gmap string string -> list string -> option string -> proc;
  (** regular files and their content *)
  w_files : gmap string string;
  (** directories *)
  w_dirs : string -> bool;
  w_docs : string -> doc;
  (** [Path.resolve] *)
  w_resolve : string -> string;
  (** the successive readings of [utc_now()] *)
  w_clock : nat -> string;
  (** [Path(d).mkdir(parents=True, exist_ok=True)] in the gate: the text of
      the [OSError] it raises, [None] when the directory is there after
      the call *)
  w_mkdir : string -> option string;
  (** [Path(p).write_text(...)] in the gate: the text of the [OSError]
      raised when [p] cannot be opened for writing, [None] when the text is
      written *)
  w_write : string -> option string;
}.

Definition LF : string := String (Str.chr 10) EmptyString.
Definition TAB : ascii := Str.chr 9.

(** [s] followed by a newline when [s] is not empty. *)
Definition with_newline (s : string) : string :=
  s +:+ (if String.eqb s EmptyString then EmptyString else LF).

(** The lines of [l], each followed by a newline. *)
Definition lines_text (l : list string) : string :=
  Str.join LF l +:+ (match l with [] => EmptyString | _ => LF end).

(** The entry [name] of the directory [dir], for the fixed file names of a
    bundle: [dir / name]. *)
Definition child (dir name : string) : string := dir +:+ "/" +:+ name.

(** [Path.is_absolute] *)
Definition is_absolute (p : string) : bool := String.prefix "/" p.

Fixpoint components_from (cur s : string) : list string :=
  match s with
  | EmptyString => [cur]
  | String c r =>
      if Ascii.eqb c "/" then cur :: components_from EmptyString r
      else components_from (Str.snoc cur c) r
  end.

(** [name in Path(p).parts] for a name that is not the root. *)
Definition has_part (name p : string) : bool :=
  existsb (String.eqb name) (components_from EmptyString p).

(** [sorted(l, key=fst)]: a stable insertion sort. *)
Fixpoint insert_by_key {A} (x : string * A) (l : list (string * A)) : list (string * A) :=
  match l with
  | [] => [x]
  | y :: r =>
      match String.compare (fst x) (fst y) with
      | Gt => y :: insert_by_key x r
      | _ => x :: l
      end
  end.

Definition sort_by_key {A} (l : list (string * A)) : list (string * A) :=
  fold_right insert_by_key [] l.

(** [sorted(l)] *)
Definition sorted (l : list string) : list string :=
  map fst (sort_by_key (map (fun s => (s, tt)) l)).

(** Every command the tools run can be started: [subprocess.run] returns. *)
Definition starts (w : World) : Prop :=
  forall fs cmd cwd, exists rc out err, w_run w fs cmd cwd = Completed rc out err.

(** ** The evidence harness ([collect_packet_evidence.py]) *)

Module Harness.

Record Args : Type := mkArgs {
  arg_contract : string;
  arg_meta : option string;
}.

(** A computation on the file system that may raise: the files are kept as
    they are at the raise. *)
Definition H (A : Type) : Type :=
  gmap string string -> result A * gmap string string.

Definition hret {A} (a : A) : H A := fun fs => (Ok a, fs).

Definition hbind {A B} (m : H A) (k : A -> H B) : H B :=
  fun fs =>
    match m fs with
    | (Ok a, fs') => k a fs'
    | (Raise e, fs') => (Raise e, fs')
    end.

Definition hlift {A} (r : result A) : H A := fun fs => (r, fs).

Notation "x <- m ;; k" := (hbind m (fun x => k))
  (at level 100, m at next level, right associativity).

(** [paths_from_porcelain], one line. *)
Definition porcelain_path (ln : string) : option string :=
  let ln := Str.rstrip_chars LF ln in
  if negb (Str.nonblank ln) then None
  else if (String.length ln <? 4)%nat then None
  else
    let path := Str.strip (Str.drop 3 ln) in
    let path :=
      match Str.after_first " -> " path with
      | Some new => Str.strip new
      | None => path
      end in
    if String.eqb path EmptyString then None else Some path.

(** [paths_from_porcelain] *)
Definition paths_from_porcelain (lines : list string) : list string :=
  omap porcelain_path lines.

(** One line of [git diff --numstat]: files, lines added, lines deleted. *)
Definition numstat_line (acc : Z * Z * Z) (ln : string) : Z * Z * Z :=
  let '(files, added, deleted) := acc in
  let ln := Str.strip ln in
  if String.eqb ln EmptyString then acc
  else
    match Str.split2 TAB ln with
    | a :: d :: _ =>
        (files + 1,
         if Str.isdigit a then added + Str.int_of_digits a else added,
         if Str.isdigit d then deleted + Str.int_of_digits d else deleted)
    | _ => acc
    end.

Definition numstat (out : string) : Z * Z * Z :=
  fold_left numstat_line (Str.splitlines out) (0, 0, 0).

(** The strings a matcher reads from a contract list before it meets an
    entry that is not a [str], and whether it meets one: [normalize_path]
    raises on such an entry. *)
Fixpoint str_prefix (l : list json) : list string * bool :=
  match l with
  | [] => ([], false)
  | JStr s :: r => let '(p, b) := str_prefix r in (s :: p, b)
  | _ :: _ => ([], true)
  end.

Section Run.
Context `{RT : Runtime} (w : World) (args : Args).

Definition path_exists (fs : gmap string string) (p : string) : bool :=
  bool_decide (is_Some (fs !! p)) || w_dirs w p.

Definition hexists (p : string) : H bool := fun fs => (Ok (path_exists fs p), fs).

(** [read_text] *)
Definition read_text (p : string) : H string :=
  fun fs =>
    match fs !! p with
    | Some t => (Ok t, fs)
    | None => (Raise (OSError p), fs)
    end.

(** [write_text]; the parent directories can always be made. *)
Definition write_text (p text : string) : H unit :=
  fun fs => (Ok tt, <[p := text]> fs).

(** [write_json] *)
Definition write_json (p : string) (obj : json) : H unit :=
  write_text p (json_dumps obj +:+ LF).

(** [git_capture] *)
Definition git_capture (wt : string) (gargs : list string) : H string :=
  fun fs =>
    match w_run w fs ("git" :: gargs) (Some wt) with
    | Completed rc out err =>
        (Ok (if rc =? 0 then out
             else if String.eqb err EmptyString then EmptyString
                  else "!! " +:+ Str.strip err), fs)
    | NotStarted why => (Raise (OSError why), fs)
    end.

(** [matches_allowed] on the list as the contract gives it. *)
Definition matches_allowed_dyn (path : string) (allowed : list json) : result bool :=
  let '(pats, bad) := str_prefix allowed in
  if matches_allowed path pats then Ok true
  else if bad then Raise AttributeError else Ok false.

(** [matches_any] on the list as the contract gives it. *)
Definition matches_any_dyn (path : string) (patterns : list json) : result bool :=
  let '(pats, bad) := str_prefix patterns in
  if matches_any path pats then Ok true
  else if bad then Raise AttributeError else Ok false.

(** [[p for p in changed_paths if not matches_allowed(p, allowed_paths)]] *)
Fixpoint outside_allowed (paths : list string) (allowed : list json) : result (list string) :=
  match paths with
  | [] => Ok []
  | p :: r =>
      m <~ matches_allowed_dyn p allowed ;;
      rest <~ outside_allowed r allowed ;;
      Ok (if m then rest else p :: rest)
  end.

(** The loop over [status_paths_after] that fills [forbidden_hit]. *)
Fixpoint forbidden_hits (paths : list string) (patterns : list json) : result (list string) :=
  match paths with
  | [] => Ok []
  | p :: r =>
      let pn := normalize_path p in
      m <~ matches_any_dyn pn patterns ;;
      rest <~ forbidden_hits r patterns ;;
      Ok (if m then pn :: rest else rest)
  end.

Definition violation (code : string) (details : list (string * json)) : json :=
  JObj [("code", JStr code); ("details", JObj details)].

(** The contract as [main] reads it. *)
Record Config : Type := mkConfig {
  packet_id : string;
  base_ref : string;
  branch : string;
  allowed_paths : list json;
  forbidden_outputs : list json;
  budgets : list (string * json);
  run_cfg : list (string * json);
  out_root : string;
  include_patch : bool;
}.

Definition as_dict (v : json) : result (list (string * json)) :=
  match v with
  | JObj m => Ok m
  | _ => Raise AttributeError
  end.

Definition read_config (contract : json) : result Config :=
  c <~ as_dict contract ;;
  let get k := dict_get k JNull c in
  let packet_id := py_str (py_or (get "packet_id") (JStr "unknown")) in
  let base_ref := py_str (py_or (get "base_ref") (JStr EmptyString)) in
  let branch := py_str (py_or (get "branch") (JStr EmptyString)) in
  allowed_paths <~ py_list (py_or (get "allowed_paths") (JArr [])) ;;
  forbidden_outputs <~ py_list (py_or (get "forbidden_outputs") (JArr [])) ;;
  budgets <~ py_dict (py_or (get "budgets") (JObj [])) ;;
  run_cfg <~ py_dict (py_or (get "run") (JObj [])) ;;
  evidence_cfg <~ py_dict (py_or (get "evidence") (JObj [])) ;;
  let out_root := py_str (py_or (dict_get "out_dir" JNull evidence_cfg) (JStr ".codex/out")) in
  let include_patch := truthy (dict_get "include_git_diff_patch" (JBool false) evidence_cfg) in
  Ok (mkConfig packet_id base_ref branch allowed_paths forbidden_outputs
               budgets run_cfg out_root include_patch).

(** The constraint violations, in the order [main] appends them. *)
Definition budget_violations (max_files max_lines : json) (changed_files total_lines : Z)
    : list json :=
  ((if is_int max_files && (int_value max_files <? changed_files)
    then [JArr [JStr "max_changed_files"; JInt changed_files; max_files]] else [])
   ++
   (if is_int max_lines && (int_value max_lines <? total_lines)
    then [JArr [JStr "max_changed_lines"; JInt total_lines; max_lines]] else []))%list.

Definition find_violations (cfg : Config) (changed_paths status_paths_after : list string)
    (total_lines : Z) : result (list json) :=
  v_allowed <~
    (match allowed_paths cfg with
     | [] => Ok []
     | _ =>
         bad <~ outside_allowed changed_paths (allowed_paths cfg) ;;
         Ok (match bad with
             | [] => []
             | _ => [violation "DIFF_OUTSIDE_ALLOWED_PATHS" [("bad_paths", JArr (map JStr bad))]]
             end)
     end) ;;
  v_forbidden <~
    (match forbidden_outputs cfg with
     | [] => Ok []
     | _ =>
         hit <~ forbidden_hits status_paths_after (forbidden_outputs cfg) ;;
         Ok (match Str.sorted_set hit with
             | [] => []
             | hit' => [violation "FORBIDDEN_OUTPUT_PRESENT" [("paths", JArr (map JStr hit'))]]
             end)
     end) ;;
  let max_files := dict_get "max_changed_files" JNull (budgets cfg) in
  let max_lines := dict_get "max_changed_lines" JNull (budgets cfg) in
  let budget_viol :=
    budget_violations max_files max_lines (Z.of_nat (length changed_paths)) total_lines in
  Ok (v_allowed ++ v_forbidden ++
      match budget_viol with
      | [] => []
      | _ => [violation "DIFF_BUDGET_EXCEEDED" [("violations", JArr budget_viol)]]
      end)%list.

(** The final decision: the decision of the run-metadata record if it is
    one of the two words, overridden by the violations. *)
Definition decide_decision (violations : list json) (decision_from_meta : json) : json :=
  let decision :=
    if is_str "ALLOW" decision_from_meta || is_str "DENY" decision_from_meta
    then decision_from_meta
    else match violations with [] => JStr "ALLOW" | _ => JStr "DENY" end in
  match violations with
  | [] => decision
  | _ => JStr "DENY"
  end.

(** [reasons] as the run-metadata record gives them, made a list. *)
Definition declared_reasons (meta : list (string * json)) : list json :=
  let reasons := py_or (dict_get "reasons" JNull meta) (JArr []) in
  match reasons with
  | JArr l => l
  | _ => [JStr (py_str reasons)]
  end.

Definition decide_reasons (violations : list json) (meta : list (string * json)) : json :=
  match violations with
  | [] => JArr (declared_reasons meta)
  | _ =>
      if is_str "ALLOW" (dict_get "decision" JNull meta)
      then JArr (declared_reasons meta ++ [JStr "constraint_violations"])%list
      else JArr (declared_reasons meta)
  end.

Definition test_result (test_cmd : string) (test_rc : json) : string :=
  if String.eqb test_cmd EmptyString then "SKIP"
  else if is_int test_rc then (if int_value test_rc =? 0 then "PASS" else "FAIL")
  else "UNKNOWN".

(** [out_dir]: [(root / out_root / packet_id).resolve()] *)
Definition bundle_dir (root : string) (cfg : Config) : string :=
  w_resolve w (path_join (path_join root (out_root cfg)) (packet_id cfg)).

(** The record of the run-metadata file, [{}] when there is none or it
    cannot be read. *)
Definition load_meta (root : string) : json :=
  match arg_meta args with
  | None => JObj []
  | Some m =>
      if String.eqb m EmptyString then JObj []
      else
        let meta_path := path_str m in
        let meta_path :=
          if is_absolute meta_path then meta_path
          else w_resolve w (path_join root meta_path) in
        match w_docs w meta_path with
        | DocJson v => v
        | _ => JObj []
        end
  end.

(** The working tree the snapshots are taken in. *)
Definition worktree_of (root : string) (cfg : Config) (meta : list (string * json))
    (fs : gmap string string) : result string :=
  let wt_path := dict_get "worktree_path" JNull meta in
  if truthy wt_path then
    match wt_path with
    | JStr s => Ok (path_str s)
    | _ => Raise TypeError
    end
  else
    let wt_candidate := path_join (path_join root ".codex/.worktrees") (packet_id cfg) in
    Ok (path_str (if path_exists fs wt_candidate then wt_candidate else root)).

(** A head snapshot: the raw file if there is one, else the live value,
    which is then written. *)
Definition snapshot_head (wt p : string) : H string :=
  e <- hexists p ;;
  if e then
    t <- read_text p ;;
    hret (Str.strip t)
  else
    out <- git_capture wt ["rev-parse"; "HEAD"] ;;
    let head := Str.strip out in
    _ <- write_text p (with_newline head) ;;
    hret head.

Definition status_lines (t : string) : list string :=
  List.filter Str.nonblank (Str.splitlines t).

(** A status snapshot, likewise. *)
Definition snapshot_status (wt p : string) : H (list string) :=
  e <- hexists p ;;
  if e then
    t <- read_text p ;;
    hret (status_lines t)
  else
    out <- git_capture wt ["status"; "--porcelain"] ;;
    let status := status_lines out in
    _ <- write_text p (lines_text status) ;;
    hret status.

Definition stripped_lines (t : string) : list string :=
  map Str.strip (status_lines t).

(** The files below [root], with their content: [list_files]. *)
Definition files_under (fs : gmap string string) (root : string) : list (string * string) :=
  List.filter (fun pt => String.prefix (root +:+ "/") (fst pt) && negb (has_part ".git" (fst pt)))
              (map_to_list fs).

Definition list_files (fs : gmap string string) (root : string) : list string :=
  map fst (files_under fs root).

(** [p.relative_to(root).as_posix()] for [p] below [root]. *)
Definition relative_to (root p : string) : string :=
  Str.drop (String.length root + 1) p.

Definition manifest_entry (rel text : string) : json :=
  JObj [("path", JStr rel);
        ("sha256", JStr (sha256_hex text));
        ("size", JInt (Z.of_nat (String.length text)))].

(** The entries of the manifest, before they are sorted. *)
Definition manifest_entries (fs : gmap string string) (out_dir : string) : list (string * json) :=
  omap (fun pt =>
          let rel := relative_to out_dir (fst pt) in
          if String.eqb rel "manifest.json" || String.eqb rel "manifest.sha256" then None
          else Some (rel, manifest_entry rel (snd pt)))
       (files_under fs out_dir).

Definition build_manifest (generated_at : string) (fs : gmap string string) (out_dir : string)
    : json :=
  JObj [("generated_at_utc", JStr generated_at);
        ("files", JArr (map snd (sort_by_key (manifest_entries fs out_dir))))].

(** What a run reads from the repository and the raw directory. *)
Record Observed : Type := mkObserved {
  ob_head_before : string;
  ob_status_before : list string;
  ob_head_after : string;
  ob_status_after : list string;
  ob_diff_name_only : list string;
  ob_diff_stat : string;
  ob_changed_paths : list string;
  ob_tracked_files_changed : Z;
  ob_added : Z;
  ob_deleted : Z;
}.

(** The snapshots, the diffs and the raw files written for them. *)
Definition observe (cfg : Config) (raw_dir wt : string) : H Observed :=
  head_before <- snapshot_head wt (child raw_dir "head_before.txt") ;;
  status_before <- snapshot_status wt (child raw_dir "status_before.txt") ;;
  head_after <- snapshot_head wt (child raw_dir "head_after.txt") ;;
  status_after <- snapshot_status wt (child raw_dir "status_after.txt") ;;
  out <- git_capture wt ["diff"; "--name-only"; head_before] ;;
  let diff_name_only := stripped_lines out in
  _ <- write_text (child raw_dir "diff_name_only.txt") (lines_text diff_name_only) ;;
  out <- git_capture wt ["diff"; "--stat"; head_before] ;;
  let diff_stat := Str.rstrip_chars LF out in
  _ <- write_text (child raw_dir "diffstat.txt") (with_newline diff_stat) ;;
  out <- git_capture wt ["show"; "--name-only"; "--pretty=format:";
                         if String.eqb head_after EmptyString then "HEAD" else head_after] ;;
  let show_name_only_after := stripped_lines out in
  _ <- write_text (child raw_dir "show_name_only_after.txt") (lines_text show_name_only_after) ;;
  _ <- (if include_patch cfg then
          diff_patch <- git_capture wt ["diff"; head_before] ;;
          write_text (child raw_dir "diff_patch.txt") diff_patch
        else hret tt) ;;
  let status_paths_after := paths_from_porcelain status_after in
  let changed_paths := Str.sorted_set (diff_name_only ++ status_paths_after)%list in
  _ <- write_text (child raw_dir "changed_paths.txt") (lines_text changed_paths) ;;
  out <- git_capture wt ["diff"; "--numstat"; head_before] ;;
  hret (mkObserved head_before status_before head_after status_after diff_name_only diff_stat
                   changed_paths (fst (fst (numstat out))) (snd (fst (numstat out)))
                   (snd (numstat out))).

(** [test_cmd] *)
Definition test_cmd_of (cfg : Config) : string :=
  py_str (py_or (dict_get "test_cmd" JNull (run_cfg cfg)) (JStr EmptyString)).

(** The [evidence] dict, for a given [artifacts] member. *)
Definition evidence_doc (root wt generated : string) (cfg : Config) (meta : list (string * json))
    (ob : Observed) (violations : list json) (tests_exist : bool) (artifacts : json) : json :=
  let test_rc := dict_get "test_rc" JNull meta in
  JObj [
    ("packet_id", JStr (packet_id cfg));
    ("generated_at_utc", JStr generated);
    ("repo", JObj [("root", JStr root); ("base_ref", JStr (base_ref cfg));
                   ("heads", JObj [("before", JStr (ob_head_before ob));
                                   ("after", JStr (ob_head_after ob))])]);
    ("worktree", JObj [("path", JStr wt); ("branch", JStr (branch cfg))]);
    ("status", JObj [("before", JObj [("porcelain", JArr (map JStr (ob_status_before ob)))]);
                     ("after", JObj [("porcelain", JArr (map JStr (ob_status_after ob)))])]);
    ("diff", JObj [("name_only", JArr (map JStr (ob_diff_name_only ob)));
                   ("stat", JStr (ob_diff_stat ob));
                   ("changed_files", JInt (Z.of_nat (length (ob_changed_paths ob))));
                   ("tracked_files_changed", JInt (ob_tracked_files_changed ob));
                   ("lines_added", JInt (ob_added ob));
                   ("lines_deleted", JInt (ob_deleted ob))]);
    ("constraints", JObj [("allowed_paths", JArr (allowed_paths cfg));
                          ("forbidden_outputs", JArr (forbidden_outputs cfg));
                          ("violations", JArr violations)]);
    ("tests", JObj [("command", JStr (test_cmd_of cfg));
                    ("exit_code", test_rc);
                    ("result", JStr (test_result (test_cmd_of cfg) test_rc));
                    ("raw_path", if tests_exist then JStr "raw/tests.txt" else JNull)]);
    ("runner", JObj [("version", dict_get "runner_version" JNull meta);
                     ("python", dict_get "python" JNull meta);
                     ("meta", JObj meta)]);
    ("decision", decide_decision violations (dict_get "decision" JNull meta));
    ("reasons", decide_reasons violations meta);
    ("artifacts", artifacts)].

Definition EM_DASH : string :=
  String (Str.chr 226) (String (Str.chr 128) (String (Str.chr 148) EmptyString)).

(** The lines of [evidence.md]. *)
Definition render_md (wt generated : string) (cfg : Config) (meta : list (string * json))
    (ob : Observed) (violations : list json) : list string :=
  let test_rc := dict_get "test_rc" JNull meta in
  ([ "# Evidence " +:+ EM_DASH +:+ " " +:+ packet_id cfg;
     EmptyString;
     "- Generated (UTC): `" +:+ generated +:+ "`";
     "- Decision: **" +:+
       py_str (decide_decision violations (dict_get "decision" JNull meta)) +:+ "**";
     "- Base ref: `" +:+ base_ref cfg +:+ "`";
     "- Worktree: `" +:+ wt +:+ "`";
     EmptyString;
     "## Heads";
     "- Before: `" +:+ ob_head_before ob +:+ "`";
     "- After: `" +:+ ob_head_after ob +:+ "`";
     EmptyString;
     "## Diff";
     "- Changed files: " +:+ py_str (JInt (Z.of_nat (length (ob_changed_paths ob))));
     "- Lines added/deleted: " +:+ py_str (JInt (ob_added ob)) +:+ "/" +:+
       py_str (JInt (ob_deleted ob));
     EmptyString;
     "## Tests";
     (if String.eqb (test_cmd_of cfg) EmptyString then "- Command: *(none)*"
      else "- Command: `" +:+ test_cmd_of cfg +:+ "`");
     "- Result: **" +:+ test_result (test_cmd_of cfg) test_rc +:+ "**" ]
   ++ (if is_int test_rc then ["- Exit code: `" +:+ py_str test_rc +:+ "`"] else [])
   ++ [ EmptyString; "## Constraint violations" ]
   ++ (match violations with
       | [] => ["- None"]
       | _ => ["```json"; json_dumps (JArr violations); "```"]
       end)
   ++ [ EmptyString ])%list.

(** The [artifacts] member of the evidence written last. *)
Definition artifacts_index (raw_files : list string) : json :=
  JObj [("raw", JArr (map JStr (sorted raw_files)));
        ("manifest", JStr "manifest.json");
        ("manifest_sha256", JStr "manifest.sha256")].

(** The end of [main]: the evidence, the summary, the manifest and its
    hash, and the evidence once more.  Returns the manifest and the
    [artifacts] member. *)
Definition publish (generated_at out_dir : string) (evidence : json -> json) (md : list string)
    : H (json * json) :=
  _ <- write_json (child out_dir "evidence.json") (evidence (JObj [])) ;;
  _ <- write_text (child out_dir "evidence.md") (Str.join LF md +:+ LF) ;;
  manifest <- (fun fs => (Ok (build_manifest generated_at fs out_dir), fs)) ;;
  _ <- write_json (child out_dir "manifest.json") manifest ;;
  manifest_bytes <- read_text (child out_dir "manifest.json") ;;
  _ <- write_text (child out_dir "manifest.sha256")
                  (sha256_hex manifest_bytes +:+ "  manifest.json" +:+ LF) ;;
  raw_files <- (fun fs =>
                  (Ok (map (relative_to out_dir) (list_files fs (child out_dir "raw"))), fs)) ;;
  _ <- write_json (child out_dir "evidence.json") (evidence (artifacts_index raw_files)) ;;
  hret (manifest, artifacts_index raw_files).

(** What a run observed, decided and wrote. *)
Record Report : Type := mkReport {
  rep_out_dir : string;
  rep_observed : Observed;
  rep_violations : list json;
  rep_decision : json;
  rep_reasons : json;
  (** the evidence as first written, with an empty [artifacts] *)
  rep_evidence_first : json;
  rep_manifest : json;
  (** the evidence as written last *)
  rep_evidence : json;
}.

(** [main] from the point where the contract is read. *)
Definition run_contract (generated_at root : string) (cfg : Config) : H Report :=
  let out_dir := bundle_dir root cfg in
  let raw_dir := child out_dir "raw" in
  meta <- hlift (as_dict (load_meta root)) ;;
  wt <- (fun fs => (worktree_of root cfg meta fs, fs)) ;;
  ob <- observe cfg raw_dir wt ;;
  violations <-
    hlift (find_violations cfg (ob_changed_paths ob) (paths_from_porcelain (ob_status_after ob))
                           (ob_added ob + ob_deleted ob)) ;;
  tests_exist <- hexists (child raw_dir "tests.txt") ;;
  let generated := w_clock w 1 in
  let evidence := evidence_doc root wt generated cfg meta ob violations tests_exist in
  let md := render_md wt generated cfg meta ob violations in
  pub <- publish generated_at out_dir evidence md ;;
  hret (mkReport out_dir ob violations
                 (decide_decision violations (dict_get "decision" JNull meta))
                 (decide_reasons violations meta)
                 (evidence (JObj [])) (fst pub) (evidence (snd pub))).

(** [main] from the point where the repository is found and the contract is
    decoded. *)
Definition main_body (generated_at root : string) (contract : json) : H Report :=
  cfg <- hlift (read_config contract) ;;
  run_contract generated_at root cfg.

(** The minimal bundle written when the repository or the contract cannot
    be read. *)
Definition fallback (out_dir err : string) : H Z :=
  _ <- write_json (child out_dir "evidence.json")
                  (JObj [("generated_at_utc", JStr (w_clock w 1)); ("error", JStr err)]) ;;
  hret 2.

(** [git_root]: the top level, or the text of the [RuntimeError]. *)
Definition git_root (fs : gmap string string) : string + string :=
  match w_run w fs ["git"; "rev-parse"; "--show-toplevel"] None with
  | Completed rc out err =>
      if rc =? 0 then inr (path_str (Str.strip out))
      else inl (if String.eqb (Str.strip err) EmptyString then "not a git repo" else Str.strip err)
  | NotStarted why => inl why
  end.

(** [contract_path] *)
Definition contract_path (root : string) : string :=
  let p := path_str (arg_contract args) in
  if is_absolute p then p else w_resolve w (path_join root p).

(** [main]: the value it returns and the run's report when there is one. *)
Definition main_report : H (Z * option Report) :=
  fun fs =>
    let generated_at := w_clock w 0 in
    match git_root fs with
    | inl err =>
        (rc <- fallback (path_join ".codex/out" "unknown") err ;; hret (rc, None)) fs
    | inr root =>
        match w_docs w (contract_path root) with
        | DocJson contract =>
            (rep <- main_body generated_at root contract ;; hret (0, Some rep)) fs
        | DocMissing err | DocUnreadable err =>
            (rc <- fallback (path_join (path_join root ".codex/out") "unknown") err ;;
             hret (rc, None)) fs
        end
    end.

(** [main] *)
Definition main : H Z := rc <- main_report ;; hret (fst rc).

(** The exit status of the process: [raise SystemExit(main())]; an
    exception that leaves [main] ends the interpreter with status 1. *)
Definition exit_status (r : result Z) : Z :=
  match r with
  | Ok rc => rc
  | Raise _ => 1
  end.

(** The decision of the bundle a run leaves, when it leaves one. *)
Definition bundle_decision (r : result (Z * option Report)) : option json :=
  match r with
  | Ok (_, Some rep) => Some (member "decision" (rep_evidence rep))
  | _ => None
  end.

End Run.

(** *** The words of the harness's properties *)

(** [m] leaves a file that is at [p] as it is, also when it raises. *)
Definition keeps {A} (p : string) (m : H A) : Prop :=
  forall fs c, fs !! p = Some c -> snd (m fs) !! p = Some c.

(** [m] returns, on every file system. *)
Definition total {A} (m : H A) : Prop :=
  forall fs, exists a fs1, m fs = (Ok a, fs1).

(** The four snapshot files of the raw directory. *)
Definition snapshot_names : list string :=
  ["head_before.txt"; "status_before.txt"; "head_after.txt"; "status_after.txt"].

(** None of the snapshot paths is a directory. *)
Definition no_raw_dirs (w : World) (raw_dir : string) : Prop :=
  forall n, In n snapshot_names -> w_dirs w (child raw_dir n) = false.

(** Every pattern of the contract is a string. *)
Definition all_strings (l : list json) : Prop := snd (str_prefix l) = false.

(** The patterns of the contract are strings. *)
Definition clean_contract (cfg : Config) : Prop :=
  all_strings (allowed_paths cfg) /\ all_strings (forbidden_outputs cfg).

(** *** The matching rule in the words of the specification *)

(** The wildcard characters. *)
Definition spec_wildcard (c : ascii) : Prop :=
  c = "*"%char \/ c = "?"%char \/ c = "["%char.

(** The pattern contains a wildcard character. *)
Definition spec_is_glob (pat : string) : Prop :=
  exists c, In c (list_ascii_of_string pat) /\ spec_wildcard c.

(** A path matches an allowed pattern: a glob match if the pattern contains
    wildcard characters, otherwise an exact match or a directory-prefix
    match.  The directory of a pattern is the pattern without the slashes
    at its end, and a path below it continues with a slash. *)
Definition spec_matches `{RT : Runtime} (p pat : string) : Prop :=
  (spec_is_glob pat /\ fnmatch p pat = true)
  \/ (~ spec_is_glob pat
      /\ (p = Str.rstrip_chars "/" pat
          \/ exists rest, p = Str.rstrip_chars "/" pat +:+ "/" +:+ rest)).

(** [worktree_path] of the run-metadata record is a string or is not set. *)
Definition clean_meta (meta : list (string * json)) : Prop :=
  match dict_get "worktree_path" JNull meta with
  | JStr _ => True
  | v => truthy v = false
  end.


End Harness.

(** ** The admission gate ([g0_enter_work.py]) *)

Module Gate.

Record Args : Type := mkArgs {
  arg_contract : string;
  arg_evidence_out : option string;
}.

(** [worktree_branch] *)
Definition worktree_branch (entry : gmap string string) : option string :=
  match entry !! "branch" with
  | None => None
  | Some branch =>
      if String.eqb branch EmptyString then None
      else if String.prefix "refs/heads/" branch
           then Some (Str.drop (String.length "refs/heads/") branch)
           else Some branch
  end.

(** [current.get("path")] is set and not empty: the entry is recorded. *)
Definition flush (entries : gmap string (gmap string string)) (current : gmap string string)
    : gmap string (gmap string string) :=
  match current !! "path" with
  | Some p => if String.eqb p EmptyString then entries else <[p := current]> entries
  | None => entries
  end.

(** One line of [git worktree list --porcelain]. *)
Definition worktree_line (st : gmap string (gmap string string) * gmap string string)
    (line : string) : gmap string (gmap string string) * gmap string string :=
  let '(entries, current) := st in
  if String.prefix "worktree " line then
    (flush entries current,
     {[ "path" := Str.strip (match Str.cut " " line with
                             | Some (_, r) => r
                             | None => EmptyString
                             end) ]})
  else if negb (Str.nonblank line) then st
  else
    let '(key, val) :=
      match Str.cut " " line with
      | Some (k, v) => (k, v)
      | None => (line, EmptyString)
      end in
    (entries, <[key := Str.strip val]> current).

(** The loop of [parse_worktree_list] on the output of the command. *)
Definition parse_worktree_output (out : string) : gmap string (gmap string string) :=
  let '(entries, current) := fold_left worktree_line (Str.splitlines out) (∅, ∅) in
  flush entries current.

(** The values [main] reads from the contract, with their defaults. *)
Record Fields : Type := mkFields {
  packet_id : string;
  branch : string;
  base_ref : string;
  github_ops_required : bool;
  worktree_root : string;
  deny_if_exists : bool;
}.

Definition default_fields : Fields :=
  mkFields EmptyString EmptyString EmptyString false ".codex/.worktrees" true.

(** The local variables of [main] that reach the evidence record. *)
Record Locals : Type := mkLocals {
  l_repo_root : option string;
  l_fields : Fields;
  l_wt_root : option string;
  l_wt_path : option string;
  l_wt_list : gmap string (gmap string string);
  l_decision : Decision;
  l_worktree_created : bool;
  l_worktree_reused : bool;
  l_mismatch_detail : string;
  l_collision : bool;
  l_head_ref : string;
  l_head_sha : string;
  l_base_sha : string;
  l_base_is_ancestor : option bool;
  l_push_probe : option (Z * string * string);
}.

Definition set_decision (d : Decision) (l : Locals) : Locals :=
  mkLocals (l_repo_root l) (l_fields l) (l_wt_root l) (l_wt_path l) (l_wt_list l) d
           (l_worktree_created l) (l_worktree_reused l) (l_mismatch_detail l) (l_collision l)
           (l_head_ref l) (l_head_sha l) (l_base_sha l) (l_base_is_ancestor l) (l_push_probe l).

Definition deny_with (code msg : string) (l : Locals) : Locals :=
  set_decision (deny (l_decision l) code msg) l.

Section Run.
Context `{RT : Runtime} (w : World) (args : Args).

(** [run] *)
Definition run (cmd : list string) (cwd : option string) : result (Z * string * string) :=
  match w_run w (w_files w) cmd cwd with
  | Completed rc out err => Ok (rc, out, err)
  | NotStarted why => Raise (OSError why)
  end.

(** [Path.exists], as the machine answers when the gate asks. *)
Definition path_exists (p : string) : bool :=
  bool_decide (is_Some (w_files w !! p)) || w_dirs w p.

(** [d.mkdir(parents=True, exist_ok=True)] *)
Definition mkdir (d : string) : result unit :=
  match w_mkdir w d with
  | None => Ok tt
  | Some e => Raise (OSError e)
  end.

(** [git_root] *)
Definition git_root : result (option string) :=
  r <~ run ["git"; "rev-parse"; "--show-toplevel"] None ;;
  let '(rc, out, _) := r in
  Ok (if rc =? 0 then Some (path_str (Str.strip out)) else None).

(** [git_dir] *)
Definition git_dir (repo : string) : result (option string) :=
  r <~ run ["git"; "rev-parse"; "--git-dir"] (Some repo) ;;
  let '(rc, out, _) := r in
  Ok (if rc =? 0 then Some (w_resolve w (path_join repo (Str.strip out))) else None).

(** [git_rev_parse] *)
Definition git_rev_parse (repo ref : string) : result (option string) :=
  r <~ run ["git"; "rev-parse"; "--verify"; ref] (Some repo) ;;
  let '(rc, out, _) := r in
  Ok (if rc =? 0 then Some (Str.strip out) else None).

Definition markers : list string :=
  ["rebase-apply"; "rebase-merge"; "MERGE_HEAD"; "CHERRY_PICK_HEAD";
   "REVERT_HEAD"; "BISECT_LOG"; "BISECT_NAMES"].

(** [git_op_in_progress] *)
Definition git_op_in_progress (gitdir : string) : bool :=
  existsb (fun name => path_exists (path_join gitdir name)) markers.

(** [safe_read_json]: the document, [None] for Python's [None], and the
    error text. *)
Definition safe_read_json (path : string) : option json * option string :=
  match w_docs w path with
  | DocMissing _ => (None, Some ("contract not found: " +:+ path))
  | DocUnreadable e => (None, Some ("failed to parse contract json: " +:+ e))
  | DocJson JNull => (None, None)
  | DocJson v => (Some v, None)
  end.

(** [parse_worktree_list] *)
Definition parse_worktree_list (repo : string) : result (gmap string (gmap string string)) :=
  r <~ run ["git"; "worktree"; "list"; "--porcelain"] (Some repo) ;;
  let '(rc, out, _) := r in
  Ok (if rc =? 0 then parse_worktree_output out else ∅).

(** [default_evidence_path] *)
Definition default_evidence_path (contract : option json) : result string :=
  let finish out_dir packet_id :=
    path_join (path_join (path_str out_dir) packet_id) "g0_enter_work.json" in
  match contract with
  | None => Ok (finish ".codex/out" "unknown")
  | Some c =>
      if truthy c then
        pid <~ jget "packet_id" c ;;
        ev <~ jget "evidence" c ;;
        od <~ jget "out_dir" (py_or ev (JObj [])) ;;
        Ok (finish (py_str (py_or od (JStr ".codex/out")))
                   (py_str (py_or pid (JStr "unknown"))))
      else Ok (finish ".codex/out" "unknown")
  end.

(** The branch of [main] that reads the contract. *)
Definition read_fields (c : json) : result Fields :=
  pid <~ jget "packet_id" c ;;
  br <~ jget "branch" c ;;
  base <~ jget "base_ref" c ;;
  gh <~ jget_default "github_ops_required" (JBool false) c ;;
  pol <~ jget "worktree_policy" c ;;
  let policy := py_or pol (JObj []) in
  root <~ jget "worktree_root" policy ;;
  dny <~ jget_default "deny_if_worktree_exists" (JBool true) policy ;;
  Ok (mkFields (py_str (py_or pid (JStr EmptyString))) (py_str (py_or br (JStr EmptyString)))
               (py_str (py_or base (JStr EmptyString))) (truthy gh)
               (py_str (py_or root (JStr ".codex/.worktrees"))) (truthy dny)).

Definition nonempty (s : string) : bool := negb (String.eqb s EmptyString).

(** Contract completeness and repository presence; [wt_root], [wt_path]. *)
Definition start (repo_root : option string) (contract : option json)
    (contract_err : option string) : result Locals :=
  fd <~ (match contract with
         | None =>
             Ok (deny Decision_new "WORKTREE_MISMATCH"
                      (match contract_err with
                       | Some e => if nonempty e then e else "contract parse failed"
                       | None => "contract parse failed"
                       end),
                 default_fields)
         | Some c =>
             f <~ read_fields c ;;
             Ok (if nonempty (packet_id f) && nonempty (branch f) && nonempty (base_ref f)
                 then Decision_new
                 else deny Decision_new "WORKTREE_MISMATCH"
                           "contract missing packet_id/branch/base_ref",
                 f)
         end) ;;
  let '(decision, f) := fd in
  let decision :=
    match repo_root with
    | None => deny decision "WORKTREE_MISMATCH" "not a git repository"
    | Some _ => decision
    end in
  let wt_root :=
    match repo_root with
    | Some r => Some (path_join r (worktree_root f))
    | None => None
    end in
  let wt_path :=
    match wt_root with
    | Some r => if nonempty (packet_id f) then Some (path_join r (packet_id f)) else None
    | None => None
    end in
  Ok (mkLocals repo_root f wt_root wt_path ∅ decision false false EmptyString false
               EmptyString EmptyString EmptyString None None).

(** The live worktree registry. *)
Definition load_registry (l : Locals) : result Locals :=
  match l_repo_root l with
  | Some repo =>
      if allow (l_decision l) then
        wt_list <~ parse_worktree_list repo ;;
        Ok (mkLocals (l_repo_root l) (l_fields l) (l_wt_root l) (l_wt_path l) wt_list
                     (l_decision l) (l_worktree_created l) (l_worktree_reused l)
                     (l_mismatch_detail l) (l_collision l) (l_head_ref l) (l_head_sha l)
                     (l_base_sha l) (l_base_is_ancestor l) (l_push_probe l))
      else Ok l
  | None => Ok l
  end.

(** [decision.allow and wt_path and wt_path.exists()] *)
Definition present (l : Locals) : option string :=
  match l_wt_path l with
  | Some p => if allow (l_decision l) && path_exists p then Some p else None
  | None => None
  end.

(** Collision by policy. *)
Definition check_policy (l : Locals) : Locals :=
  match present l with
  | Some _ =>
      if deny_if_exists (l_fields l)
      then deny_with "WORKTREE_COLLISION" "worktree exists and deny_if_worktree_exists=true" l
      else l
  | None => l
  end.

(** [wt_path.resolve() in {Path(p).resolve() for p in wt_list.keys()}] *)
Definition registered (wt_list : gmap string (gmap string string)) (wt_path : string) : bool :=
  existsb (fun p => String.eqb (w_resolve w (path_str p)) (w_resolve w wt_path))
          (map fst (map_to_list wt_list)).

(** Collision with a path that is on disk and not in the registry. *)
Definition check_registered (l : Locals) : Locals :=
  match present l with
  | Some p =>
      if registered (l_wt_list l) p then l
      else
        deny_with "WORKTREE_COLLISION" "worktree path exists but is not registered"
          (mkLocals (l_repo_root l) (l_fields l) (l_wt_root l) (l_wt_path l) (l_wt_list l)
                    (l_decision l) (l_worktree_created l) (l_worktree_reused l)
                    (l_mismatch_detail l) true (l_head_ref l) (l_head_sha l)
                    (l_base_sha l) (l_base_is_ancestor l) (l_push_probe l))
  | None => l
  end.

(** [wt_list.get(str(wt_path)) or wt_list.get(str(wt_path.resolve()))],
    then [entry or {}] *)
Definition registry_entry (wt_list : gmap string (gmap string string)) (wt_path : string)
    : gmap string string :=
  let second := default ∅ (wt_list !! w_resolve w wt_path) in
  match wt_list !! wt_path with
  | Some e => if bool_decide (e = ∅) then second else e
  | None => second
  end.

(** Reuse validation. *)
Definition check_reuse (l : Locals) : Locals :=
  match present l with
  | Some p =>
      let wt_branch := worktree_branch (registry_entry (l_wt_list l) p) in
      let expected := branch (l_fields l) in
      if match wt_branch with
         | Some b => nonempty b && String.eqb b expected
         | None => false
         end
      then mkLocals (l_repo_root l) (l_fields l) (l_wt_root l) (l_wt_path l) (l_wt_list l)
                    (l_decision l) (l_worktree_created l) true
                    (l_mismatch_detail l) (l_collision l) (l_head_ref l) (l_head_sha l)
                    (l_base_sha l) (l_base_is_ancestor l) (l_push_probe l)
      else
        let detail :=
          "branch mismatch: expected " +:+ expected +:+ ", found " +:+
          match wt_branch with Some b => b | None => "None" end in
        deny_with "WORKTREE_MISMATCH" detail
          (mkLocals (l_repo_root l) (l_fields l) (l_wt_root l) (l_wt_path l) (l_wt_list l)
                    (l_decision l) (l_worktree_created l) (l_worktree_reused l)
                    detail (l_collision l) (l_head_ref l) (l_head_sha l)
                    (l_base_sha l) (l_base_is_ancestor l) (l_push_probe l))
  | None => l
  end.

(** [x.strip() or y.strip()] *)
Definition strip_or (x y : string) : string :=
  if nonempty (Str.strip x) then Str.strip x else Str.strip y.

(** Creation of the worktree when the path is not on disk, after the
    worktree root directory is made: [wt_root.mkdir(...)], where [None]
    has no such method. *)
Definition create (l : Locals) : result Locals :=
  match l_wt_path l, l_repo_root l with
  | Some p, Some repo =>
      if allow (l_decision l) && negb (path_exists p) then
        let f := l_fields l in
        _ <~ (match l_wt_root l with
              | Some r => mkdir r
              | None => Raise AttributeError
              end) ;;
        r <~ run ["git"; "show-ref"; "--verify"; "refs/heads/" +:+ branch f] (Some repo) ;;
        let '(rc_branch, _, _) := r in
        let cmd :=
          if rc_branch =? 0 then ["git"; "worktree"; "add"; p; branch f]
          else ["git"; "worktree"; "add"; "-b"; branch f; p; base_ref f] in
        r <~ run cmd (Some repo) ;;
        let '(rc, out, err) := r in
        if rc =? 0 then
          Ok (mkLocals (l_repo_root l) (l_fields l) (l_wt_root l) (l_wt_path l) (l_wt_list l)
                       (l_decision l) true (l_worktree_reused l)
                       (l_mismatch_detail l) (l_collision l) (l_head_ref l) (l_head_sha l)
                       (l_base_sha l) (l_base_is_ancestor l) (l_push_probe l))
        else
          Ok (deny_with "WORKTREE_MISMATCH" ("git worktree add failed: " +:+ strip_or err out) l)
      else Ok l
  | _, _ => Ok l
  end.

(** In-progress operation guard. *)
Definition check_git_op (l : Locals) : result Locals :=
  match l_wt_path l with
  | Some p =>
      if allow (l_decision l) then
        gdir <~ git_dir p ;;
        match gdir with
        | Some g =>
            if git_op_in_progress g
            then Ok (deny_with "GIT_OP_IN_PROGRESS" "git operation in progress in worktree" l)
            else Ok l
        | None => Ok l
        end
      else Ok l
  | None => Ok l
  end.

(** Ancestry check. *)
Definition check_ancestry (l : Locals) : result Locals :=
  match l_wt_path l, l_repo_root l with
  | Some p, Some repo =>
      if allow (l_decision l) && nonempty (base_ref (l_fields l)) then
        b <~ git_rev_parse repo (base_ref (l_fields l)) ;;
        let base_sha := default EmptyString b in
        r <~ run ["git"; "rev-parse"; "HEAD"] (Some p) ;;
        let '(rc, out, _) := r in
        let head_sha := if rc =? 0 then Str.strip out else EmptyString in
        r <~ run ["git"; "rev-parse"; "--abbrev-ref"; "HEAD"] (Some p) ;;
        let '(rc, out, _) := r in
        let head_ref := if rc =? 0 then Str.strip out else EmptyString in
        let with_heads anc :=
          mkLocals (l_repo_root l) (l_fields l) (l_wt_root l) (l_wt_path l) (l_wt_list l)
                   (l_decision l) (l_worktree_created l) (l_worktree_reused l)
                   (l_mismatch_detail l) (l_collision l) head_ref head_sha
                   base_sha anc (l_push_probe l) in
        if nonempty base_sha then
          r <~ run ["git"; "merge-base"; "HEAD"; base_sha] (Some p) ;;
          let '(rc, out, _) := r in
          let base_is_ancestor := (rc =? 0) && String.eqb (Str.strip out) base_sha in
          if base_is_ancestor then Ok (with_heads (Some true))
          else Ok (deny_with "WORKTREE_MISMATCH" "base_ref is not an ancestor of worktree HEAD"
                             (with_heads (Some false)))
        else Ok (with_heads None)
      else Ok l
  | _, _ => Ok l
  end.

(** Push probe. *)
Definition probe_push (l : Locals) : result Locals :=
  match l_wt_path l with
  | Some p =>
      if allow (l_decision l) then
        r <~ run ["git"; "push"; "--dry-run"; "-u"; "origin"; "HEAD:" +:+ branch (l_fields l)]
                 (Some p) ;;
        let '(rc, _, _) := r in
        let l' :=
          mkLocals (l_repo_root l) (l_fields l) (l_wt_root l) (l_wt_path l) (l_wt_list l)
                   (l_decision l) (l_worktree_created l) (l_worktree_reused l)
                   (l_mismatch_detail l) (l_collision l) (l_head_ref l) (l_head_sha l)
                   (l_base_sha l) (l_base_is_ancestor l) (Some r) in
        if github_ops_required (l_fields l) && negb (rc =? 0)
        then Ok (deny_with "GH_PUSH_DENIED" "git push --dry-run failed" l')
        else Ok l'
      else Ok l
  | None => Ok l
  end.

Definition opt_str (o : option string) : json :=
  match o with
  | Some s => JStr s
  | None => JNull
  end.

(** [s or None] *)
Definition str_or_none (s : string) : json :=
  if nonempty s then JStr s else JNull.

Definition decision_word (d : Decision) : string :=
  if allow d then "ALLOW" else "DENY".

(** The evidence record. *)
Definition evidence_of (l : Locals) : json :=
  let f := l_fields l in
  JObj [
    ("stage", JStr "G0");
    ("timestamp_utc", JStr (w_clock w 0));
    ("repo_root", opt_str (l_repo_root l));
    ("packet_id", JStr (packet_id f));
    ("branch", JStr (branch f));
    ("base_ref", JStr (base_ref f));
    ("base_sha", str_or_none (l_base_sha l));
    ("head_ref", JStr (l_head_ref l));
    ("head_sha", str_or_none (l_head_sha l));
    ("github_ops_required", JBool (github_ops_required f));
    ("worktree_root", JStr (worktree_root f));
    ("deny_if_worktree_exists", JBool (deny_if_exists f));
    ("worktree_path", opt_str (l_wt_path l));
    ("worktree_created", JBool (l_worktree_created l));
    ("worktree_reused", JBool (l_worktree_reused l));
    ("collision", JBool (l_collision l));
    ("mismatch_detail", str_or_none (l_mismatch_detail l));
    ("base_ref_is_ancestor",
       match l_base_is_ancestor l with Some b => JBool b | None => JNull end);
    ("push_probe",
       match l_push_probe l with
       | Some (rc, out, err) => JObj [("rc", JInt rc); ("stdout", JStr out); ("stderr", JStr err)]
       | None => JObj []
       end);
    ("decision", JStr (decision_word (l_decision l)));
    ("deny_code", opt_str (deny_code (l_decision l)));
    ("message", opt_str (message (l_decision l)))].

(** The checks of [main], in order, up to the point where the evidence
    record is built. *)
Definition checks : result (string * Locals) :=
  repo_root <~ git_root ;;
  let '(contract, contract_err) := safe_read_json (path_str (arg_contract args)) in
  evidence_path <~
    (match arg_evidence_out args with
     | Some p => if nonempty p then Ok (path_str p) else default_evidence_path contract
     | None => default_evidence_path contract
     end) ;;
  _ <~ mkdir (path_parent evidence_path) ;;
  l <~ start repo_root contract contract_err ;;
  l <~ load_registry l ;;
  let l := check_reuse (check_registered (check_policy l)) in
  l <~ create l ;;
  l <~ check_git_op l ;;
  l <~ check_ancestry l ;;
  l <~ probe_push l ;;
  Ok (evidence_path, l).

(** What a run that reaches the end of [main] leaves: the record written
    to [out_path], and the value returned. *)
Record Outcome : Type := mkOutcome {
  out_path : string;
  out_evidence : json;
  out_locals : Locals;
  out_code : Z;
}.

Definition main_report : result Outcome :=
  pl <~ checks ;;
  let '(evidence_path, l) := pl in
  Ok (mkOutcome evidence_path (evidence_of l) l (if allow (l_decision l) then 0 else 2)).

(** [evidence_path.write_text(...)]: a write that raises leaves the files
    as they are. *)
Definition write_text (p text : string) (fs : gmap string string)
    : result unit * gmap string string :=
  match w_write w p with
  | None => (Ok tt, <[p := text]> fs)
  | Some e => (Raise (OSError e), fs)
  end.

(** [main] on the file system: the evidence record is the one file it
    writes, last of all, and the value returned follows the write. *)
Definition main (fs : gmap string string) : result Z * gmap string string :=
  match main_report with
  | Ok o =>
      match write_text (out_path o) (json_dumps (out_evidence o) +:+ LF) fs with
      | (Ok _, fs') => (Ok (out_code o), fs')
      | (Raise e, fs') => (Raise e, fs')
      end
  | Raise e => (Raise e, fs)
  end.

End Run.

(** *** The words of the gate's properties *)

(** Every directory the gate asks for can be made. *)
Definition makes_dirs (w : World) : Prop := forall d, w_mkdir w d = None.

(** What the later checks leave untouched. *)
Definition static (l : Locals) :=
  (l_repo_root l, l_fields l, l_wt_root l, l_wt_path l, l_wt_list l).

(** A value that is falsy, or a dict: [v or {}] has a [get] method. *)
Definition dict_or_falsy (v : json) : Prop :=
  truthy v = false \/ exists m, v = JObj m.

(** A contract whose members have the types [main] relies on. *)
Definition well_shaped (c : json) : Prop :=
  exists m, c = JObj m
            /\ dict_or_falsy (dict_get "worktree_policy" JNull m)
            /\ dict_or_falsy (dict_get "evidence" JNull m).

(** The codes with which the checks after the reuse validation deny. *)
Definition later_denial (d : Decision) : Prop :=
  (deny_code d = Some "GIT_OP_IN_PROGRESS"
   /\ message d = Some "git operation in progress in worktree")
  \/ (deny_code d = Some "WORKTREE_MISMATCH"
      /\ message d = Some "base_ref is not an ancestor of worktree HEAD")
  \/ (deny_code d = Some "GH_PUSH_DENIED" /\ message d = Some "git push --dry-run failed").

(** What the checks on the worktree path find. *)
Definition findings (l : Locals) :=
  (l_worktree_created l, l_worktree_reused l, l_mismatch_detail l, l_collision l).

(** What the ancestry check reads. *)
Definition heads (l : Locals) :=
  (l_head_ref l, l_head_sha l, l_base_sha l, l_base_is_ancestor l).

(** Every entry of a registry is filed under its own path, and holds
    stripped values. *)
Definition filed (entries : gmap string (gmap string string)) : Prop :=
  forall k e,
    entries !! k = Some e ->
    e !! "path" = Some k /\ k <> EmptyString
    /\ forall key v, e !! key = Some v -> Str.strip v = v.

(** [packet_id and branch and base_ref]: the contract names all three. *)
Definition complete (f : Fields) : bool :=
  negb (String.eqb (packet_id f) EmptyString) && negb (String.eqb (branch f) EmptyString)
  && negb (String.eqb (base_ref f) EmptyString).

(** A later check keeps what was found before it, and denies, if it does,
    with its own code. *)
Definition advances (l l' : Locals) : Prop :=
  static l' = static l
  /\ l_worktree_created l' = l_worktree_created l
  /\ l_worktree_reused l' = l_worktree_reused l
  /\ (l_decision l' = l_decision l
      \/ (allow (l_decision l) = true /\ allow (l_decision l') = false
          /\ later_denial (l_decision l'))).

End Gate.

(** ** A concrete runtime and concrete machines

    An instance of [Runtime] on POSIX paths, and the machines on which the
    properties below are run. *)

Module Demo.

Inductive token : Type :=
| TStar
| TAny
| TLit (c : ascii)
| TClass (negated : bool) (ranges : list (ascii * ascii)).

(** The text of a bracket expression up to its closing bracket, which may
    not be the first character. *)
Fixpoint class_body (first : bool) (s : string) : option (string * string) :=
  match s with
  | EmptyString => None
  | String c r =>
      if Ascii.eqb c "]" && negb first then Some (EmptyString, r)
      else match class_body false r with
           | Some (body, rest) => Some (String c body, rest)
           | None => None
           end
  end.

Fixpoint class_ranges (s : string) : list (ascii * ascii) :=
  match s with
  | EmptyString => []
  | String a (String "-" (String b r)) => (a, b) :: class_ranges r
  | String a r => (a, a) :: class_ranges r
  end.

Fixpoint tokens (fuel : nat) (pat : string) : list token :=
  match fuel, pat with
  | O, _ => []
  | _, EmptyString => []
  | S fuel', String c r =>
      if Ascii.eqb c "*" then TStar :: tokens fuel' r
      else if Ascii.eqb c "?" then TAny :: tokens fuel' r
      else if Ascii.eqb c "[" then
        let '(negated, r') :=
          match r with
          | String "!" r'' => (true, r'')
          | _ => (false, r)
          end in
        match class_body true r' with
        | Some (body, rest) => TClass negated (class_ranges body) :: tokens fuel' rest
        | None => TLit c :: tokens fuel' r
        end
      else TLit c :: tokens fuel' r
  end.

Definition in_range (c : ascii) (ab : ascii * ascii) : bool :=
  (nat_of_ascii (fst ab) <=? nat_of_ascii c)%nat && (nat_of_ascii c <=? nat_of_ascii (snd ab))%nat.

Fixpoint glob (pat : list token) (s : string) : bool :=
  match pat with
  | [] => String.eqb s EmptyString
  | TStar :: pat' =>
      (fix star (s : string) : bool :=
         glob pat' s || match s with
                        | EmptyString => false
                        | String _ r => star r
                        end) s
  | TAny :: pat' =>
      match s with
      | String _ r => glob pat' r
      | EmptyString => false
      end
  | TLit c :: pat' =>
      match s with
      | String d r => Ascii.eqb c d && glob pat' r
      | EmptyString => false
      end
  | TClass negated ranges :: pat' =>
      match s with
      | String d r => xorb negated (existsb (in_range d) ranges) && glob pat' r
      | EmptyString => false
      end
  end.

(** Shell-style matching of a whole name, case sensitive. *)
Definition glob_match (name pat : string) : bool :=
  glob (tokens (String.length pat) pat) name.

(** [Path(a) / b] on normalized POSIX paths. *)
Definition posix_join (a b : string) : string :=
  if String.prefix "/" b then b
  else if String.eqb b EmptyString then a
  else a +:+ "/" +:+ b.

(** The text before the last slash of a path, if it has a slash. *)
Fixpoint before_last_slash (s : string) : option string :=
  match s with
  | EmptyString => None
  | String c r =>
      match before_last_slash r with
      | Some p => Some (String c p)
      | None => if Ascii.eqb c "/" then Some EmptyString else None
      end
  end.

(** [Path(s).parent] on normalized POSIX paths. *)
Definition posix_parent (s : string) : string :=
  match before_last_slash s with
  | Some EmptyString => "/"
  | Some p => p
  | None => "."
  end.

Definition quote (s : string) : string :=
  String (Str.chr 34) s +:+ String (Str.chr 34) EmptyString.

Definition decimal (n : Z) : string :=
  NilZero.string_of_int (Z.to_int n).

(** A one-line rendering of a document. *)
Fixpoint compact (v : json) : string :=
  match v with
  | JNull => "null"
  | JBool true => "true"
  | JBool false => "false"
  | JInt n => decimal n
  | JFloat q => decimal (Qnum q) +:+ "/" +:+ decimal (Zpos (Qden q))
  | JStr s => quote s
  | JArr l => "[" +:+ Str.join "," (map compact l) +:+ "]"
  | JObj m =>
      "{" +:+ Str.join "," (map (fun kv => match kv with
                                           | (k, x) => quote k +:+ ":" +:+ compact x
                                           end) m) +:+ "}"
  end.

Definition scalar_repr (v : json) : string :=
  match v with
  | JNull => "None"
  | JBool true => "True"
  | JBool false => "False"
  | JInt n => decimal n
  | _ => compact v
  end.

Definition posix : Runtime := {|
  fnmatch := glob_match;
  py_repr := scalar_repr;
  json_dumps := compact;
  sha256_hex := fun text => "sha256(" +:+ text +:+ ")";
  path_str := fun s => s;
  path_join := posix_join;
  path_parent := posix_parent;
|}.

Definition cmd_eqb (a b : list string) : bool :=
  (length a =? length b)%nat && forallb (fun xy => String.eqb (fst xy) (snd xy)) (combine a b).

(** A machine whose commands answer from a table: a listed command
    succeeds with the listed output, any other fails with status 1. *)
Definition answers (table : list (list string * string)) (cmd : list string) : proc :=
  match List.find (fun row => cmd_eqb (fst row) cmd) table with
  | Some row => Completed 0 (snd row) EmptyString
  | None => Completed 1 EmptyString "fatal"
  end.

Definition clock (n : nat) : string :=
  match n with
  | O => "2026-01-01T00:00:00Z"
  | _ => "2026-01-01T00:00:01Z"
  end.

Definition machine (table : list (list string * string)) (files : gmap string string)
    (dirs : list string) (docs : list (string * json)) : World :=
  mkWorld (fun _ cmd _ => answers table cmd)
          files
          (fun p => existsb (String.eqb p) dirs)
          (fun p => match List.find (fun row => String.eqb (fst row) p) docs with
                    | Some row => DocJson (snd row)
                    | None => DocMissing "No such file or directory"
                    end)
          (fun p => p)
          clock
          (fun d => if bool_decide (is_Some (files !! d))
                    then Some ("[Errno 17] File exists: " +:+ d) else None)
          (fun p => if existsb (String.eqb p) dirs
                    then Some ("[Errno 21] Is a directory: " +:+ p) else None).

Definition line (s : string) : string := s +:+ LF.
Definition tabbed (a b c : string) : string :=
  a +:+ String TAB b +:+ String TAB c.

(** *** The harness on a change outside the allowed paths *)

Definition contract_src_only : json :=
  JObj [("packet_id", JStr "p1"); ("branch", JStr "feat/p1"); ("base_ref", JStr "main");
        ("allowed_paths", JArr [JStr "src/"])].

Definition git_docs_change : list (list string * string) :=
  [ (["git"; "rev-parse"; "--show-toplevel"], line "/repo");
    (["git"; "rev-parse"; "HEAD"], line "abc123");
    (["git"; "status"; "--porcelain"], line " M docs/readme.md");
    (["git"; "diff"; "--name-only"; "abc123"], line "docs/readme.md");
    (["git"; "diff"; "--stat"; "abc123"], line " docs/readme.md | 2 +-");
    (["git"; "show"; "--name-only"; "--pretty=format:"; "abc123"], EmptyString);
    (["git"; "diff"; "--numstat"; "abc123"], line (tabbed "1" "1" "docs/readme.md")) ].

Definition world_docs_change : World :=
  machine git_docs_change ∅ [] [("/repo/contract.json", contract_src_only)].

Definition harness_args : Harness.Args := Harness.mkArgs "contract.json" None.

(** [contract_src_only] as [main] reads it. *)
Definition config_src_only : Harness.Config :=
  Harness.mkConfig "p1" "main" "feat/p1" [JStr "src/"] [] [] [] ".codex/out" false.

(** The same, with a run-metadata record that declares ALLOW. *)
Definition meta_allow : json :=
  JObj [("decision", JStr "ALLOW"); ("reasons", JArr [JStr "tests passed"])].

Definition world_docs_change_meta : World :=
  machine git_docs_change ∅ []
          [("/repo/contract.json", contract_src_only); ("/repo/meta.json", meta_allow)].

Definition harness_args_meta : Harness.Args := Harness.mkArgs "contract.json" (Some "meta.json").

(** *** The harness on a budget of ten changed lines *)

Definition contract_budget : json :=
  JObj [("packet_id", JStr "p1"); ("branch", JStr "feat/p1"); ("base_ref", JStr "main");
        ("budgets", JObj [("max_changed_lines", JInt 10)])].

Definition git_twelve_lines : list (list string * string) :=
  [ (["git"; "rev-parse"; "--show-toplevel"], line "/repo");
    (["git"; "rev-parse"; "HEAD"], line "abc123");
    (["git"; "status"; "--porcelain"], line " M src/a.py");
    (["git"; "diff"; "--name-only"; "abc123"], line "src/a.py");
    (["git"; "diff"; "--stat"; "abc123"], line " src/a.py | 12 ++++--------");
    (["git"; "show"; "--name-only"; "--pretty=format:"; "abc123"], EmptyString);
    (["git"; "diff"; "--numstat"; "abc123"], line (tabbed "4" "8" "src/a.py")) ].

Definition config_budget : Harness.Config :=
  Harness.mkConfig "p1" "main" "feat/p1" [] [] [("max_changed_lines", JInt 10)] []
                   ".codex/out" false.

Definition world_twelve_lines : World :=
  machine git_twelve_lines ∅ [] [("/repo/contract.json", contract_budget)].

(** *** The harness run again after the repository moved on *)

Definition raw_of_first_run : gmap string string :=
  {[ "/repo/.codex/out/p1/raw/head_before.txt" := line "abc123";
     "/repo/.codex/out/p1/raw/status_before.txt" := EmptyString ]}.

Definition git_moved_on : list (list string * string) :=
  [ (["git"; "rev-parse"; "--show-toplevel"], line "/repo");
    (["git"; "rev-parse"; "HEAD"], line "def456");
    (["git"; "status"; "--porcelain"], line "?? notes.txt");
    (["git"; "diff"; "--name-only"; "abc123"], line "src/a.py");
    (["git"; "diff"; "--numstat"; "abc123"], line (tabbed "4" "8" "src/a.py")) ].

Definition world_second_run : World :=
  machine git_moved_on raw_of_first_run [] [("/repo/contract.json", contract_budget)].

(** *** The gate on a worktree that is already there *)

Definition registry_output : string :=
  line "worktree /repo" +:+ line "HEAD aaa111" +:+ line "branch refs/heads/main" +:+
  line EmptyString +:+
  line "worktree /repo/.codex/.worktrees/p1" +:+ line "HEAD bbb222" +:+
  line "branch refs/heads/feat/p1" +:+ line EmptyString.

Definition git_gate : list (list string * string) :=
  [ (["git"; "rev-parse"; "--show-toplevel"], line "/repo");
    (["git"; "worktree"; "list"; "--porcelain"], registry_output);
    (["git"; "rev-parse"; "--git-dir"], line "/repo/.git/worktrees/p1");
    (["git"; "rev-parse"; "--verify"; "main"], line "aaa111");
    (["git"; "rev-parse"; "HEAD"], line "bbb222");
    (["git"; "rev-parse"; "--abbrev-ref"; "HEAD"], line "feat/p1");
    (["git"; "merge-base"; "HEAD"; "aaa111"], line "aaa111");
    (["git"; "push"; "--dry-run"; "-u"; "origin"; "HEAD:feat/p1"], EmptyString) ].

(** The contract leaves [worktree_policy] out: [deny_if_worktree_exists]
    is true. *)
Definition contract_default_policy : json :=
  JObj [("packet_id", JStr "p1"); ("branch", JStr "feat/p1"); ("base_ref", JStr "main")].

Definition contract_resume : json :=
  JObj [("packet_id", JStr "p1"); ("branch", JStr "feat/p1"); ("base_ref", JStr "main");
        ("worktree_policy", JObj [("deny_if_worktree_exists", JBool false)])].

(** [worktree_policy] is a string. *)
Definition contract_policy_string : json :=
  JObj [("packet_id", JStr "p1"); ("branch", JStr "feat/p1"); ("base_ref", JStr "main");
        ("worktree_policy", JStr "strict")].

Definition gate_world (contract : json) : World :=
  machine git_gate ∅ ["/repo/.codex/.worktrees/p1"] [("contract.json", contract)].

Definition gate_args : Gate.Args := Gate.mkArgs "contract.json" None.

(** A machine without a [git] executable: no command can be started. *)
Definition no_git : string := "[Errno 2] No such file or directory: 'git'".

Definition gate_world_no_git : World :=
  mkWorld (fun _ _ _ => NotStarted no_git)
          ∅
          (fun _ => false)
          (fun p => if String.eqb p "contract.json" then DocJson contract_resume
                    else DocMissing "No such file or directory")
          (fun p => p)
          clock
          (fun _ => None)
          (fun _ => None).

(** *** The harness on contracts it cannot read, and on failing tests *)

(** The contract file holds a list. *)
Definition world_contract_list : World :=
  machine git_docs_change ∅ [] [("/repo/contract.json", JArr [JStr "src/"])].

(** A change within the allowed paths, a test command, and a run-metadata
    record that reports its failure. *)
Definition contract_tested : json :=
  JObj [("packet_id", JStr "p1"); ("branch", JStr "feat/p1"); ("base_ref", JStr "main");
        ("allowed_paths", JArr [JStr "src/"]);
        ("run", JObj [("test_cmd", JStr "pytest -q")])].

Definition config_tested : Harness.Config :=
  Harness.mkConfig "p1" "main" "feat/p1" [JStr "src/"] [] [] [("test_cmd", JStr "pytest -q")]
                   ".codex/out" false.

Definition meta_tests_failed : json := JObj [("test_rc", JInt 1)].

Definition world_tests_failed : World :=
  machine git_twelve_lines ∅ []
          [("/repo/contract.json", contract_tested); ("/repo/meta.json", meta_tests_failed)].

(** A repository in which every [git diff] fails. *)
Definition git_no_diff : list (list string * string) :=
  [ (["git"; "rev-parse"; "--show-toplevel"], line "/repo");
    (["git"; "rev-parse"; "HEAD"], line "abc123");
    (["git"; "status"; "--porcelain"], EmptyString) ].

Definition world_diff_fails : World :=
  machine git_no_diff ∅ [] [("/repo/contract.json", contract_src_only)].

(** *** The harness on a change across several directories *)

(** A directory and a glob are allowed. *)
Definition contract_src_and_docs : json :=
  JObj [("packet_id", JStr "p1"); ("branch", JStr "feat/p1"); ("base_ref", JStr "main");
        ("allowed_paths", JArr [JStr "./src/"; JStr "docs/*.md"])].

Definition config_src_and_docs : Harness.Config :=
  Harness.mkConfig "p1" "main" "feat/p1" [JStr "./src/"; JStr "docs/*.md"] [] [] []
                   ".codex/out" false.

Definition git_mixed_change : list (list string * string) :=
  [ (["git"; "rev-parse"; "--show-toplevel"], line "/repo");
    (["git"; "rev-parse"; "HEAD"], line "abc123");
    (["git"; "status"; "--porcelain"],
     line " M docs/readme.md" +:+ line "?? notes.txt" +:+ line " M src/a.py" +:+
     line " M src2/b.py");
    (["git"; "diff"; "--name-only"; "abc123"],
     line "docs/readme.md" +:+ line "notes.txt" +:+ line "src/a.py" +:+ line "src2/b.py");
    (["git"; "show"; "--name-only"; "--pretty=format:"; "abc123"], EmptyString);
    (["git"; "diff"; "--numstat"; "abc123"],
     line (tabbed "1" "1" "docs/readme.md") +:+ line (tabbed "3" "0" "notes.txt") +:+
     line (tabbed "2" "2" "src/a.py") +:+ line (tabbed "5" "0" "src2/b.py")) ].

Definition world_mixed_change : World :=
  machine git_mixed_change ∅ [] [("/repo/contract.json", contract_src_and_docs)].

(** *** The gate on other machines *)

(** The contract file named on the command line is not there. *)
Definition gate_args_missing : Gate.Args := Gate.mkArgs "missing.json" None.

(** The base reference does not resolve: [git rev-parse --verify] fails. *)
Definition git_gate_no_base : list (list string * string) :=
  [ (["git"; "rev-parse"; "--show-toplevel"], line "/repo");
    (["git"; "worktree"; "list"; "--porcelain"], registry_output);
    (["git"; "rev-parse"; "--git-dir"], line "/repo/.git/worktrees/p1");
    (["git"; "rev-parse"; "HEAD"], line "bbb222");
    (["git"; "rev-parse"; "--abbrev-ref"; "HEAD"], line "feat/p1");
    (["git"; "push"; "--dry-run"; "-u"; "origin"; "HEAD:feat/p1"], EmptyString) ].

Definition gate_world_no_base : World :=
  machine git_gate_no_base ∅ ["/repo/.codex/.worktrees/p1"] [("contract.json", contract_resume)].

(** The evidence path given on the command line is a directory. *)
Definition gate_args_docs : Gate.Args := Gate.mkArgs "contract.json" (Some "docs").

Definition gate_world_docs : World :=
  machine git_gate ∅ ["/repo/.codex/.worktrees/p1"; "docs"] [("contract.json", contract_resume)].

(** The directory of the evidence path is a regular file. *)
Definition gate_args_blocked : Gate.Args := Gate.mkArgs "contract.json" (Some "out/g0.json").

Definition gate_world_blocked : World :=
  machine git_gate {[ "out" := "not a directory" ]} ["/repo/.codex/.worktrees/p1"]
          [("contract.json", contract_resume)].

(** A contract that requires GitHub operations, in a repository where the
    worktree is not made yet and nothing can be pushed. *)
Definition contract_github : json :=
  JObj [("packet_id", JStr "p1"); ("branch", JStr "feat/p1"); ("base_ref", JStr "main");
        ("github_ops_required", JBool true)].

Definition git_fresh : list (list string * string) :=
  [ (["git"; "rev-parse"; "--show-toplevel"], line "/repo");
    (["git"; "worktree"; "list"; "--porcelain"],
     line "worktree /repo" +:+ line "HEAD aaa111" +:+ line "branch refs/heads/main");
    (["git"; "worktree"; "add"; "-b"; "feat/p1"; "/repo/.codex/.worktrees/p1"; "main"],
     EmptyString);
    (["git"; "rev-parse"; "--git-dir"], line "/repo/.git/worktrees/p1");
    (["git"; "rev-parse"; "--verify"; "main"], line "aaa111");
    (["git"; "rev-parse"; "HEAD"], line "aaa111");
    (["git"; "rev-parse"; "--abbrev-ref"; "HEAD"], line "feat/p1");
    (["git"; "merge-base"; "HEAD"; "aaa111"], line "aaa111") ].

Definition gate_world_fresh : World :=
  machine git_fresh ∅ [] [("contract.json", contract_github)].

End Demo.

(** * Properties *)

(** ** The decision accumulator *)

Lemma deny_denied (d : Decision) (code msg : string) :
  allow d = false -> deny d code msg = d.
Proof. intros Hd. unfold deny. now rewrite Hd. Qed.

Lemma deny_all_denied (calls : list (string * string)) (d : Decision) :
  allow d = false -> deny_all d calls = d.
Proof.
  induction calls as [|[c m] calls IH]; intros Hd; [reflexivity|].
  unfold deny_all in *. cbn [fold_left fst snd].
  rewrite (deny_denied d c m Hd). now apply IH.
Qed.

Lemma deny_allow_false (d : Decision) (code msg : string) :
  allow (deny d code msg) = false.
Proof. unfold deny. destruct (allow d) eqn:E; [reflexivity | exact E]. Qed.

(** C4: on a decision that allows, the first [deny] call sets [allow] to
    false and records its own code and message; the decision after any
    sequence of calls is the one the first call made, a further call leaves
    it as it is, and [allow] is true at the end only if it was true at the
    start and no call was made. *)
Theorem deny_first_wins (dc ms : option string) (c m : string)
    (rest : list (string * string)) (c' m' : string) :
  deny (mkDecision true dc ms) c m = mkDecision false (Some c) (Some m)
  /\ deny_all (mkDecision true dc ms) ((c, m) :: rest) = mkDecision false (Some c) (Some m)
  /\ deny (deny_all (mkDecision true dc ms) ((c, m) :: rest)) c' m'
     = deny_all (mkDecision true dc ms) ((c, m) :: rest)
  /\ (forall (d0 : Decision) (calls : list (string * string)),
        allow (deny_all d0 calls)
        = allow d0 && match calls with [] => true | _ => false end).
Proof.
  assert (Hall : deny_all (mkDecision true dc ms) ((c, m) :: rest)
                 = mkDecision false (Some c) (Some m)).
  { unfold deny_all. cbn [fold_left fst snd]. apply (deny_all_denied rest). reflexivity. }
  split; [reflexivity|]. split; [exact Hall|]. split.
  - rewrite Hall. reflexivity.
  - intros d0 calls. destruct calls as [|[c0 m0] calls].
    + cbn. now rewrite andb_true_r.
    + rewrite andb_false_r. unfold deny_all. cbn [fold_left fst snd].
      pose proof (deny_allow_false d0 c0 m0) as Hf.
      fold (deny_all (deny d0 c0 m0) calls).
      now rewrite (deny_all_denied calls _ Hf).
Qed.

(** ** The path matcher *)

Section PathMatcherFacts.
Context `{RT : Runtime}.

Lemma normalize_path_lead (lead p : string) :
  Forall lead_char (list_ascii_of_string lead) ->
  normalize_path (lead +:+ p) = normalize_path p.
Proof.
  unfold normalize_path, Str.lstrip_chars.
  induction lead as [|c lead IH]; intros Hl; [reflexivity|].
  cbn [list_ascii_of_string] in Hl. inversion Hl as [|? ? Hc Hrest]; subst.
  cbn [String.append Str.replace_char Str.lstrip_by].
  destruct Hc as [-> | ->]; cbn; now apply IH.
Qed.

Lemma lstrip_by_head (f : ascii -> bool) (s : string) :
  match Str.lstrip_by f s with
  | String c _ => f c = false
  | EmptyString => True
  end.
Proof.
  induction s as [|c s IH]; [exact I|].
  cbn [Str.lstrip_by]. destruct (f c) eqn:E; [exact IH | exact E].
Qed.

Lemma normalize_path_head (p : string) :
  match normalize_path p with
  | String c _ => c <> "."%char /\ c <> "/"%char
  | EmptyString => True
  end.
Proof.
  unfold normalize_path, Str.lstrip_chars.
  pose proof (lstrip_by_head (Str.in_chars "./") (Str.replace_char "\" "/" p)) as Hh.
  destruct (Str.lstrip_by _ _) as [|c r]; [exact I|].
  split; intros ->; discriminate Hh.
Qed.

Lemma matches_allowed_norm (a b : string) (allowed : list string) :
  normalize_path a = normalize_path b ->
  matches_allowed a allowed = matches_allowed b allowed.
Proof.
  intros E. induction allowed as [|x allowed IH]; [reflexivity|].
  cbn [matches_allowed]. now rewrite E, IH.
Qed.

Lemma matches_any_norm (a b : string) (patterns : list string) :
  normalize_path a = normalize_path b ->
  matches_any a patterns = matches_any b patterns.
Proof.
  intros E. induction patterns as [|x patterns IH]; [reflexivity|].
  cbn [matches_any]. now rewrite E, IH.
Qed.

Lemma pattern_hit_norm (p a b : string) :
  normalize_path a = normalize_path b -> pattern_hit p a = pattern_hit p b.
Proof. intros E. unfold pattern_hit. now rewrite E. Qed.

(** C9: [normalize_path] drops every leading [.] and [/] (after turning
    backslashes into slashes), from paths and from patterns alike: what is
    left starts with neither, a path or a pattern with such characters put
    in front matches exactly as without them, and so [.codex/x] is matched
    by the pattern [codex/] and cannot be told from [codex/x]. *)
Theorem normalize_path_forgets_leading_dots (lead p : string) (patterns : list string) :
  Forall lead_char (list_ascii_of_string lead) ->
  normalize_path p = Str.lstrip_chars "./" (Str.replace_char "\" "/" p)
  /\ normalize_path (lead +:+ p) = normalize_path p
  /\ match normalize_path p with
     | String c _ => c <> "."%char /\ c <> "/"%char
     | EmptyString => True
     end
  /\ matches_allowed (lead +:+ p) patterns = matches_allowed p patterns
  /\ matches_any (lead +:+ p) patterns = matches_any p patterns
  /\ (forall a rest, matches_allowed p ((lead +:+ a) :: rest) = matches_allowed p (a :: rest))
  /\ (forall a rest, matches_any p ((lead +:+ a) :: rest) = matches_any p (a :: rest))
  /\ normalize_path ".codex/x" = "codex/x"
  /\ matches_allowed ".codex/x" ["codex/"] = true
  /\ matches_any ".codex/x" ["codex/"] = true
  /\ matches_allowed ".codex/x" patterns = matches_allowed "codex/x" patterns
  /\ matches_any ".codex/x" patterns = matches_any "codex/x" patterns.
Proof.
  intros Hl.
  pose proof (normalize_path_lead lead p Hl) as Hn.
  repeat split.
  - exact Hn.
  - apply normalize_path_head.
  - now apply matches_allowed_norm.
  - now apply matches_any_norm.
  - intros a rest. cbn [matches_allowed].
    now rewrite (pattern_hit_norm _ _ _ (normalize_path_lead lead a Hl)).
  - intros a rest. cbn [matches_any].
    now rewrite (pattern_hit_norm _ _ _ (normalize_path_lead lead a Hl)).
  - now apply matches_allowed_norm.
  - now apply matches_any_norm.
Qed.

End PathMatcherFacts.

(** C9 on a path below two leading dots and a slash. *)
Lemma normalize_path_forgets_leading_dots_witness :
  Forall lead_char (list_ascii_of_string "../")
  /\ @matches_allowed Demo.posix ("../" +:+ "codex/x") ["codex/"]
     = @matches_allowed Demo.posix "codex/x" ["codex/"].
Proof.
  assert (Hl : Forall lead_char (list_ascii_of_string "../")).
  { cbn. repeat (constructor; [unfold lead_char; auto|]). constructor. }
  split; [exact Hl|].
  exact (proj1 (proj2 (proj2 (proj2
    (@normalize_path_forgets_leading_dots Demo.posix "../" "codex/x" ["codex/"] Hl))))).
Defined.

(** ** The evidence harness: how a run decomposes *)

Module HarnessFacts.
Import Harness.

Section Facts.
Context `{RT : Runtime} (w : World) (args : Args).

Lemma hbind_ok {A B} (m : H A) (k : A -> H B) fs b fs' :
  hbind m k fs = (Ok b, fs') ->
  exists a fs1, m fs = (Ok a, fs1) /\ k a fs1 = (Ok b, fs').
Proof.
  unfold hbind. destruct (m fs) as [[a|e] fs1]; intros E; [eauto | discriminate E].
Qed.

Lemma hbind_eq {A B} (m : H A) (k : A -> H B) fs a fs1 :
  m fs = (Ok a, fs1) -> hbind m k fs = k a fs1.
Proof. unfold hbind. now intros ->. Qed.

(** [publish] never raises, and this is what it leaves. *)
Lemma publish_eq (generated_at out_dir : string) (evidence : json -> json)
    (md : list string) (fs : gmap string string) :
  let fs1 := <[child out_dir "evidence.md" := Str.join LF md +:+ LF]>
               (<[child out_dir "evidence.json" := json_dumps (evidence (JObj [])) +:+ LF]> fs) in
  let manifest := build_manifest generated_at fs1 out_dir in
  let fs2 := <[child out_dir "manifest.json" := json_dumps manifest +:+ LF]> fs1 in
  let fs3 := <[child out_dir "manifest.sha256" :=
                 sha256_hex (json_dumps manifest +:+ LF) +:+ "  manifest.json" +:+ LF]> fs2 in
  let art := artifacts_index (map (relative_to out_dir) (list_files fs3 (child out_dir "raw"))) in
  publish generated_at out_dir evidence md fs
  = (Ok (manifest, art),
     <[child out_dir "evidence.json" := json_dumps (evidence art) +:+ LF]> fs3).
Proof.
  intros fs1 manifest fs2 fs3 art.
  unfold publish, hbind, write_json, write_text, read_text, hret.
  fold fs1. fold manifest. fold fs2.
  replace (fs2 !! child out_dir "manifest.json") with (Some (json_dumps manifest +:+ LF))
    by (symmetry; apply lookup_insert_eq).
  reflexivity.
Qed.

(** A run that comes to its end went through these steps. *)
Lemma main_body_inv (generated_at root : string) (contract : json)
    (fs fs' : gmap string string) (rep : Report) :
  main_body w args generated_at root contract fs = (Ok rep, fs') ->
  exists cfg meta wt tests_exist fs_o,
    read_config contract = Ok cfg
    /\ as_dict (load_meta w args root) = Ok meta
    /\ worktree_of w root cfg meta fs = Ok wt
    /\ observe w cfg (child (bundle_dir w root cfg) "raw") wt fs = (Ok (rep_observed rep), fs_o)
    /\ find_violations cfg (ob_changed_paths (rep_observed rep))
         (paths_from_porcelain (ob_status_after (rep_observed rep)))
         (ob_added (rep_observed rep) + ob_deleted (rep_observed rep))
       = Ok (rep_violations rep)
    /\ rep_out_dir rep = bundle_dir w root cfg
    /\ rep_decision rep = decide_decision (rep_violations rep) (dict_get "decision" JNull meta)
    /\ rep_reasons rep = decide_reasons (rep_violations rep) meta
    /\ let evidence := evidence_doc root wt (w_clock w 1) cfg meta (rep_observed rep)
                                    (rep_violations rep) tests_exist in
       let md := render_md wt (w_clock w 1) cfg meta (rep_observed rep) (rep_violations rep) in
       rep_evidence_first rep = evidence (JObj [])
       /\ exists art,
            rep_evidence rep = evidence art
            /\ publish generated_at (bundle_dir w root cfg) evidence md fs_o
               = (Ok (rep_manifest rep, art), fs').
Proof.
  unfold main_body. intros E.
  apply hbind_ok in E as (cfg & f1 & E1 & E).
  unfold hlift in E1. injection E1 as E1 <-.
  unfold run_contract in E.
  apply hbind_ok in E as (meta & f2 & E2 & E).
  unfold hlift in E2. injection E2 as E2 <-.
  apply hbind_ok in E as (wt & f3 & E3 & E).
  injection E3 as E3 <-.
  apply hbind_ok in E as (ob & fs_o & E4 & E).
  apply hbind_ok in E as (vs & f5 & E5 & E).
  unfold hlift in E5. injection E5 as E5 <-.
  apply hbind_ok in E as (te & f6 & E6 & E).
  unfold hexists in E6. injection E6 as <- <-.
  apply hbind_ok in E as ([man art] & f7 & E7 & E).
  unfold hret in E. injection E as <- <-.
  exists cfg, meta, wt,
    (path_exists w fs_o (child (child (bundle_dir w root cfg) "raw") "tests.txt")), fs_o.
  cbn [rep_observed rep_violations rep_out_dir rep_decision rep_reasons rep_evidence_first
       rep_evidence rep_manifest fst snd].
  do 8 (split; [assumption || reflexivity|]).
  cbv zeta. split; [reflexivity|]. exists art. split; [reflexivity | exact E7].
Qed.

(** *** Files that a run leaves as they are *)

Lemma keeps_bind {A B} p (m : H A) (k : A -> H B) :
  keeps p m -> (forall a, keeps p (k a)) -> keeps p (hbind m k).
Proof.
  intros Hm Hk fs c Hp. unfold hbind. specialize (Hm fs c Hp).
  destruct (m fs) as [[a|e] fs1]; cbn in *; [now apply Hk | exact Hm].
Qed.

Lemma keeps_pure {A} p (f : gmap string string -> result A) :
  keeps p (fun fs => (f fs, fs)).
Proof. intros fs c Hp. exact Hp. Qed.

Lemma keeps_read p q : keeps p (read_text q).
Proof. intros fs c Hp. unfold read_text. now destruct (fs !! q). Qed.

Lemma keeps_git p wt gargs : keeps p (git_capture w wt gargs).
Proof. intros fs c Hp. unfold git_capture. now destruct (w_run w fs _ _). Qed.

Lemma keeps_write p q text : q <> p -> keeps p (write_text q text).
Proof. intros Hq fs c Hp. cbn. now rewrite lookup_insert_ne. Qed.

Lemma path_exists_file fs p c : fs !! p = Some c -> path_exists w fs p = true.
Proof.
  intros Hp. unfold path_exists. apply orb_true_iff. left.
  apply bool_decide_eq_true. rewrite Hp. eauto.
Qed.

Lemma keeps_snapshot_head p wt q : keeps p (snapshot_head w wt q).
Proof.
  intros fs c Hp. unfold snapshot_head, hbind, hexists.
  destruct (path_exists w fs q) eqn:Eq.
  - pose proof (keeps_read p q fs c Hp) as Hr.
    destruct (read_text q fs) as [[t|e] fs1]; exact Hr.
  - assert (q <> p) as Hne.
    { intros ->. rewrite (path_exists_file fs p c Hp) in Eq. discriminate Eq. }
    pose proof (keeps_git p wt ["rev-parse"; "HEAD"] fs c Hp) as Hg.
    destruct (git_capture w wt _ fs) as [[t|e] fs1]; [|exact Hg].
    cbn in *. now rewrite lookup_insert_ne.
Qed.

Lemma keeps_snapshot_status p wt q : keeps p (snapshot_status w wt q).
Proof.
  intros fs c Hp. unfold snapshot_status, hbind, hexists.
  destruct (path_exists w fs q) eqn:Eq.
  - pose proof (keeps_read p q fs c Hp) as Hr.
    destruct (read_text q fs) as [[t|e] fs1]; exact Hr.
  - assert (q <> p) as Hne.
    { intros ->. rewrite (path_exists_file fs p c Hp) in Eq. discriminate Eq. }
    pose proof (keeps_git p wt ["status"; "--porcelain"] fs c Hp) as Hg.
    destruct (git_capture w wt _ fs) as [[t|e] fs1]; [|exact Hg].
    cbn in *. now rewrite lookup_insert_ne.
Qed.

(** A snapshot whose raw file is there is read from it. *)
Lemma snapshot_head_reads wt q fs c :
  fs !! q = Some c -> snapshot_head w wt q fs = (Ok (Str.strip c), fs).
Proof.
  intros Hq. unfold snapshot_head, hbind, hexists.
  rewrite (path_exists_file fs q c Hq). unfold read_text. now rewrite Hq.
Qed.

Lemma snapshot_status_reads wt q fs c :
  fs !! q = Some c -> snapshot_status w wt q fs = (Ok (status_lines c), fs).
Proof.
  intros Hq. unfold snapshot_status, hbind, hexists.
  rewrite (path_exists_file fs q c Hq). unfold read_text. now rewrite Hq.
Qed.

Lemma append_assoc (a b c : string) : (a +:+ b) +:+ c = a +:+ (b +:+ c).
Proof.
  induction a as [|x a IH]; [reflexivity|].
  change (String x ((a +:+ b) +:+ c) = String x (a +:+ (b +:+ c))). now rewrite IH.
Qed.

Lemma child_inj (d a b : string) : child d a = child d b -> a = b.
Proof.
  unfold child. intros E. apply String.app_inj in E. now injection E.
Qed.

Lemma child_raw (d n : string) : child (child d "raw") n = child d ("raw/" +:+ n).
Proof. unfold child. now rewrite append_assoc. Qed.

Ltac keeps_step :=
  first
    [ apply keeps_snapshot_head
    | apply keeps_snapshot_status
    | apply keeps_git
    | apply keeps_read
    | apply keeps_write
    | apply keeps_bind; [|intros ?] ].

Lemma keeps_observe cfg raw_dir wt n :
  In n snapshot_names -> keeps (child raw_dir n) (observe w cfg raw_dir wt).
Proof.
  intros Hn. unfold observe.
  assert (Hother : forall m, ~ In m snapshot_names -> child raw_dir m <> child raw_dir n).
  { intros m Hm E. apply child_inj in E. now subst m. }
  assert (Hnot : forall m, existsb (String.eqb m) snapshot_names = false ->
                           child raw_dir m <> child raw_dir n).
  { intros m Hm. apply Hother. intros Hin.
    assert (existsb (String.eqb m) snapshot_names = true) as Ht; [|congruence].
    apply existsb_exists. exists m. split; [exact Hin | apply String.eqb_refl]. }
  repeat keeps_step; try (apply Hnot; reflexivity).
  - destruct (include_patch cfg).
    + repeat keeps_step. apply Hnot; reflexivity.
    + apply (keeps_pure _ (fun _ => Ok tt)).
  - apply (keeps_pure _ (fun _ => Ok _)).
Qed.

Lemma keeps_publish generated_at out_dir evidence md n :
  In n snapshot_names ->
  keeps (child (child out_dir "raw") n) (publish generated_at out_dir evidence md).
Proof.
  intros Hn fs c Hp. rewrite publish_eq. cbn [snd].
  rewrite child_raw in *.
  rewrite !lookup_insert_ne; [exact Hp|..];
    intros E; apply child_inj in E; discriminate E.
Qed.

Lemma keeps_run_contract generated_at root cfg n :
  In n snapshot_names ->
  keeps (child (child (bundle_dir w root cfg) "raw") n)
        (run_contract w args generated_at root cfg).
Proof.
  intros Hn. unfold run_contract.
  apply keeps_bind; [apply keeps_pure|intros meta].
  apply keeps_bind; [apply keeps_pure|intros wt].
  apply keeps_bind; [now apply keeps_observe|intros ob].
  apply keeps_bind; [apply keeps_pure|intros vs].
  apply keeps_bind; [apply keeps_pure|intros te].
  apply keeps_bind; [now apply keeps_publish|intros pub].
  apply (keeps_pure _ (fun _ => Ok _)).
Qed.

Lemma keeps_main_body generated_at root contract cfg n :
  read_config contract = Ok cfg ->
  In n snapshot_names ->
  keeps (child (child (bundle_dir w root cfg) "raw") n)
        (main_body w args generated_at root contract).
Proof.
  intros Hc Hn fs c Hp. unfold main_body.
  rewrite (hbind_eq _ _ fs cfg fs) by (unfold hlift; now rewrite Hc).
  now apply keeps_run_contract.
Qed.

(** *** What the observations are made of *)

Lemma git_capture_fs wt gargs fs out fs' :
  git_capture w wt gargs fs = (Ok out, fs') -> fs' = fs.
Proof.
  unfold git_capture. destruct (w_run w fs _ _); intros E; now injection E.
Qed.

Lemma kept {A} p (m : H A) fs c r fs' :
  keeps p m -> fs !! p = Some c -> m fs = (r, fs') -> fs' !! p = Some c.
Proof. intros K Hp E. specialize (K fs c Hp). now rewrite E in K. Qed.

Lemma observe_inv cfg raw_dir wt fs ob fs' :
  observe w cfg raw_dir wt fs = (Ok ob, fs') ->
  exists f1 f2 f3 f4 f5 out_names out_numstat,
    snapshot_head w wt (child raw_dir "head_before.txt") fs = (Ok (ob_head_before ob), f1)
    /\ snapshot_status w wt (child raw_dir "status_before.txt") f1
       = (Ok (ob_status_before ob), f2)
    /\ snapshot_head w wt (child raw_dir "head_after.txt") f2 = (Ok (ob_head_after ob), f3)
    /\ snapshot_status w wt (child raw_dir "status_after.txt") f3
       = (Ok (ob_status_after ob), f4)
    /\ git_capture w wt ["diff"; "--name-only"; ob_head_before ob] f4 = (Ok out_names, f4)
    /\ ob_diff_name_only ob = stripped_lines out_names
    /\ ob_changed_paths ob
       = Str.sorted_set (ob_diff_name_only ob ++ paths_from_porcelain (ob_status_after ob))%list
    /\ git_capture w wt ["diff"; "--numstat"; ob_head_before ob] f5 = (Ok out_numstat, f5)
    /\ (ob_tracked_files_changed ob, ob_added ob, ob_deleted ob) = numstat out_numstat.
Proof.
  unfold observe. intros E.
  apply hbind_ok in E as (hb & f1 & E1 & E).
  apply hbind_ok in E as (sb & f2 & E2 & E).
  apply hbind_ok in E as (ha & f3 & E3 & E).
  apply hbind_ok in E as (sa & f4 & E4 & E).
  apply hbind_ok in E as (o1 & g1 & E5 & E).
  pose proof (git_capture_fs _ _ _ _ _ E5) as ->.
  apply hbind_ok in E as (? & g2 & _ & E).
  apply hbind_ok in E as (o2 & g3 & _ & E).
  apply hbind_ok in E as (? & g4 & _ & E).
  apply hbind_ok in E as (o3 & g5 & _ & E).
  apply hbind_ok in E as (? & g6 & _ & E).
  apply hbind_ok in E as (? & g7 & _ & E).
  apply hbind_ok in E as (? & g8 & _ & E).
  apply hbind_ok in E as (o4 & g9 & E9 & E).
  pose proof (git_capture_fs _ _ _ _ _ E9) as ->.
  unfold hret in E. injection E as <- <-.
  exists f1, f2, f3, f4, g8, o1, o4. cbn.
  repeat (split; [assumption || reflexivity|]).
  now destruct (numstat o4) as [[? ?] ?].
Qed.

(** *** Runs that come to their end *)

Lemma total_bind {A B} (m : H A) (k : A -> H B) :
  total m -> (forall a, total (k a)) -> total (hbind m k).
Proof.
  intros Hm Hk fs. destruct (Hm fs) as (a & fs1 & E).
  rewrite (hbind_eq _ _ _ _ _ E). apply Hk.
Qed.

Lemma total_ok {A} (f : gmap string string -> A) :
  total (fun fs => (Ok (f fs), fs)).
Proof. intros fs. eauto. Qed.

Lemma total_write q text : total (write_text q text).
Proof. intros fs. unfold write_text. eauto. Qed.

Lemma total_git wt gargs : starts w -> total (git_capture w wt gargs).
Proof.
  intros Hs fs. unfold git_capture.
  destruct (Hs fs ("git" :: gargs) (Some wt)) as (rc & out & err & ->). eauto.
Qed.

Lemma path_exists_no_dir fs q :
  w_dirs w q = false -> path_exists w fs q = true -> exists t, fs !! q = Some t.
Proof.
  unfold path_exists. intros -> E. rewrite orb_false_r in E.
  apply bool_decide_eq_true in E. destruct E as [t E]. eauto.
Qed.

Lemma total_snapshot_head wt q :
  starts w -> w_dirs w q = false -> total (snapshot_head w wt q).
Proof.
  intros Hs Hd fs. destruct (path_exists w fs q) eqn:E.
  - destruct (path_exists_no_dir fs q Hd E) as [t Ht].
    rewrite (snapshot_head_reads wt q fs t Ht). eauto.
  - unfold snapshot_head, hbind, hexists. rewrite E.
    destruct (total_git wt ["rev-parse"; "HEAD"] Hs fs) as (out & fs1 & ->).
    cbn. eauto.
Qed.

Lemma total_snapshot_status wt q :
  starts w -> w_dirs w q = false -> total (snapshot_status w wt q).
Proof.
  intros Hs Hd fs. destruct (path_exists w fs q) eqn:E.
  - destruct (path_exists_no_dir fs q Hd E) as [t Ht].
    rewrite (snapshot_status_reads wt q fs t Ht). eauto.
  - unfold snapshot_status, hbind, hexists. rewrite E.
    destruct (total_git wt ["status"; "--porcelain"] Hs fs) as (out & fs1 & ->).
    cbn. eauto.
Qed.

Ltac total_step Hs Hd :=
  first
    [ apply total_snapshot_head; [exact Hs | apply Hd; cbn; tauto]
    | apply total_snapshot_status; [exact Hs | apply Hd; cbn; tauto]
    | apply total_git; exact Hs
    | apply total_write
    | apply total_bind; [|intros ?] ].

Lemma total_observe cfg raw_dir wt :
  starts w -> no_raw_dirs w raw_dir -> total (observe w cfg raw_dir wt).
Proof.
  intros Hs Hd. unfold observe.
  repeat total_step Hs Hd.
  - destruct (include_patch cfg).
    + repeat total_step Hs Hd.
    + apply (total_ok (fun _ => tt)).
  - apply (total_ok (fun _ => _)).
Qed.

Lemma matches_allowed_dyn_strings path l :
  all_strings l -> matches_allowed_dyn path l = Ok (matches_allowed path (fst (str_prefix l))).
Proof.
  unfold all_strings, matches_allowed_dyn. destruct (str_prefix l) as [pats bad]. cbn.
  intros ->. now destruct (matches_allowed path pats).
Qed.

Lemma matches_any_dyn_strings path l :
  all_strings l -> matches_any_dyn path l = Ok (matches_any path (fst (str_prefix l))).
Proof.
  unfold all_strings, matches_any_dyn. destruct (str_prefix l) as [pats bad]. cbn.
  intros ->. now destruct (matches_any path pats).
Qed.

Lemma outside_allowed_strings paths l :
  all_strings l ->
  outside_allowed paths l
  = Ok (List.filter (fun p => negb (matches_allowed p (fst (str_prefix l)))) paths).
Proof.
  intros Hl. induction paths as [|p paths IH]; [reflexivity|].
  cbn [outside_allowed List.filter]. rewrite (matches_allowed_dyn_strings p l Hl), IH. cbn.
  now destruct (matches_allowed p _).
Qed.

Lemma forbidden_hits_strings paths l :
  all_strings l ->
  forbidden_hits paths l
  = Ok (List.filter (fun pn => matches_any pn (fst (str_prefix l))) (map normalize_path paths)).
Proof.
  intros Hl. induction paths as [|p paths IH]; [reflexivity|].
  cbn [forbidden_hits List.filter map].
  rewrite (matches_any_dyn_strings (normalize_path p) l Hl), IH. cbn.
  now destruct (matches_any (normalize_path p) _).
Qed.

Lemma find_violations_total cfg changed status total_lines :
  clean_contract cfg -> exists vs, find_violations cfg changed status total_lines = Ok vs.
Proof.
  intros [Ha Hf]. unfold find_violations.
  rewrite (outside_allowed_strings changed _ Ha), (forbidden_hits_strings status _ Hf).
  destruct (allowed_paths cfg); destruct (forbidden_outputs cfg); cbn; eauto.
Qed.

Lemma worktree_of_total root cfg meta fs :
  clean_meta meta -> exists wt, worktree_of w root cfg meta fs = Ok wt.
Proof.
  unfold clean_meta, worktree_of.
  destruct (dict_get "worktree_path" JNull meta) as [| | | |s| |] eqn:E; intros Hm;
    try (rewrite Hm; eauto).
  destruct (truthy (JStr s)); eauto.
Qed.

Lemma total_publish generated_at out_dir evidence md :
  total (publish generated_at out_dir evidence md).
Proof. intros fs. rewrite publish_eq. eauto. Qed.

Lemma run_contract_total generated_at root cfg meta fs :
  starts w ->
  as_dict (load_meta w args root) = Ok meta ->
  clean_contract cfg -> clean_meta meta ->
  no_raw_dirs w (child (bundle_dir w root cfg) "raw") ->
  exists rep fs', run_contract w args generated_at root cfg fs = (Ok rep, fs').
Proof.
  intros Hs Hm Hc Hcm Hd. unfold run_contract.
  rewrite (hbind_eq _ _ fs meta fs) by (unfold hlift; now rewrite Hm).
  destruct (worktree_of_total root cfg meta fs Hcm) as [wt Hwt].
  rewrite (hbind_eq _ _ fs wt fs) by now rewrite Hwt.
  destruct (total_observe cfg _ wt Hs Hd fs) as (ob & fs1 & Hob).
  rewrite (hbind_eq _ _ _ _ _ Hob).
  destruct (find_violations_total cfg (ob_changed_paths ob)
              (paths_from_porcelain (ob_status_after ob)) (ob_added ob + ob_deleted ob) Hc)
    as [vs Hvs].
  rewrite (hbind_eq _ _ fs1 vs fs1) by (unfold hlift; now rewrite Hvs).
  rewrite (hbind_eq _ _ fs1 _ fs1) by reflexivity.
  match goal with
  | |- context [hbind (publish ?g ?o ?e ?m) _] =>
      destruct (total_publish g o e m fs1) as (pub & fs2 & Hpub)
  end.
  rewrite (hbind_eq _ _ _ _ _ Hpub). unfold hret. eauto.
Qed.

Lemma main_body_total generated_at root contract cfg meta fs :
  starts w ->
  read_config contract = Ok cfg ->
  as_dict (load_meta w args root) = Ok meta ->
  clean_contract cfg -> clean_meta meta ->
  no_raw_dirs w (child (bundle_dir w root cfg) "raw") ->
  exists rep fs', main_body w args generated_at root contract fs = (Ok rep, fs').
Proof.
  intros Hs Hc Hm Hcc Hcm Hd. unfold main_body.
  rewrite (hbind_eq _ _ fs cfg fs) by (unfold hlift; now rewrite Hc).
  now apply (run_contract_total generated_at root cfg meta fs).
Qed.

End Facts.
End HarnessFacts.

(** ** The evidence harness: exit code and decision *)

Section HarnessClaims.
Import Harness HarnessFacts.
Context `{RT : Runtime} (w : World) (args : Args).

Lemma decide_decision_word (vs : list json) (d : json) :
  decide_decision vs d = JStr "ALLOW" \/ decide_decision vs d = JStr "DENY".
Proof.
  unfold decide_decision. destruct vs as [|v vs]; [|now right].
  destruct d as [| | | |s| |]; cbn; auto.
  destruct (String.eqb s "ALLOW") eqn:Ea; [apply String.eqb_eq in Ea; subst; now left|].
  destruct (String.eqb s "DENY") eqn:Ed; [apply String.eqb_eq in Ed; subst; now right|].
  cbn. now left.
Qed.

(** What a run that reports leaves in [evidence.json]. *)
Lemma main_body_evidence (generated_at root : string) (contract : json)
    (fs fs' : gmap string string) (rep : Report) :
  main_body w args generated_at root contract fs = (Ok rep, fs') ->
  fs' !! child (rep_out_dir rep) "evidence.json" = Some (json_dumps (rep_evidence rep) +:+ LF)
  /\ member "decision" (rep_evidence rep) = rep_decision rep
  /\ member "reasons" (rep_evidence rep) = rep_reasons rep
  /\ member "violations" (member "constraints" (rep_evidence rep)) = JArr (rep_violations rep).
Proof.
  intros E. apply main_body_inv in E
    as (cfg & meta & wt & te & fs_o & _ & _ & _ & _ & _ & Ho & Hd & Hr & _ & art & He & Hp).
  rewrite publish_eq in Hp. injection Hp as _ Hart <-.
  rewrite Ho, He, Hd, Hr. split; [|split; [|split]]; try reflexivity.
  rewrite Hart. apply lookup_insert_eq.
Qed.

Lemma main_report_eq (fs : gmap string string) (root : string) (contract : json) :
  git_root w fs = inr root ->
  w_docs w (contract_path w args root) = DocJson contract ->
  main_report w args fs
  = hbind (main_body w args (w_clock w 0) root contract) (fun rep => hret (0, Some rep)) fs.
Proof. intros Hroot Hdoc. unfold main_report. now rewrite Hroot, Hdoc. Qed.

(** C1, as the code has it: once the repository is found and the contract
    decoded, [main] returns 0 at the end of every run, for a bundle that
    says DENY as for one that says ALLOW; the decision is in
    [evidence.json] only.  No such run returns 2, a run in which nothing
    raises comes to its end, and one that raises ends with status 1. *)
Theorem harness_exit_code_ignores_decision (fs : gmap string string) (root : string)
    (contract : json) :
  git_root w fs = inr root ->
  w_docs w (contract_path w args root) = DocJson contract ->
  (forall rc orep fs',
     main_report w args fs = (Ok (rc, orep), fs') ->
     rc = 0
     /\ main w args fs = (Ok 0, fs')
     /\ exists rep,
          orep = Some rep
          /\ fs' !! child (rep_out_dir rep) "evidence.json"
             = Some (json_dumps (rep_evidence rep) +:+ LF)
          /\ member "decision" (rep_evidence rep) = rep_decision rep
          /\ (rep_decision rep = JStr "ALLOW" \/ rep_decision rep = JStr "DENY"))
  /\ exit_status (fst (main w args fs)) <> 2
  /\ (forall cfg meta,
        starts w ->
        read_config contract = Ok cfg ->
        as_dict (load_meta w args root) = Ok meta ->
        clean_contract cfg -> clean_meta meta ->
        no_raw_dirs w (child (bundle_dir w root cfg) "raw") ->
        exists rep fs', main_report w args fs = (Ok (0, Some rep), fs')).
Proof.
  intros Hroot Hdoc.
  pose proof (main_report_eq fs root contract Hroot Hdoc) as Hrep.
  split; [|split].
  - intros rc orep fs' E. rewrite Hrep in E.
    apply hbind_ok in E as (rep & fs1 & Eb & E).
    unfold hret in E. injection E as <- <- <-.
    split; [reflexivity|]. split.
    + unfold main. rewrite (hbind_eq _ _ fs (0, Some rep) fs1); [reflexivity|].
      rewrite Hrep. now rewrite (hbind_eq _ _ _ _ _ Eb).
    + exists rep. split; [reflexivity|].
      destruct (main_body_evidence _ _ _ _ _ _ Eb) as (Hf & Hd & _).
      split; [exact Hf|]. split; [exact Hd|].
      apply main_body_inv in Eb as (? & ? & ? & ? & ? & _ & _ & _ & _ & _ & _ & -> & _).
      apply decide_decision_word.
  - unfold main, hbind at 1. rewrite Hrep. unfold hbind at 1.
    destruct (main_body w args (w_clock w 0) root contract fs) as [[rep|e] fs1];
      cbn; discriminate.
  - intros cfg meta Hs Hc Hm Hcc Hcm Hd. rewrite Hrep.
    destruct (main_body_total w args (w_clock w 0) root contract cfg meta fs
                Hs Hc Hm Hcc Hcm Hd) as (rep & fs' & E).
    exists rep, fs'. now rewrite (hbind_eq _ _ fs rep fs').
Qed.

(** ** The evidence harness: raw snapshots *)

(** C5: a raw snapshot file that is there when the harness starts is still
    there, with the same content, when [main] ends or raises, whatever
    the repository answers; and the run uses the content of the file: the
    head is the file's text without surrounding blanks, the status its
    lines that are not blank. *)
Theorem raw_snapshots_are_reused (fs : gmap string string) (root : string) (contract : json)
    (cfg : Config) (n c : string) :
  git_root w fs = inr root ->
  w_docs w (contract_path w args root) = DocJson contract ->
  read_config contract = Ok cfg ->
  In n snapshot_names ->
  fs !! child (child (bundle_dir w root cfg) "raw") n = Some c ->
  snd (main w args fs) !! child (child (bundle_dir w root cfg) "raw") n = Some c
  /\ forall rc rep fs',
       main_report w args fs = (Ok (rc, Some rep), fs') ->
       let ob := rep_observed rep in
       let ev := rep_evidence rep in
       (n = "head_before.txt" ->
          ob_head_before ob = Str.strip c
          /\ member "before" (member "heads" (member "repo" ev)) = JStr (Str.strip c))
       /\ (n = "status_before.txt" ->
             ob_status_before ob = status_lines c
             /\ member "porcelain" (member "before" (member "status" ev))
                = JArr (map JStr (status_lines c)))
       /\ (n = "head_after.txt" ->
             ob_head_after ob = Str.strip c
             /\ member "after" (member "heads" (member "repo" ev)) = JStr (Str.strip c))
       /\ (n = "status_after.txt" ->
             ob_status_after ob = status_lines c
             /\ member "porcelain" (member "after" (member "status" ev))
                = JArr (map JStr (status_lines c))).
Proof.
  intros Hroot Hdoc Hc Hn Hp.
  pose proof (main_report_eq fs root contract Hroot Hdoc) as Hrep.
  set (raw := child (bundle_dir w root cfg) "raw") in *.
  split.
  - unfold main. unfold hbind at 1. rewrite Hrep. unfold hbind at 1.
    pose proof (keeps_main_body w args (w_clock w 0) root contract cfg n Hc Hn fs c Hp) as K.
    fold raw in K.
    destruct (main_body w args (w_clock w 0) root contract fs) as [[rep|e] fs1];
      cbn in *; exact K.
  - intros rc rep fs' E. rewrite Hrep in E.
    apply hbind_ok in E as (rep' & fs1 & Eb & E).
    unfold hret in E. injection E as _ -> _.
    apply main_body_inv in Eb
      as (cfg' & meta & wt & te & fs_o & Hc' & _ & _ & Hob & _ & _ & _ & _ & _ & art & He & _).
    rewrite Hc in Hc'. injection Hc' as <-. fold raw in Hob.
    apply observe_inv in Hob
      as (f1 & f2 & f3 & f4 & f5 & o1 & o2 & E1 & E2 & E3 & E4 & _).
    cbv zeta. rewrite He.
    assert (H1 : forall m, In m snapshot_names -> fs !! child raw m = Some c ->
                 f1 !! child raw m = Some c).
    { intros m _ Hm. exact (kept _ _ _ _ _ _ (keeps_snapshot_head w _ wt _) Hm E1). }
    assert (H2 : forall m, In m snapshot_names -> fs !! child raw m = Some c ->
                 f2 !! child raw m = Some c).
    { intros m Hin Hm. exact (kept _ _ _ _ _ _ (keeps_snapshot_status w _ wt _) (H1 m Hin Hm) E2). }
    assert (H3 : forall m, In m snapshot_names -> fs !! child raw m = Some c ->
                 f3 !! child raw m = Some c).
    { intros m Hin Hm. exact (kept _ _ _ _ _ _ (keeps_snapshot_head w _ wt _) (H2 m Hin Hm) E3). }
    split; [|split; [|split]]; intros ->.
    + rewrite (snapshot_head_reads w wt _ fs c Hp) in E1.
      injection E1 as Hv _. split; [now rewrite <- Hv | cbn; now rewrite <- Hv].
    + rewrite (snapshot_status_reads w wt _ f1 c (H1 _ Hn Hp)) in E2.
      injection E2 as Hv _. split; [now rewrite <- Hv | cbn; now rewrite <- Hv].
    + rewrite (snapshot_head_reads w wt _ f2 c (H2 _ Hn Hp)) in E3.
      injection E3 as Hv _. split; [now rewrite <- Hv | cbn; now rewrite <- Hv].
    + rewrite (snapshot_status_reads w wt _ f3 c (H3 _ Hn Hp)) in E4.
      injection E4 as Hv _. split; [now rewrite <- Hv | cbn; now rewrite <- Hv].
Qed.

(** ** The evidence harness: the manifest *)



Lemma prefix_drop (a p : string) :
  String.prefix a p = true -> p = a +:+ Str.drop (String.length a) p.
Proof.
  revert p. induction a as [|x a IH]; intros p E; [reflexivity|].
  destruct p as [|y p]; [discriminate E|]. cbn in E.
  destruct (ascii_dec x y) as [->|]; [|discriminate E].
  change (String y p = String y (a +:+ Str.drop (String.length a) p)).
  f_equal. now apply IH.
Qed.








(** ** The evidence harness: constraints and the final decision *)

(** The violations of a contract whose patterns are strings. *)
Lemma find_violations_clean (cfg : Config) (changed status : list string) (total_lines : Z) :
  clean_contract cfg ->
  let bad := List.filter (fun p => negb (matches_allowed p (fst (str_prefix (allowed_paths cfg)))))
                         changed in
  let hit := Str.sorted_set
               (List.filter (fun pn => matches_any pn (fst (str_prefix (forbidden_outputs cfg))))
                            (map normalize_path status)) in
  let bv := budget_violations (dict_get "max_changed_files" JNull (budgets cfg))
                              (dict_get "max_changed_lines" JNull (budgets cfg))
                              (Z.of_nat (length changed)) total_lines in
  find_violations cfg changed status total_lines
  = Ok ((match allowed_paths cfg, bad with
         | _ :: _, _ :: _ =>
             [violation "DIFF_OUTSIDE_ALLOWED_PATHS" [("bad_paths", JArr (map JStr bad))]]
         | _, _ => []
         end)
        ++ (match forbidden_outputs cfg, hit with
            | _ :: _, _ :: _ =>
                [violation "FORBIDDEN_OUTPUT_PRESENT" [("paths", JArr (map JStr hit))]]
            | _, _ => []
            end)
        ++ (match bv with
            | [] => []
            | _ => [violation "DIFF_BUDGET_EXCEEDED" [("violations", JArr bv)]]
            end))%list.
Proof.
  intros [Ha Hf]. cbv zeta. unfold find_violations.
  rewrite (outside_allowed_strings changed _ Ha), (forbidden_hits_strings status _ Hf).
  destruct (allowed_paths cfg) as [|a la]; destruct (forbidden_outputs cfg) as [|f lf]; cbn;
    repeat match goal with
           | |- context [match ?l with [] => _ | _ :: _ => _ end] => destruct l
           end; reflexivity.
Qed.

(** The violations of a finished run are those of its observations. *)
Lemma run_violations (generated_at root : string) (contract : json)
    (fs fs' : gmap string string) (rep : Report) :
  main_body w args generated_at root contract fs = (Ok rep, fs') ->
  exists cfg meta wt f out_numstat,
    read_config contract = Ok cfg
    /\ as_dict (load_meta w args root) = Ok meta
    /\ git_capture w wt ["diff"; "--numstat"; ob_head_before (rep_observed rep)] f
       = (Ok out_numstat, f)
    /\ (ob_tracked_files_changed (rep_observed rep), ob_added (rep_observed rep),
        ob_deleted (rep_observed rep)) = numstat out_numstat
    /\ find_violations cfg (ob_changed_paths (rep_observed rep))
         (paths_from_porcelain (ob_status_after (rep_observed rep)))
         (ob_added (rep_observed rep) + ob_deleted (rep_observed rep))
       = Ok (rep_violations rep)
    /\ member "violations" (member "constraints" (rep_evidence rep)) = JArr (rep_violations rep)
    /\ member "decision" (rep_evidence rep) = rep_decision rep
    /\ member "reasons" (rep_evidence rep) = rep_reasons rep
    /\ rep_decision rep = decide_decision (rep_violations rep) (dict_get "decision" JNull meta)
    /\ rep_reasons rep = decide_reasons (rep_violations rep) meta.
Proof.
  intros E. destruct (main_body_evidence _ _ _ _ _ _ E) as (_ & Hd & Hr & Hv).
  apply main_body_inv in E
    as (cfg & meta & wt & te & fs_o & Hc & Hm & _ & Hob & Hfv & _ & Hdd & Hrr & _).
  apply observe_inv in Hob
    as (f1 & f2 & f3 & f4 & f5 & o1 & o2 & _ & _ & _ & _ & _ & _ & _ & Hn & Hs).
  exists cfg, meta, wt, f5, o2. repeat (split; [assumption|]). assumption.
Qed.

Lemma is_str_spec (s : string) (v : json) : is_str s v = true <-> v = JStr s.
Proof.
  destruct v as [| | | |t| |]; cbn; try (split; [discriminate | intros E; discriminate E]).
  rewrite String.eqb_eq. split; [now intros -> | now intros [= ->]].
Qed.

Lemma is_str_other (s : string) (v : json) : v <> JStr s -> is_str s v = false.
Proof.
  intros Hne. destruct (is_str s v) eqn:E; [|reflexivity].
  apply is_str_spec in E. contradiction.
Qed.

(** The decision and the reasons, case by case. *)
Lemma decide_cases (v : json) (vs : list json) (meta : list (string * json))
    (declared : json) :
  decide_decision (v :: vs) declared = JStr "DENY"
  /\ (dict_get "decision" JNull meta = JStr "ALLOW" ->
      (forall l, dict_get "reasons" JNull meta = JArr l ->
                 decide_reasons (v :: vs) meta = JArr (l ++ [JStr "constraint_violations"]))
      /\ (truthy (dict_get "reasons" JNull meta) = false ->
          decide_reasons (v :: vs) meta = JArr [JStr "constraint_violations"])
      /\ (forall s, dict_get "reasons" JNull meta = JStr s -> s <> EmptyString ->
                    decide_reasons (v :: vs) meta
                    = JArr [JStr s; JStr "constraint_violations"]))
  /\ (dict_get "decision" JNull meta <> JStr "ALLOW" ->
      forall l, dict_get "reasons" JNull meta = JArr l -> decide_reasons (v :: vs) meta = JArr l)
  /\ (forall l, dict_get "reasons" JNull meta = JArr l -> decide_reasons [] meta = JArr l)
  /\ decide_decision [] (JStr "ALLOW") = JStr "ALLOW"
  /\ decide_decision [] (JStr "DENY") = JStr "DENY"
  /\ (declared <> JStr "ALLOW" -> declared <> JStr "DENY" ->
      decide_decision [] declared = JStr "ALLOW").
Proof.
  assert (Hlist : forall l, dict_get "reasons" JNull meta = JArr l -> declared_reasons meta = l).
  { intros l E. unfold declared_reasons, py_or. rewrite E. now destruct l. }
  split; [reflexivity|]. split; [|split; [|split; [|split; [|split]]]].
  - intros Hd. unfold decide_reasons. rewrite Hd. cbn [is_str].
    change (String.eqb "ALLOW" "ALLOW") with true. cbv iota.
    split; [|split].
    + intros l E. now rewrite (Hlist l E).
    + intros Hf. unfold declared_reasons, py_or. now rewrite Hf.
    + intros s E Hs. unfold declared_reasons, py_or. rewrite E. cbn [truthy].
      apply String.eqb_neq in Hs. now rewrite Hs.
  - intros Hd l E. unfold decide_reasons. rewrite (is_str_other _ _ Hd). now rewrite (Hlist l E).
  - intros l E. unfold decide_reasons. now rewrite (Hlist l E).
  - reflexivity.
  - reflexivity.
  - intros Ha Hd. unfold decide_decision.
    now rewrite (is_str_other _ _ Ha), (is_str_other _ _ Hd).
Qed.

(** C6: with a violation the decision is DENY whatever the run-metadata
    record declares, and if it declares ALLOW the reason
    [constraint_violations] is added after its reasons: after the members
    of a list, alone when the record gives none, after the one reason when
    it gives a text.  A declared DENY leaves the reasons as they are.
    Without a violation the declared ALLOW or DENY and the declared reasons
    are kept, and ALLOW stands where neither word is declared.  The
    [decision] and [reasons] members of the bundle of a finished run are
    these, for the violations listed in the bundle. *)
Theorem violations_override_declared_decision (v : json) (vs : list json)
    (meta : list (string * json)) (declared : json) :
  decide_decision (v :: vs) declared = JStr "DENY"
  /\ (dict_get "decision" JNull meta = JStr "ALLOW" ->
      (forall l, dict_get "reasons" JNull meta = JArr l ->
                 decide_reasons (v :: vs) meta = JArr (l ++ [JStr "constraint_violations"]))
      /\ (truthy (dict_get "reasons" JNull meta) = false ->
          decide_reasons (v :: vs) meta = JArr [JStr "constraint_violations"])
      /\ (forall s, dict_get "reasons" JNull meta = JStr s -> s <> EmptyString ->
                    decide_reasons (v :: vs) meta
                    = JArr [JStr s; JStr "constraint_violations"]))
  /\ (dict_get "decision" JNull meta <> JStr "ALLOW" ->
      forall l, dict_get "reasons" JNull meta = JArr l -> decide_reasons (v :: vs) meta = JArr l)
  /\ (forall l, dict_get "reasons" JNull meta = JArr l -> decide_reasons [] meta = JArr l)
  /\ decide_decision [] (JStr "ALLOW") = JStr "ALLOW"
  /\ decide_decision [] (JStr "DENY") = JStr "DENY"
  /\ (declared <> JStr "ALLOW" -> declared <> JStr "DENY" ->
      decide_decision [] declared = JStr "ALLOW")
  /\ (forall generated_at root contract fs fs' rep,
        main_body w args generated_at root contract fs = (Ok rep, fs') ->
        exists meta',
          as_dict (load_meta w args root) = Ok meta'
          /\ member "violations" (member "constraints" (rep_evidence rep))
             = JArr (rep_violations rep)
          /\ (rep_violations rep <> [] ->
              member "decision" (rep_evidence rep) = JStr "DENY"
              /\ (dict_get "decision" JNull meta' = JStr "ALLOW" ->
                  forall l, dict_get "reasons" JNull meta' = JArr l ->
                            member "reasons" (rep_evidence rep)
                            = JArr (l ++ [JStr "constraint_violations"])))
          /\ (rep_violations rep = [] ->
              (forall word, word = "ALLOW" \/ word = "DENY" ->
                            dict_get "decision" JNull meta' = JStr word ->
                            member "decision" (rep_evidence rep) = JStr word)
              /\ (dict_get "decision" JNull meta' <> JStr "ALLOW" ->
                  dict_get "decision" JNull meta' <> JStr "DENY" ->
                  member "decision" (rep_evidence rep) = JStr "ALLOW")
              /\ (forall l, dict_get "reasons" JNull meta' = JArr l ->
                            member "reasons" (rep_evidence rep) = JArr l))).
Proof.
  destruct (decide_cases v vs meta declared) as (H1 & H2 & H3 & H4 & H5 & H6 & H7).
  do 7 (split; [assumption|]).
  intros generated_at root contract fs fs' rep E.
  apply run_violations in E
    as (cfg & meta' & wt & f & o & _ & Hm & _ & _ & _ & Hv & Hd & Hr & Hdd & Hrr).
  exists meta'. split; [exact Hm|]. split; [exact Hv|].
  rewrite Hd, Hr, Hdd, Hrr. split.
  - intros Hne. destruct (rep_violations rep) as [|v' vs']; [contradiction|].
    destruct (decide_cases v' vs' meta' JNull) as (_ & G2 & _).
    split; [reflexivity|]. intros Ha l El. now apply (proj1 (G2 Ha)).
  - intros ->.
    destruct (decide_cases JNull [] meta' (dict_get "decision" JNull meta'))
      as (_ & _ & _ & G4 & G5 & G6 & G7).
    split; [|split].
    + intros word [-> | ->] ->; assumption.
    + exact G7.
    + exact G4.
Qed.

Lemma matches_allowed_hit (p : string) (allowed : list string) :
  matches_allowed p allowed = true <->
  exists a, In a allowed /\ pattern_hit (normalize_path p) a = true.
Proof.
  induction allowed as [|a allowed IH]; cbn [matches_allowed].
  - split; [discriminate | intros (a & [] & _)].
  - destruct (pattern_hit (normalize_path p) a) eqn:E.
    + split; [|reflexivity]. intros _. exists a. split; [now left | exact E].
    + rewrite IH. split.
      * intros (b & Hb & Hh). exists b. split; [now right | exact Hh].
      * intros (b & [<- | Hb] & Hh); [congruence|]. exists b. now split.
Qed.

Lemma violation_code (code : string) (details : list (string * json)) :
  member "code" (violation code details) = JStr code.
Proof. reflexivity. Qed.

(** C8: a [max_changed_lines] that is an integer and is less than the sum
    of the lines added and deleted gives a DIFF_BUDGET_EXCEEDED violation
    whose list has the entry of the name, the sum and the limit; likewise
    [max_changed_files] against the number of changed paths.  Ten against
    four lines added and eight deleted gives the entry with 12 and 10.  The
    sum of a run is that of the numeric diff summary. *)
Theorem budget_excess_is_reported (cfg : Config) (changed status : list string)
    (added deleted limit : Z) :
  clean_contract cfg ->
  (dict_get "max_changed_lines" JNull (budgets cfg) = JInt limit ->
   limit < added + deleted ->
   exists vs bv,
     find_violations cfg changed status (added + deleted) = Ok vs
     /\ In (violation "DIFF_BUDGET_EXCEEDED" [("violations", JArr bv)]) vs
     /\ In (JArr [JStr "max_changed_lines"; JInt (added + deleted); JInt limit]) bv)
  /\ (dict_get "max_changed_files" JNull (budgets cfg) = JInt limit ->
      limit < Z.of_nat (length changed) ->
      exists vs bv,
        find_violations cfg changed status (added + deleted) = Ok vs
        /\ In (violation "DIFF_BUDGET_EXCEEDED" [("violations", JArr bv)]) vs
        /\ In (JArr [JStr "max_changed_files"; JInt (Z.of_nat (length changed)); JInt limit]) bv)
  /\ budget_violations JNull (JInt 10) (Z.of_nat (length changed)) (4 + 8)
     = [JArr [JStr "max_changed_lines"; JInt 12; JInt 10]]
  /\ numstat (Demo.line (Demo.tabbed "4" "8" "src/a.py")) = (1, 4, 8)
  /\ (forall generated_at root contract fs fs' rep,
        main_body w args generated_at root contract fs = (Ok rep, fs') ->
        read_config contract = Ok cfg ->
        exists wt f out_numstat,
          git_capture w wt ["diff"; "--numstat"; ob_head_before (rep_observed rep)] f
          = (Ok out_numstat, f)
          /\ (ob_tracked_files_changed (rep_observed rep), ob_added (rep_observed rep),
              ob_deleted (rep_observed rep)) = numstat out_numstat
          /\ find_violations cfg (ob_changed_paths (rep_observed rep))
               (paths_from_porcelain (ob_status_after (rep_observed rep)))
               (ob_added (rep_observed rep) + ob_deleted (rep_observed rep))
             = Ok (rep_violations rep)
          /\ member "violations" (member "constraints" (rep_evidence rep))
             = JArr (rep_violations rep)).
Proof.
  intros Hclean.
  pose proof (find_violations_clean cfg changed status (added + deleted) Hclean) as Hfv.
  cbv zeta in Hfv.
  split; [|split; [|split; [|split]]].
  - intros Hl Hlt. rewrite Hl in Hfv.
    assert (Hin : In (JArr [JStr "max_changed_lines"; JInt (added + deleted); JInt limit])
                     (budget_violations (dict_get "max_changed_files" JNull (budgets cfg))
                        (JInt limit) (Z.of_nat (length changed)) (added + deleted))).
    { unfold budget_violations. apply in_or_app. right. cbn [is_int int_value andb].
      apply Z.ltb_lt in Hlt. rewrite Hlt. now left. }
    destruct (budget_violations _ _ _ _) as [|b bv] eqn:Eb; [destruct Hin|].
    eexists. exists (b :: bv). split; [exact Hfv|]. split; [|exact Hin].
    apply in_or_app. right. apply in_or_app. right. now left.
  - intros Hl Hlt. rewrite Hl in Hfv.
    assert (Hin : In (JArr [JStr "max_changed_files"; JInt (Z.of_nat (length changed)); JInt limit])
                     (budget_violations (JInt limit)
                        (dict_get "max_changed_lines" JNull (budgets cfg))
                        (Z.of_nat (length changed)) (added + deleted))).
    { unfold budget_violations. apply in_or_app. left. cbn [is_int int_value andb].
      apply Z.ltb_lt in Hlt. rewrite Hlt. now left. }
    destruct (budget_violations _ _ _ _) as [|b bv] eqn:Eb; [destruct Hin|].
    eexists. exists (b :: bv). split; [exact Hfv|]. split; [|exact Hin].
    apply in_or_app. right. apply in_or_app. right. now left.
  - reflexivity.
  - vm_compute. reflexivity.
  - intros generated_at root contract fs fs' rep E Hc.
    apply run_violations in E
      as (cfg' & meta & wt & f & o & Hc' & _ & Hg & Hn & Hv & Hm & _).
    rewrite Hc in Hc'. injection Hc' as <-.
    exists wt, f, o. repeat split; assumption.
Qed.

End HarnessClaims.

(** ** The harness on the concrete machines *)

Section HarnessRuns.
Import Harness HarnessFacts Demo.

Lemma machine_starts table files dirs docs : starts (machine table files dirs docs).
Proof.
  intros fs cmd cwd. cbn. unfold answers.
  destruct (List.find _ table); eauto.
Qed.

(** A change to [docs/readme.md] under [allowed_paths = src/]: the bundle
    says DENY, with the one path as [bad_paths], and [main] returns 0. *)
Example docs_change_is_denied :
  let run := main_report (RT := posix) world_docs_change harness_args (w_files world_docs_change) in
  bundle_decision (fst run) = Some (JStr "DENY")
  /\ match fst run with
     | Ok (rc, Some rep) =>
         rc = 0
         /\ rep_violations rep
            = [violation "DIFF_OUTSIDE_ALLOWED_PATHS"
                         [("bad_paths", JArr [JStr "docs/readme.md"])]]
     | _ => False
     end.
Proof. vm_compute. repeat split; reflexivity. Qed.

(** C1, refuted as stated: on [world_docs_change] the bundle's decision is
    DENY and the exit status is 0. *)
Lemma harness_exit_code_counterexample :
  let w := world_docs_change in
  exit_status (fst (main (RT := posix) w harness_args (w_files w))) = 0
  /\ bundle_decision (fst (main_report (RT := posix) w harness_args (w_files w)))
     = Some (JStr "DENY")
  /\ ~ (exit_status (fst (main (RT := posix) w harness_args (w_files w))) = 0
        <-> bundle_decision (fst (main_report (RT := posix) w harness_args (w_files w)))
            = Some (JStr "ALLOW")).
Proof.
  cbv zeta.
  assert (He : exit_status (fst (main (RT := posix) world_docs_change harness_args
                                       (w_files world_docs_change))) = 0)
    by (vm_compute; reflexivity).
  assert (Hd : bundle_decision (fst (main_report (RT := posix) world_docs_change harness_args
                                                   (w_files world_docs_change)))
               = Some (JStr "DENY"))
    by (vm_compute; reflexivity).
  split; [exact He|]. split; [exact Hd|].
  intros [Hi _]. specialize (Hi He). rewrite Hd in Hi. discriminate Hi.
Qed.

Lemma harness_exit_code_ignores_decision_witness :
  let w := world_docs_change in
  git_root (RT := posix) w (w_files w) = inr "/repo"
  /\ w_docs w (contract_path (RT := posix) w harness_args "/repo") = DocJson contract_src_only
  /\ exit_status (fst (main (RT := posix) w harness_args (w_files w))) <> 2
  /\ exists rep fs',
       main_report (RT := posix) w harness_args (w_files w) = (Ok (0, Some rep), fs').
Proof.
  cbv zeta.
  assert (H1 : git_root (RT := posix) world_docs_change (w_files world_docs_change)
               = inr "/repo") by (vm_compute; reflexivity).
  assert (H2 : w_docs world_docs_change
                 (contract_path (RT := posix) world_docs_change harness_args "/repo")
               = DocJson contract_src_only) by (vm_compute; reflexivity).
  pose proof (harness_exit_code_ignores_decision (RT := posix) world_docs_change harness_args
                (w_files world_docs_change) "/repo" contract_src_only H1 H2) as (_ & Hne & Htot).
  split; [exact H1|]. split; [exact H2|]. split; [exact Hne|].
  apply (Htot config_src_only []).
  - apply machine_starts.
  - vm_compute; reflexivity.
  - vm_compute; reflexivity.
  - split; reflexivity.
  - reflexivity.
  - intros n _. reflexivity.
Defined.

(** The second run of [world_second_run]: the head moved from [abc123] to
    [def456], and the run still reports [abc123] as the head before. *)
Example second_run_keeps_before :
  let w := world_second_run in
  match main_report (RT := posix) w harness_args (w_files w) with
  | (Ok (_, Some rep), fs') =>
      ob_head_before (rep_observed rep) = "abc123"
      /\ ob_head_after (rep_observed rep) = "def456"
      /\ fs' !! "/repo/.codex/out/p1/raw/head_before.txt" = Some (line "abc123")
  | _ => False
  end.
Proof. vm_compute. repeat split; reflexivity. Qed.

Lemma raw_snapshots_are_reused_witness :
  let w := world_second_run in
  git_root (RT := posix) w (w_files w) = inr "/repo"
  /\ w_docs w (contract_path (RT := posix) w harness_args "/repo") = DocJson contract_budget
  /\ read_config (RT := posix) contract_budget = Ok config_budget
  /\ In "head_before.txt" snapshot_names
  /\ w_files w !! child (child (bundle_dir (RT := posix) w "/repo" config_budget) "raw")
                        "head_before.txt" = Some (line "abc123")
  /\ snd (main (RT := posix) w harness_args (w_files w))
       !! child (child (bundle_dir (RT := posix) w "/repo" config_budget) "raw")
                "head_before.txt" = Some (line "abc123").
Proof.
  cbv zeta.
  assert (H1 : git_root (RT := posix) world_second_run (w_files world_second_run)
               = inr "/repo") by (vm_compute; reflexivity).
  assert (H2 : w_docs world_second_run
                 (contract_path (RT := posix) world_second_run harness_args "/repo")
               = DocJson contract_budget) by (vm_compute; reflexivity).
  assert (H3 : read_config (RT := posix) contract_budget = Ok config_budget)
    by (vm_compute; reflexivity).
  assert (H4 : In "head_before.txt" snapshot_names) by (cbn; tauto).
  assert (H5 : w_files world_second_run
                 !! child (child (bundle_dir (RT := posix) world_second_run "/repo"
                                             config_budget) "raw") "head_before.txt"
               = Some (line "abc123")) by (vm_compute; reflexivity).
  repeat (split; [assumption|]).
  exact (proj1 (raw_snapshots_are_reused (RT := posix) world_second_run harness_args
                  (w_files world_second_run) "/repo" contract_budget config_budget
                  "head_before.txt" (line "abc123") H1 H2 H3 H4 H5)).
Defined.

Lemma violations_override_declared_decision_witness :
  let w := world_docs_change_meta in
  let declared := [("decision", JStr "ALLOW"); ("reasons", JArr [JStr "tests passed"])] in
  dict_get "decision" JNull declared = JStr "ALLOW"
  /\ dict_get "reasons" JNull declared = JArr [JStr "tests passed"]
  /\ decide_reasons (RT := posix) [JNull] declared
     = JArr [JStr "tests passed"; JStr "constraint_violations"]
  /\ exists rep fs',
       main_body (RT := posix) w harness_args_meta (w_clock w 0) "/repo" contract_src_only
                 (w_files w) = (Ok rep, fs')
       /\ member "violations" (member "constraints" (rep_evidence rep))
          = JArr [violation "DIFF_OUTSIDE_ALLOWED_PATHS"
                            [("bad_paths", JArr [JStr "docs/readme.md"])]]
       /\ member "decision" (rep_evidence rep) = JStr "DENY"
       /\ member "reasons" (rep_evidence rep)
          = JArr [JStr "tests passed"; JStr "constraint_violations"].
Proof.
  cbv zeta.
  set (declared := [("decision", JStr "ALLOW"); ("reasons", JArr [JStr "tests passed"])]).
  assert (Ha : dict_get "decision" JNull declared = JStr "ALLOW") by reflexivity.
  assert (Hl : dict_get "reasons" JNull declared = JArr [JStr "tests passed"]) by reflexivity.
  pose proof (violations_override_declared_decision (RT := posix) world_docs_change_meta
                harness_args_meta JNull [] declared JNull) as (_ & Hpure & _ & _ & _ & _ & _ & Hrun).
  split; [exact Ha|]. split; [exact Hl|].
  split; [exact (proj1 (Hpure Ha) _ Hl)|].
  destruct (main_body_total (RT := posix) world_docs_change_meta harness_args_meta
              (w_clock world_docs_change_meta 0) "/repo" contract_src_only config_src_only
              declared (w_files world_docs_change_meta))
    as (rep & fs' & E).
  - apply machine_starts.
  - vm_compute; reflexivity.
  - vm_compute; reflexivity.
  - split; reflexivity.
  - reflexivity.
  - intros n _. reflexivity.
  - exists rep, fs'. split; [exact E|].
    assert (Hfacts : match main_body (RT := posix) world_docs_change_meta harness_args_meta
                             (w_clock world_docs_change_meta 0) "/repo" contract_src_only
                             (w_files world_docs_change_meta) with
                     | (Ok rep', _) =>
                         rep_violations rep'
                         = [violation "DIFF_OUTSIDE_ALLOWED_PATHS"
                                      [("bad_paths", JArr [JStr "docs/readme.md"])]]
                     | _ => False
                     end) by (vm_compute; reflexivity).
    rewrite E in Hfacts.
    destruct (Hrun _ _ _ _ _ _ E) as (meta' & Hm & Hv & Hdeny & _).
    assert (Hmeta : as_dict (load_meta (RT := posix) world_docs_change_meta harness_args_meta
                                       "/repo") = Ok declared) by (vm_compute; reflexivity).
    rewrite Hmeta in Hm. injection Hm as <-.
    rewrite Hfacts in Hv, Hdeny.
    destruct (Hdeny ltac:(discriminate)) as (Hd & Hr).
    split; [exact Hv|]. split; [exact Hd|]. exact (Hr Ha _ Hl).
Defined.

(** The same run: ALLOW is declared, DENY is decided, and the reason is
    added after the declared one. *)
Example declared_allow_is_overridden :
  let w := world_docs_change_meta in
  match main_report (RT := posix) w harness_args_meta (w_files w) with
  | (Ok (_, Some rep), _) =>
      member "decision" (rep_evidence rep) = JStr "DENY"
      /\ member "reasons" (rep_evidence rep)
         = JArr [JStr "tests passed"; JStr "constraint_violations"]
  | _ => False
  end.
Proof. vm_compute. split; reflexivity. Qed.

Lemma budget_excess_is_reported_witness :
  clean_contract config_budget
  /\ dict_get "max_changed_lines" JNull (budgets config_budget) = JInt 10
  /\ 10 < 4 + 8
  /\ exists vs bv,
       find_violations (RT := posix) config_budget ["src/a.py"] ["src/a.py"] (4 + 8) = Ok vs
       /\ In (violation "DIFF_BUDGET_EXCEEDED" [("violations", JArr bv)]) vs
       /\ In (JArr [JStr "max_changed_lines"; JInt (4 + 8); JInt 10]) bv.
Proof.
  assert (H1 : clean_contract config_budget) by (split; reflexivity).
  assert (H2 : dict_get "max_changed_lines" JNull (budgets config_budget) = JInt 10)
    by reflexivity.
  assert (H3 : 10 < 4 + 8) by lia.
  split; [exact H1|]. split; [exact H2|]. split; [exact H3|].
  exact (proj1 (budget_excess_is_reported (RT := posix) world_twelve_lines harness_args
                  config_budget ["src/a.py"] ["src/a.py"] 4 8 10 H1) H2 H3).
Defined.

(** Ten lines allowed, four added and eight deleted, from the numeric diff
    summary to the bundle. *)
Example twelve_lines_exceed_ten :
  let w := world_twelve_lines in
  match main_report (RT := posix) w harness_args (w_files w) with
  | (Ok (_, Some rep), _) =>
      member "violations" (member "constraints" (rep_evidence rep))
      = JArr [violation "DIFF_BUDGET_EXCEEDED"
                [("violations", JArr [JArr [JStr "max_changed_lines"; JInt 12; JInt 10]])]]
      /\ member "decision" (rep_evidence rep) = JStr "DENY"
  | _ => False
  end.
Proof. vm_compute. split; reflexivity. Qed.


(** In that run the manifest gives [evidence.json] the size of the first
    text; the text on disk is longer. *)
Example manifest_size_is_of_first_text :
  let w := world_docs_change in
  match main_report (RT := posix) w harness_args (w_files w) with
  | (Ok (_, Some rep), fs') =>
      exists e text,
        hd_error (match member "files" (rep_manifest rep) with JArr l => l | _ => [] end)
        = Some e
        /\ member "path" e = JStr "evidence.json"
        /\ fs' !! "/repo/.codex/out/p1/evidence.json" = Some text
        /\ member "size" e
           = JInt (Z.of_nat (String.length
                              (json_dumps (Runtime := posix) (rep_evidence_first rep) +:+ LF)))
        /\ member "size" e <> JInt (Z.of_nat (String.length text))
  | _ => False
  end.
Proof.
  vm_compute. do 2 eexists. repeat split; try reflexivity. discriminate.
Qed.

End HarnessRuns.

(** ** The admission gate: how a run decomposes *)

Module GateFacts.
Import Gate.

Section Facts.
Context `{RT : Runtime} (w : World) (args : Args).

Lemma rbind_ok {A B} (m : result A) (k : A -> result B) (b : B) :
  rbind m k = Ok b -> exists a, m = Ok a /\ k a = Ok b.
Proof. destruct m as [a|e]; cbn; intros E; [eauto | discriminate E]. Qed.

Lemma run_ok (cmd : list string) (cwd : option string) :
  starts w -> exists rc out err, run w cmd cwd = Ok (rc, out, err).
Proof.
  intros Hs. unfold run. destruct (Hs (w_files w) cmd cwd) as (rc & out & err & ->). eauto.
Qed.

Ltac run_cases Hs :=
  repeat match goal with
         | |- context [run w ?c ?d] =>
             let rc := fresh "rc" in
             let out := fresh "out" in
             let err := fresh "err" in
             destruct (run_ok c d Hs) as (rc & out & err & ->); cbn [rbind]
         end.

Lemma git_root_total : starts w -> exists r, git_root w = Ok r.
Proof. intros Hs. unfold git_root. run_cases Hs. eauto. Qed.

Lemma load_registry_total l : starts w -> exists l', load_registry w l = Ok l'.
Proof.
  intros Hs. unfold load_registry, parse_worktree_list.
  destruct (l_repo_root l); [|eauto]. destruct (allow (l_decision l)); [|eauto].
  run_cases Hs. eauto.
Qed.

Lemma mkdir_ok (d : string) : makes_dirs w -> mkdir w d = Ok tt.
Proof. intros Hm. unfold mkdir. now rewrite (Hm d). Qed.

Lemma create_total l :
  starts w -> makes_dirs w ->
  (forall p, l_wt_path l = Some p -> exists r, l_wt_root l = Some r) ->
  exists l', create w l = Ok l'.
Proof.
  intros Hs Hm Hr. unfold create.
  destruct (l_wt_path l) as [p|]; [|eauto]. destruct (l_repo_root l); [|eauto].
  destruct (allow (l_decision l) && negb (path_exists w p)); [|eauto].
  destruct (Hr p eq_refl) as [r ->]. rewrite (mkdir_ok r Hm). cbn [rbind].
  run_cases Hs. destruct (rc0 =? 0); eauto.
Qed.

Lemma check_git_op_total l : starts w -> exists l', check_git_op w l = Ok l'.
Proof.
  intros Hs. unfold check_git_op, git_dir.
  destruct (l_wt_path l); [|eauto]. destruct (allow (l_decision l)); [|eauto].
  run_cases Hs. destruct (rc =? 0); [|eauto]. destruct (git_op_in_progress w _); eauto.
Qed.

Lemma check_ancestry_total l : starts w -> exists l', check_ancestry w l = Ok l'.
Proof.
  intros Hs. unfold check_ancestry, git_rev_parse.
  destruct (l_wt_path l); [|eauto]. destruct (l_repo_root l); [|eauto].
  destruct (allow (l_decision l) && nonempty (base_ref (l_fields l))); [|eauto].
  run_cases Hs.
  match goal with |- context [if nonempty ?b then _ else _] => destruct (nonempty b) end;
    [|eauto].
  run_cases Hs.
  match goal with |- context [if ?c then Ok _ else Ok _] => destruct c end; eauto.
Qed.

Lemma probe_push_total l : starts w -> exists l', probe_push w l = Ok l'.
Proof.
  intros Hs. unfold probe_push.
  destruct (l_wt_path l); [|eauto]. destruct (allow (l_decision l)); [|eauto].
  run_cases Hs.
  match goal with |- context [if ?c then Ok _ else Ok _] => destruct c end; eauto.
Qed.

Lemma py_or_dict (v : json) :
  dict_or_falsy v -> exists m, py_or v (JObj []) = JObj m.
Proof.
  unfold py_or. intros [Hf | [m ->]]; [rewrite Hf; eauto|].
  destruct (truthy (JObj m)); eauto.
Qed.

Lemma read_fields_total (c : json) : well_shaped c -> exists f, read_fields c = Ok f.
Proof.
  intros (m & -> & Hp & _). unfold read_fields. cbn [jget jget_default rbind].
  destruct (py_or_dict _ Hp) as [pm ->]. cbn. eauto.
Qed.

Lemma default_evidence_path_total (contract : option json) :
  (forall c, contract = Some c -> well_shaped c) ->
  exists p, default_evidence_path contract = Ok p.
Proof.
  intros Hc. unfold default_evidence_path. destruct contract as [c|]; [|eauto].
  destruct (Hc c eq_refl) as (m & -> & _ & He).
  destruct (truthy (JObj m)); [|eauto]. cbn [jget jget_default rbind].
  destruct (py_or_dict _ He) as [em ->]. cbn. eauto.
Qed.

Lemma start_total repo_root contract contract_err :
  (forall c, contract = Some c -> well_shaped c) ->
  exists l, start repo_root contract contract_err = Ok l.
Proof.
  intros Hc. unfold start. destruct contract as [c|]; cbn [rbind]; [|eauto].
  destruct (read_fields_total c (Hc c eq_refl)) as [f ->]. cbn. eauto.
Qed.

Lemma safe_read_json_shape (path : string) contract err :
  (forall c, w_docs w path = DocJson c -> c = JNull \/ well_shaped c) ->
  safe_read_json w path = (contract, err) ->
  forall c, contract = Some c -> well_shaped c.
Proof.
  intros Hd E c ->. unfold safe_read_json in E.
  destruct (w_docs w path) as [?|?|v] eqn:Ed; try discriminate E.
  destruct (Hd v eq_refl) as [-> | Hw]; [discriminate E|].
  destruct Hw as (m & -> & Hw). injection E as <- _. exists m. now split.
Qed.

Lemma evidence_decision (l : Locals) :
  member "decision" (evidence_of w l) = JStr (decision_word (l_decision l))
  /\ member "worktree_reused" (evidence_of w l) = JBool (l_worktree_reused l)
  /\ member "worktree_created" (evidence_of w l) = JBool (l_worktree_created l)
  /\ member "deny_code" (evidence_of w l) = opt_str (deny_code (l_decision l)).
Proof. repeat split; reflexivity. Qed.

(** *** What each check changes *)


Lemma load_registry_facts l l1 :
  load_registry w l = Ok l1 ->
  l_repo_root l1 = l_repo_root l /\ l_fields l1 = l_fields l /\ l_wt_path l1 = l_wt_path l
  /\ l_decision l1 = l_decision l
  /\ l_worktree_created l1 = l_worktree_created l
  /\ l_worktree_reused l1 = l_worktree_reused l
  /\ (l_wt_list l1 = l_wt_list l \/ allow (l_decision l) = true).
Proof.
  unfold load_registry. destruct (l_repo_root l) as [repo|] eqn:Er.
  - destruct (allow (l_decision l)) eqn:Ea.
    + intros E. apply rbind_ok in E as (wl & _ & E). injection E as <-. cbn.
      repeat split; auto.
    + intros E. injection E as <-. repeat split; auto.
  - intros E. injection E as <-. repeat split; auto.
Qed.

Lemma registered_empty (p : string) : registered w ∅ p = false.
Proof. unfold registered. now rewrite map_to_list_empty. Qed.

Lemma advances_refl l : advances l l.
Proof. repeat split; auto. Qed.

Lemma advances_trans l l' l'' : advances l l' -> advances l' l'' -> advances l l''.
Proof.
  intros (Hs & Hc & Hr & Hd) (Hs' & Hc' & Hr' & Hd').
  split; [congruence|]. split; [congruence|]. split; [congruence|].
  destruct Hd as [Hd | (Ha & Hf & Hl)].
  - rewrite <- Hd. exact Hd'.
  - destruct Hd' as [Hd' | (Ha' & _)]; [|congruence].
    right. rewrite Hd'. auto.
Qed.

Lemma advances_deny (l l' : Locals) (code msg : string) :
  static l' = static l ->
  l_worktree_created l' = l_worktree_created l ->
  l_worktree_reused l' = l_worktree_reused l ->
  l_decision l' = l_decision l ->
  allow (l_decision l) = true ->
  later_denial (mkDecision false (Some code) (Some msg)) ->
  advances l (deny_with code msg l').
Proof.
  intros Hs Hc Hr Hd Ha Hl. unfold advances, deny_with, set_decision, static in *. cbn.
  injection Hs as -> -> -> -> ->. rewrite Hc, Hr, Hd. repeat (split; [reflexivity|]).
  right. unfold deny. rewrite Ha. auto.
Qed.

Ltac open_locals l :=
  destruct l as [rr f wr wp wl d cr ru md col hr hs bs ba pp];
  cbn [l_repo_root l_fields l_wt_root l_wt_path l_wt_list l_decision l_worktree_created
       l_worktree_reused l_mismatch_detail l_collision l_head_ref l_head_sha l_base_sha
       l_base_is_ancestor l_push_probe].

Lemma check_git_op_advances l l' : check_git_op w l = Ok l' -> advances l l'.
Proof.
  unfold check_git_op. open_locals l.
  destruct wp as [p|]; [|intros [= <-]; apply advances_refl].
  destruct (allow d) eqn:Ea; [|intros [= <-]; apply advances_refl].
  intros E. apply rbind_ok in E as (g & _ & E).
  destruct g as [g|]; [|injection E as <-; apply advances_refl].
  destruct (git_op_in_progress w g); injection E as <-; [|apply advances_refl].
  apply advances_deny; auto. left. auto.
Qed.

Lemma check_ancestry_advances l l' : check_ancestry w l = Ok l' -> advances l l'.
Proof.
  unfold check_ancestry. open_locals l.
  destruct wp as [p|]; [|intros [= <-]; apply advances_refl].
  destruct rr as [repo|]; [|intros [= <-]; apply advances_refl].
  destruct (allow d && nonempty (base_ref f)) eqn:Ea;
    [|intros [= <-]; apply advances_refl].
  apply andb_true_iff in Ea as [Ea _].
  intros E. apply rbind_ok in E as (b & _ & E).
  apply rbind_ok in E as ([[rc1 o1] e1] & _ & E).
  apply rbind_ok in E as ([[rc2 o2] e2] & _ & E).
  destruct (nonempty (default EmptyString b)).
  - apply rbind_ok in E as ([[rc3 o3] e3] & _ & E).
    destruct ((rc3 =? 0) && String.eqb (Str.strip o3) (default EmptyString b));
      injection E as <-.
    + repeat split; auto.
    + apply advances_deny; auto. right. left. auto.
  - injection E as <-. repeat split; auto.
Qed.

Lemma probe_push_advances l l' : probe_push w l = Ok l' -> advances l l'.
Proof.
  unfold probe_push. open_locals l.
  destruct wp as [p|]; [|intros [= <-]; apply advances_refl].
  destruct (allow d) eqn:Ea; [|intros [= <-]; apply advances_refl].
  intros E. apply rbind_ok in E as ([[rc o] e] & _ & E).
  destruct (github_ops_required f && negb (rc =? 0)); injection E as <-.
  - apply advances_deny; auto. right. right. auto.
  - repeat split; auto.
Qed.


Lemma create_static l l' : create w l = Ok l' -> static l' = static l.
Proof.
  unfold create. open_locals l.
  destruct wp as [p|]; [|now intros [= <-]]. destruct rr as [repo|]; [|now intros [= <-]].
  destruct (allow d && negb (path_exists w p)); [|now intros [= <-]].
  intros E. apply rbind_ok in E as (made & _ & E).
  apply rbind_ok in E as ([[rc1 o1] e1] & _ & E).
  apply rbind_ok in E as ([[rc2 o2] e2] & _ & E).
  destruct (rc2 =? 0); now injection E as <-.
Qed.

Lemma pure_checks_static l :
  static (check_reuse w (check_registered w (check_policy w l))) = static l.
Proof.
  assert (Hp : static (check_policy w l) = static l).
  { unfold check_policy. destruct (present w l); [|reflexivity].
    now destruct (deny_if_exists (l_fields l)). }
  assert (Hr : forall l, static (check_registered w l) = static l).
  { intros k. unfold check_registered. destruct (present w k); [|reflexivity].
    now destruct (registered w (l_wt_list k) s). }
  assert (Hu : forall l, static (check_reuse w l) = static l).
  { intros k. unfold check_reuse. destruct (present w k); [|reflexivity].
    now destruct (match worktree_branch _ with Some _ => _ | None => _ end). }
  now rewrite Hu, Hr, Hp.
Qed.

Lemma start_roots repo_root contract contract_err l0 :
  start repo_root contract contract_err = Ok l0 ->
  forall p, l_wt_path l0 = Some p -> exists r, l_wt_root l0 = Some r.
Proof.
  unfold start. intros E. apply rbind_ok in E as ([d f] & _ & E).
  injection E as <-. cbn [l_wt_path l_wt_root].
  destruct repo_root as [repo|]; [eauto | discriminate].
Qed.

Lemma load_registry_paths l l1 :
  load_registry w l = Ok l1 ->
  l_wt_root l1 = l_wt_root l /\ l_wt_path l1 = l_wt_path l.
Proof.
  unfold load_registry. destruct (l_repo_root l) as [repo|].
  - destruct (allow (l_decision l)).
    + intros E. apply rbind_ok in E as (wl & _ & E). injection E as <-. now split.
    + intros [= <-]. now split.
  - intros [= <-]. now split.
Qed.

(** With commands that start, a contract of the expected shape and
    directories that can be made, the checks come to their end. *)
Lemma checks_total :
  starts w -> makes_dirs w ->
  (forall c, w_docs w (path_str (arg_contract args)) = DocJson c ->
             c = JNull \/ well_shaped c) ->
  exists pl, checks w args = Ok pl.
Proof.
  intros Hs Hm Hd. unfold checks.
  destruct (git_root_total Hs) as [rr ->]. cbn [rbind].
  destruct (safe_read_json w (path_str (arg_contract args))) as [contract err] eqn:Ec.
  pose proof (safe_read_json_shape _ _ _ Hd Ec) as Hshape.
  assert (exists ep,
            match arg_evidence_out args with
            | Some p => if nonempty p then Ok (path_str p) else default_evidence_path contract
            | None => default_evidence_path contract
            end = Ok ep) as [ep ->].
  { destruct (arg_evidence_out args) as [p|];
      [destruct (nonempty p); [eauto|]|]; now apply default_evidence_path_total. }
  cbn [rbind]. rewrite (mkdir_ok _ Hm). cbn [rbind].
  destruct (start_total rr contract err Hshape) as [l0 E0]. rewrite E0. cbn [rbind].
  destruct (load_registry_total l0 Hs) as [l1 E1]. rewrite E1. cbn [rbind].
  destruct (create_total (check_reuse w (check_registered w (check_policy w l1))) Hs Hm)
    as [l5 ->].
  { intros p Hp. pose proof (pure_checks_static l1) as Hst.
    destruct (load_registry_paths _ _ E1) as [Hr1 Hp1].
    unfold static in Hst. injection Hst as _ _ Hr Hq _.
    rewrite Hq, Hp1 in Hp. rewrite Hr, Hr1. exact (start_roots _ _ _ _ E0 p Hp). }
  cbn [rbind].
  destruct (check_git_op_total l5 Hs) as [l6 ->]. cbn [rbind].
  destruct (check_ancestry_total l6 Hs) as [l7 ->]. cbn [rbind].
  destruct (probe_push_total l7 Hs) as [l8 ->]. cbn [rbind]. eauto.
Qed.


End Facts.
End GateFacts.

(** ** The admission gate on the concrete machines *)

Section GateRuns.
Import Gate GateFacts Demo.

(** C2, refuted as stated: a contract whose [worktree_policy] is a string
    makes [policy.get] raise, on a machine without [git] the first
    [subprocess.run] raises, and an evidence path that is a directory makes
    the last [write_text] raise; in each run the exception leaves [main]
    and no evidence record is written. *)
Lemma gate_writes_evidence_counterexample :
  main (RT := posix) (gate_world contract_policy_string) gate_args ∅
  = (Raise AttributeError, ∅)
  /\ snd (main (RT := posix) (gate_world contract_policy_string) gate_args ∅)
       !! ".codex/out/p1/g0_enter_work.json" = None
  /\ main (RT := posix) gate_world_no_git gate_args ∅ = (Raise (OSError no_git), ∅)
  /\ snd (main (RT := posix) gate_world_no_git gate_args ∅)
       !! ".codex/out/p1/g0_enter_work.json" = None
  /\ main (RT := posix) gate_world_docs gate_args_docs ∅
     = (Raise (OSError "[Errno 21] Is a directory: docs"), ∅).
Proof. repeat split; vm_compute; reflexivity. Qed.

Lemma contract_resume_shaped (c : json) :
  w_docs (gate_world contract_resume) (path_str (Runtime := posix) (arg_contract gate_args))
  = DocJson c ->
  c = JNull \/ well_shaped c.
Proof.
  intros E. vm_compute in E. injection E as <-. right.
  eexists. split; [reflexivity|]. split; [right; eexists; reflexivity | left; reflexivity].
Qed.


End GateRuns.

(** * Further properties *)

(** ** String methods *)

Section StrFacts.

Lemma lstrip_by_idem (f : ascii -> bool) (s : string) :
  Str.lstrip_by f (Str.lstrip_by f s) = Str.lstrip_by f s.
Proof.
  pose proof (lstrip_by_head f s) as Hh.
  destruct (Str.lstrip_by f s) as [|c r]; [reflexivity|].
  cbn [Str.lstrip_by]. now rewrite Hh.
Qed.

Lemma rstrip_by_cons (f : ascii -> bool) (c : ascii) (s : string) :
  Str.rstrip_by f (String c s)
  = match Str.rstrip_by f s with
    | EmptyString => if f c then EmptyString else String c EmptyString
    | r => String c r
    end.
Proof. reflexivity. Qed.

Lemma rstrip_by_idem (f : ascii -> bool) (s : string) :
  Str.rstrip_by f (Str.rstrip_by f s) = Str.rstrip_by f s.
Proof.
  induction s as [|c s IH]; [reflexivity|].
  rewrite rstrip_by_cons. destruct (Str.rstrip_by f s) as [|d r] eqn:E.
  - destruct (f c) eqn:Ec; [reflexivity|]. cbn. now rewrite Ec.
  - rewrite rstrip_by_cons, IH. reflexivity.
Qed.

(** What [rstrip] leaves starts as the string does. *)
Lemma rstrip_by_head (f : ascii -> bool) (c : ascii) (s : string) :
  f c = false -> exists r, Str.rstrip_by f (String c s) = String c r.
Proof.
  intros Ec. rewrite rstrip_by_cons.
  destruct (Str.rstrip_by f s); rewrite ?Ec; eauto.
Qed.

Lemma strip_head (s : string) :
  match Str.strip s with
  | String c _ => Str.is_space c = false
  | EmptyString => True
  end.
Proof.
  unfold Str.strip. pose proof (lstrip_by_head Str.is_space s) as Hh.
  destruct (Str.lstrip_by Str.is_space s) as [|c r]; [exact I|].
  destruct (rstrip_by_head Str.is_space c r Hh) as [r' ->]. exact Hh.
Qed.

(** [s.strip().strip() == s.strip()] *)
Lemma strip_idem (s : string) : Str.strip (Str.strip s) = Str.strip s.
Proof.
  pose proof (strip_head s) as Hh. unfold Str.strip at 1.
  destruct (Str.strip s) as [|c r] eqn:E; [reflexivity|].
  cbn [Str.lstrip_by]. rewrite Hh. rewrite <- E. unfold Str.strip.
  apply rstrip_by_idem.
Qed.

Lemma rstrip_by_all (f : ascii -> bool) (s : string) :
  forallb f (list_ascii_of_string s) = true -> Str.rstrip_by f s = EmptyString.
Proof.
  induction s as [|c s IH]; [reflexivity|]. cbn [list_ascii_of_string forallb].
  intros E. apply andb_true_iff in E as [Ec Es].
  rewrite rstrip_by_cons, (IH Es). now rewrite Ec.
Qed.

(** A tail of characters to strip is stripped whole. *)
Lemma rstrip_by_app_all (f : ascii -> bool) (a b : string) :
  forallb f (list_ascii_of_string b) = true ->
  Str.rstrip_by f (a +:+ b) = Str.rstrip_by f a.
Proof.
  intros Hb. induction a as [|c a IH]; [now apply rstrip_by_all|].
  change (String c a +:+ b) with (String c (a +:+ b)).
  now rewrite !rstrip_by_cons, IH.
Qed.

Lemma replace_char_idem (a b : ascii) (s : string) :
  a <> b ->
  Str.replace_char a b (Str.replace_char a b s) = Str.replace_char a b s.
Proof.
  intros Hab. induction s as [|c s IH]; [reflexivity|].
  cbn [Str.replace_char]. rewrite IH. f_equal.
  destruct (Ascii.eqb c a) eqn:E; [|now rewrite E].
  apply Ascii.eqb_neq in Hab. rewrite Ascii.eqb_sym. now rewrite Hab.
Qed.

(** A string without [a] stays without it when characters are dropped from
    its front. *)
Lemma replace_char_lstrip (a b : ascii) (f : ascii -> bool) (s : string) :
  Str.replace_char a b s = s ->
  Str.replace_char a b (Str.lstrip_by f s) = Str.lstrip_by f s.
Proof.
  induction s as [|c s IH]; [reflexivity|].
  intros E. cbn [Str.lstrip_by]. destruct (f c); [|exact E].
  apply IH. cbn [Str.replace_char] in E. now injection E.
Qed.

End StrFacts.

(** ** The path matcher, further *)

Section PathMatcherMore.
Context `{RT : Runtime}.

Lemma normalize_path_idem (s : string) :
  normalize_path (normalize_path s) = normalize_path s.
Proof.
  unfold normalize_path, Str.lstrip_chars.
  rewrite replace_char_lstrip by (apply replace_char_idem; discriminate).
  apply lstrip_by_idem.
Qed.

Lemma matches_allowed_existsb (p : string) (l : list string) :
  matches_allowed p l = existsb (pattern_hit (normalize_path p)) l.
Proof.
  induction l as [|a l IH]; [reflexivity|].
  cbn [matches_allowed existsb]. rewrite IH.
  now destruct (pattern_hit (normalize_path p) a).
Qed.

Lemma matches_any_existsb (p : string) (l : list string) :
  matches_any p l = existsb (pattern_hit (normalize_path p)) l.
Proof.
  induction l as [|a l IH]; [reflexivity|].
  cbn [matches_any existsb]. rewrite IH.
  now destruct (pattern_hit (normalize_path p) a).
Qed.

(** X1: a path matches a list of patterns when it matches one of its
    parts: the order of the patterns does not matter, and a pattern added
    to the list never takes a match away. The matcher of the forbidden
    outputs, [matches_any], decides as [matches_allowed] does. *)
Theorem matches_allowed_app (path : string) (l1 l2 : list string) :
  matches_allowed path (l1 ++ l2) = matches_allowed path l1 || matches_allowed path l2
  /\ matches_allowed path (l1 ++ l2) = matches_allowed path (l2 ++ l1)
  /\ matches_any path (l1 ++ l2) = matches_allowed path (l1 ++ l2).
Proof.
  rewrite matches_any_existsb, !matches_allowed_existsb, !existsb_app.
  repeat split. apply orb_comm.
Qed.

(** X2: [normalize_path] is idempotent, so the loop over the forbidden
    outputs, which normalizes a path and hands it to [matches_any] that
    normalizes it again, decides as [matches_any] does on the path itself. *)
Theorem normalize_path_idempotent (path : string) (patterns : list string) :
  normalize_path (normalize_path path) = normalize_path path
  /\ matches_any (normalize_path path) patterns = matches_any path patterns
  /\ matches_allowed (normalize_path path) patterns = matches_allowed path patterns.
Proof.
  pose proof (normalize_path_idem path) as Hi.
  split; [exact Hi|]. split.
  - now apply matches_any_norm.
  - now apply matches_allowed_norm.
Qed.

(** X3: a pattern made of dots and slashes only, such as [.], [./] or [/],
    is normalized to the empty pattern and matches only a path that is
    normalized to the empty path: as an allowed path it lets no file of the
    repository through. *)
Theorem dot_pattern_matches_nothing (pat path : string) :
  Forall lead_char (list_ascii_of_string pat) ->
  normalize_path pat = EmptyString
  /\ matches_allowed path [pat] = String.eqb (normalize_path path) EmptyString
  /\ matches_any path [pat] = String.eqb (normalize_path path) EmptyString
  /\ (normalize_path path <> EmptyString -> matches_allowed path [pat] = false).
Proof.
  intros Hl.
  assert (Hn : normalize_path pat = EmptyString).
  { pose proof (normalize_path_lead pat EmptyString Hl) as E.
    replace (pat +:+ EmptyString) with pat in E; [exact E|].
    clear. induction pat as [|c pat IH]; [reflexivity|].
    change (String c pat = String c (pat +:+ EmptyString)). now f_equal. }
  assert (Hh : pattern_hit (normalize_path path) pat
               = String.eqb (normalize_path path) EmptyString).
  { unfold pattern_hit. rewrite Hn. cbn.
    pose proof (normalize_path_head path) as Hp.
    destruct (normalize_path path) as [|c r]; [reflexivity|].
    change (EmptyString +:+ "/") with "/". cbn -[ascii_dec].
    destruct Hp as [_ Hs]. destruct (ascii_dec "/" c) as [<-|]; [congruence | reflexivity]. }
  split; [exact Hn|].
  rewrite matches_allowed_existsb, matches_any_existsb. cbn [existsb].
  rewrite Hh, orb_false_r. repeat split.
  intros Hne. now apply String.eqb_neq.
Qed.

End PathMatcherMore.

Lemma dot_pattern_matches_nothing_witness :
  Forall lead_char (list_ascii_of_string "./")
  /\ @matches_allowed Demo.posix "src/a.py" ["./"] = false.
Proof.
  assert (Hl : Forall lead_char (list_ascii_of_string "./")).
  { cbn. repeat (constructor; [unfold lead_char; auto|]). constructor. }
  split; [exact Hl|].
  destruct (@dot_pattern_matches_nothing Demo.posix "./" "src/a.py" Hl) as (_ & -> & _).
  reflexivity.
Defined.

Section PlainPatterns.
Context `{RT : Runtime}.

Lemma append_empty_r (s : string) : s +:+ EmptyString = s.
Proof.
  induction s as [|c s IH]; [reflexivity|].
  change (String c (s +:+ EmptyString) = String c s). now f_equal.
Qed.

(** [p.startswith(a)] *)
Lemma prefix_spec (a p : string) :
  String.prefix a p = true <-> exists r, p = a +:+ r.
Proof.
  revert p. induction a as [|c a IH]; intros p.
  - split; [intros _; now exists p | intros _; now destruct p].
  - destruct p as [|d p].
    + split; [discriminate | intros [r E]; discriminate E].
    + cbn -[ascii_dec]. destruct (ascii_dec c d) as [<- | Hne].
      * rewrite IH. split; intros [r E]; exists r.
        -- change (String c p = String c (a +:+ r)). now f_equal.
        -- change (String c p = String c (a +:+ r)) in E. now injection E.
      * split; [discriminate|]. intros [r E].
        change (String d p = String c (a +:+ r)) in E. injection E as E _. congruence.
Qed.

Lemma replace_char_app (a b : ascii) (s t : string) :
  Str.replace_char a b (s +:+ t) = Str.replace_char a b s +:+ Str.replace_char a b t.
Proof.
  induction s as [|c s IH]; [reflexivity|].
  change (String c s +:+ t) with (String c (s +:+ t)). cbn [Str.replace_char].
  now rewrite IH.
Qed.

Lemma lstrip_by_app (f : ascii -> bool) (s t : string) :
  Str.lstrip_by f (s +:+ t)
  = if forallb f (list_ascii_of_string s) then Str.lstrip_by f t
    else Str.lstrip_by f s +:+ t.
Proof.
  induction s as [|c s IH]; [reflexivity|].
  change (String c s +:+ t) with (String c (s +:+ t)).
  cbn [Str.lstrip_by list_ascii_of_string forallb].
  destruct (f c); [exact IH | reflexivity].
Qed.

Lemma lstrip_by_all (f : ascii -> bool) (s : string) :
  forallb f (list_ascii_of_string s) = true -> Str.lstrip_by f s = EmptyString.
Proof.
  induction s as [|c s IH]; [reflexivity|]. cbn [list_ascii_of_string forallb Str.lstrip_by].
  intros E. apply andb_true_iff in E as [-> Es]. now apply IH.
Qed.

(** A slash at the end of a pattern survives [normalize_path] unless the
    pattern is made of dots and slashes only. *)
Lemma normalize_path_slash (a : string) :
  normalize_path (a +:+ "/") = normalize_path a +:+ "/"
  \/ (normalize_path (a +:+ "/") = EmptyString /\ normalize_path a = EmptyString).
Proof.
  unfold normalize_path, Str.lstrip_chars. rewrite replace_char_app, lstrip_by_app.
  destruct (forallb _ _) eqn:E; [right | left; reflexivity].
  split; [reflexivity | now apply lstrip_by_all].
Qed.

Lemma has_wildcard_app (a b : string) :
  has_wildcard (a +:+ b) = has_wildcard a || has_wildcard b.
Proof.
  unfold has_wildcard. induction a as [|c a IH]; [reflexivity|].
  change (String c a +:+ b) with (String c (a +:+ b)).
  cbn [list_ascii_of_string existsb]. now rewrite IH, orb_assoc.
Qed.

Lemma pattern_hit_slash (p a : string) :
  has_wildcard (normalize_path a) = false ->
  pattern_hit p (a +:+ "/") = pattern_hit p a.
Proof.
  intros Hw. unfold pattern_hit.
  destruct (normalize_path_slash a) as [-> | [-> E]].
  - rewrite has_wildcard_app, Hw. change (has_wildcard "/") with false. cbn [orb].
    unfold Str.rstrip_chars. now rewrite rstrip_by_app_all.
  - rewrite E. reflexivity.
Qed.

(** X4: a pattern without wildcard names a file or a directory: it matches
    the path equal to it and the paths below it, and nothing else (so
    [src] does not match [src2/a]), with or without a slash at its end. *)
Theorem plain_pattern_is_a_directory (path pat : string) :
  has_wildcard (normalize_path pat) = false ->
  let d := Str.rstrip_chars "/" (normalize_path pat) in
  (matches_allowed path [pat] = true
   <-> normalize_path path = d \/ exists rest, normalize_path path = d +:+ "/" +:+ rest)
  /\ matches_allowed path [pat +:+ "/"] = matches_allowed path [pat]
  /\ matches_any path [pat] = matches_allowed path [pat].
Proof.
  intros Hw d. rewrite matches_any_existsb, !matches_allowed_existsb. cbn [existsb].
  rewrite !orb_false_r. split; [|split; [now apply pattern_hit_slash | reflexivity]].
  unfold pattern_hit. rewrite Hw. fold d. rewrite orb_true_iff, String.eqb_eq, prefix_spec.
  split; (intros [E | [r E]]; [now left | right; exists r]).
  - now rewrite E, HarnessFacts.append_assoc.
  - now rewrite E, HarnessFacts.append_assoc.
Qed.

End PlainPatterns.

Lemma plain_pattern_is_a_directory_witness :
  @has_wildcard (@normalize_path "src") = false
  /\ @matches_allowed Demo.posix "./src/a.py" ["src"] = true
  /\ @matches_allowed Demo.posix "./src/a.py" ["src/"] = true.
Proof.
  assert (Hw : has_wildcard (normalize_path "src") = false) by reflexivity.
  split; [exact Hw|].
  destruct (@plain_pattern_is_a_directory Demo.posix "./src/a.py" "src" Hw) as (H1 & H2 & _).
  assert (Hm : @matches_allowed Demo.posix "./src/a.py" ["src"] = true).
  { apply H1. right. exists "a.py". reflexivity. }
  split; [exact Hm|]. change ("src/") with ("src" +:+ "/"). now rewrite H2.
Defined.

(** ** The allowed paths *)

Section AllowedPaths.
Import Harness HarnessFacts.
Context `{RT : Runtime} (w : World) (args : Args).

Lemma str_prefix_strings (l : list string) : str_prefix (map JStr l) = (l, false).
Proof.
  induction l as [|s l IH]; [reflexivity|]. cbn [map str_prefix]. now rewrite IH.
Qed.

Lemma has_wildcard_spec (pat : string) : has_wildcard pat = true <-> spec_is_glob pat.
Proof.
  unfold has_wildcard, spec_is_glob. rewrite existsb_exists.
  split; intros (c & Hin & Hc); exists c; (split; [exact Hin|]).
  - unfold Str.in_chars in Hc. cbn [list_ascii_of_string existsb] in Hc.
    rewrite orb_false_r, !orb_true_iff, !Ascii.eqb_eq in Hc. exact Hc.
  - unfold Str.in_chars. cbn [list_ascii_of_string existsb].
    rewrite orb_false_r, !orb_true_iff, !Ascii.eqb_eq. exact Hc.
Qed.

(** One pattern hits a normalized path exactly when the path matches the
    normalized pattern as the specification words it. *)
Lemma pattern_hit_spec (p pat : string) :
  pattern_hit p pat = true <-> spec_matches p (normalize_path pat).
Proof.
  unfold pattern_hit, spec_matches.
  pose proof (has_wildcard_spec (normalize_path pat)) as Hw.
  destruct (has_wildcard (normalize_path pat)) eqn:E.
  - split.
    + intros Hf. left. split; [now apply Hw | exact Hf].
    + intros [[_ Hf] | [Hn _]]; [exact Hf | exfalso; apply Hn; now apply Hw].
  - assert (Hn : ~ spec_is_glob (normalize_path pat)).
    { intros Hg. apply Hw in Hg. discriminate Hg. }
    rewrite orb_true_iff, String.eqb_eq, prefix_spec. split.
    + intros [Heq | [r Hr]]; right; (split; [exact Hn|]); [now left | right; exists r].
      now rewrite Hr, HarnessFacts.append_assoc.
    + intros [[Hg _] | [_ [Heq | [r Hr]]]]; [contradiction | now left | right; exists r].
      now rewrite Hr, HarnessFacts.append_assoc.
Qed.

Lemma matches_allowed_spec (path : string) (pats : list string) :
  matches_allowed path pats = true
  <-> exists a, In a pats /\ spec_matches (normalize_path path) (normalize_path a).
Proof.
  rewrite matches_allowed_hit.
  split; intros (a & Hin & Hh); exists a; (split; [exact Hin|]); now apply pattern_hit_spec.
Qed.

(** The violations of a contract whose patterns are the strings [pats] and
    [fpats]: the first is the one of the paths outside [pats], if there is
    such a path. *)
Lemma allowed_violation_first (cfg : Config) (pats fpats changed status : list string)
    (total_lines : Z) (vs : list json) :
  allowed_paths cfg = map JStr pats -> pats <> [] ->
  forbidden_outputs cfg = map JStr fpats ->
  find_violations cfg changed status total_lines = Ok vs ->
  let bad := List.filter (fun p => negb (matches_allowed p pats)) changed in
  (bad <> [] ->
   hd_error vs = Some (violation "DIFF_OUTSIDE_ALLOWED_PATHS" [("bad_paths", JArr (map JStr bad))])
   /\ forall declared, decide_decision vs declared = JStr "DENY")
  /\ (bad = [] -> Forall (fun v => member "code" v <> JStr "DIFF_OUTSIDE_ALLOWED_PATHS") vs).
Proof.
  intros Ha Hne Hf Hfv bad.
  assert (Hclean : clean_contract cfg).
  { split; unfold all_strings; [rewrite Ha | rewrite Hf]; now rewrite str_prefix_strings. }
  rewrite (find_violations_clean cfg changed status total_lines Hclean) in Hfv.
  rewrite Ha, str_prefix_strings in Hfv. cbn [fst] in Hfv. fold bad in Hfv.
  destruct pats as [|a0 pats']; [contradiction|]. cbn [map] in Hfv.
  injection Hfv as <-. split.
  - intros Hb. destruct bad as [|b lb]; [contradiction|]. split; reflexivity.
  - intros ->. apply Forall_app. split; [constructor|]. apply Forall_app. split.
    + destruct (forbidden_outputs cfg); [constructor|].
      destruct (Str.sorted_set _); constructor; [|constructor].
      rewrite violation_code. discriminate.
    + destruct (budget_violations _ _ _ _); constructor; [|constructor].
      rewrite violation_code. discriminate.
Qed.

(** C7: for a contract whose allowed paths are the patterns [pats], not
    none, the changed paths that match no pattern are reported, all of them
    and only them, in their order, as the [bad_paths] of one
    DIFF_OUTSIDE_ALLOWED_PATHS violation, the first of the list, which
    makes the decision DENY; when every path matches there is no such
    violation.  A path matches a pattern when their normal forms match as
    the specification says: by [fnmatch] if the pattern contains one of
    the characters [*], [?] and the opening bracket, else as the pattern's
    directory itself or a path below it.  So [docs/readme.md] against
    [src/] is reported.  The bundle of a finished run holds these
    violations and this decision. *)
Theorem paths_outside_allowed_are_reported (cfg : Config) (pats fpats : list string)
    (changed status : list string) (total_lines : Z) :
  allowed_paths cfg = map JStr pats -> pats <> [] ->
  forbidden_outputs cfg = map JStr fpats ->
  let outside (paths : list string) :=
    List.filter (fun p => negb (matches_allowed p pats)) paths in
  (forall p, matches_allowed p pats = true
             <-> exists a, In a pats
                           /\ spec_matches (normalize_path p) (normalize_path a))
  /\ (forall p, In p (outside changed)
                <-> In p changed
                    /\ ~ exists a, In a pats
                                   /\ spec_matches (normalize_path p) (normalize_path a))
  /\ outside_allowed changed (allowed_paths cfg) = Ok (outside changed)
  /\ (exists vs,
        find_violations cfg changed status total_lines = Ok vs
        /\ (outside changed <> [] ->
            hd_error vs
            = Some (violation "DIFF_OUTSIDE_ALLOWED_PATHS"
                              [("bad_paths", JArr (map JStr (outside changed)))])
            /\ forall declared, decide_decision vs declared = JStr "DENY")
        /\ (outside changed = [] ->
            Forall (fun v => member "code" v <> JStr "DIFF_OUTSIDE_ALLOWED_PATHS") vs))
  /\ outside_allowed ["docs/readme.md"] [JStr "src/"] = Ok ["docs/readme.md"]
  /\ (forall generated_at root contract fs fs' rep,
        main_body w args generated_at root contract fs = (Ok rep, fs') ->
        read_config contract = Ok cfg ->
        let bad := outside (ob_changed_paths (rep_observed rep)) in
        member "violations" (member "constraints" (rep_evidence rep))
        = JArr (rep_violations rep)
        /\ (bad <> [] ->
            hd_error (rep_violations rep)
            = Some (violation "DIFF_OUTSIDE_ALLOWED_PATHS"
                              [("bad_paths", JArr (map JStr bad))])
            /\ member "decision" (rep_evidence rep) = JStr "DENY")
        /\ (bad = [] ->
            Forall (fun v => member "code" v <> JStr "DIFF_OUTSIDE_ALLOWED_PATHS")
                   (rep_violations rep))).
Proof.
  intros Ha Hne Hf outside.
  assert (Hclean : clean_contract cfg).
  { split; unfold all_strings; [rewrite Ha | rewrite Hf]; now rewrite str_prefix_strings. }
  split; [|split; [|split; [|split; [|split]]]].
  - intros p. apply matches_allowed_spec.
  - intros p. unfold outside. rewrite filter_In, negb_true_iff, <- matches_allowed_spec.
    now rewrite not_true_iff_false.
  - rewrite (outside_allowed_strings changed _ (proj1 Hclean)), Ha, str_prefix_strings.
    reflexivity.
  - destruct (find_violations_total cfg changed status total_lines Hclean) as [vs Hvs].
    exists vs. split; [exact Hvs|].
    exact (allowed_violation_first cfg pats fpats changed status total_lines vs Ha Hne Hf Hvs).
  - reflexivity.
  - intros generated_at root contract fs fs' rep E Hc bad.
    apply run_violations in E
      as (cfg' & meta & wt & f & o & Hc' & _ & _ & _ & Hfv & Hv & Hd & _ & Hdd & _).
    rewrite Hc in Hc'. injection Hc' as <-.
    destruct (allowed_violation_first cfg pats fpats _ _ _ _ Ha Hne Hf Hfv) as [Hbad Hnone].
    split; [exact Hv|]. split; [|exact Hnone].
    intros Hb. destruct (Hbad Hb) as [Hhd Hdeny]. split; [exact Hhd|].
    rewrite Hd, Hdd. apply Hdeny.
Qed.

End AllowedPaths.

Section AllowedPathsRuns.
Import Harness HarnessFacts Demo.

Lemma paths_outside_allowed_are_reported_witness :
  let w := world_mixed_change in
  allowed_paths config_src_and_docs = map JStr ["./src/"; "docs/*.md"]
  /\ ["./src/"; "docs/*.md"] <> []
  /\ forbidden_outputs config_src_and_docs = map JStr []
  /\ outside_allowed (RT := posix) ["docs/readme.md"; "docs/img/a.png"; ".\src\a.py"; "src2/b.py"]
                     (allowed_paths config_src_and_docs)
     = Ok ["docs/img/a.png"; "src2/b.py"]
  /\ exists rep fs',
       main_body (RT := posix) w harness_args (w_clock w 0) "/repo" contract_src_and_docs
                 (w_files w) = (Ok rep, fs')
       /\ ob_changed_paths (rep_observed rep)
          = ["docs/readme.md"; "notes.txt"; "src/a.py"; "src2/b.py"]
       /\ member "violations" (member "constraints" (rep_evidence rep))
          = JArr [violation "DIFF_OUTSIDE_ALLOWED_PATHS"
                            [("bad_paths", JArr [JStr "notes.txt"; JStr "src2/b.py"])]]
       /\ member "decision" (rep_evidence rep) = JStr "DENY"
       /\ outside_allowed (RT := posix) ["docs/readme.md"] [JStr "src/"]
          = Ok ["docs/readme.md"].
Proof.
  cbv zeta.
  assert (H1 : allowed_paths config_src_and_docs = map JStr ["./src/"; "docs/*.md"])
    by reflexivity.
  assert (H2 : ["./src/"; "docs/*.md"] <> []) by discriminate.
  assert (H3 : forbidden_outputs config_src_and_docs = map JStr []) by reflexivity.
  split; [exact H1|]. split; [exact H2|]. split; [exact H3|].
  split.
  - destruct (paths_outside_allowed_are_reported (RT := posix) world_mixed_change harness_args
                config_src_and_docs ["./src/"; "docs/*.md"] []
                ["docs/readme.md"; "docs/img/a.png"; ".\src\a.py"; "src2/b.py"] [] 0 H1 H2 H3)
      as (_ & _ & Hout & _).
    rewrite Hout. reflexivity.
  - destruct (main_body_total (RT := posix) world_mixed_change harness_args
                (w_clock world_mixed_change 0) "/repo" contract_src_and_docs
                config_src_and_docs [] (w_files world_mixed_change))
      as (rep & fs' & E).
    + apply machine_starts.
    + vm_compute; reflexivity.
    + vm_compute; reflexivity.
    + split; reflexivity.
    + reflexivity.
    + intros n _. reflexivity.
    + exists rep, fs'. split; [exact E|].
      assert (Hfacts : match main_body (RT := posix) world_mixed_change harness_args
                               (w_clock world_mixed_change 0) "/repo" contract_src_and_docs
                               (w_files world_mixed_change) with
                       | (Ok rep', _) =>
                           ob_changed_paths (rep_observed rep')
                           = ["docs/readme.md"; "notes.txt"; "src/a.py"; "src2/b.py"]
                           /\ length (rep_violations rep') = 1%nat
                       | _ => False
                       end) by (vm_compute; split; reflexivity).
      rewrite E in Hfacts. destruct Hfacts as [Hch Hlen].
      split; [exact Hch|].
      destruct (paths_outside_allowed_are_reported (RT := posix) world_mixed_change
                  harness_args config_src_and_docs ["./src/"; "docs/*.md"] [] [] [] 0
                  H1 H2 H3) as (_ & _ & _ & _ & Hdocs & Hrun).
      destruct (Hrun _ _ _ _ _ _ E ltac:(vm_compute; reflexivity)) as (Hv & Hbad & _).
      rewrite Hch in Hbad.
      destruct (Hbad ltac:(vm_compute; discriminate)) as [Hhd Hd].
      split; [|split; [exact Hd | exact Hdocs]]. rewrite Hv.
      destruct (rep_violations rep) as [|v0 [|v1 vs]]; try discriminate Hlen.
      cbn [hd_error] in Hhd. injection Hhd as ->. reflexivity.
Defined.

End AllowedPathsRuns.

(** ** Sorted sets of paths *)

Section SortedSets.

Lemma insert_sorted_In (x y : string) (l : list string) :
  In y (Str.insert_sorted x l) <-> y = x \/ In y l.
Proof.
  induction l as [|z l IH]; cbn [Str.insert_sorted In]; [intuition|].
  destruct (String.compare x z) eqn:E; cbn [In].
  - apply String.compare_eq_iff in E as ->. intuition.
  - intuition.
  - rewrite IH. intuition.
Qed.

Lemma sorted_set_In (y : string) (l : list string) :
  In y (Str.sorted_set l) <-> In y l.
Proof.
  induction l as [|x l IH]; [reflexivity|].
  cbn [Str.sorted_set fold_right In]. fold (Str.sorted_set l).
  rewrite insert_sorted_In, IH. intuition.
Qed.

Lemma compare_lt_trans (x y z : string) :
  String.compare x y = Lt -> String.compare y z = Lt -> String.compare x z = Lt.
Proof.
  intros Hxy Hyz.
  assert (Lxy : String.le x y) by (unfold String.le, String.leb; now rewrite Hxy).
  assert (Lyz : String.le y z) by (unfold String.le, String.leb; now rewrite Hyz).
  pose proof (transitivity Lxy Lyz) as Lxz. unfold String.le, String.leb in Lxz.
  destruct (String.compare x z) eqn:E; [|reflexivity|now cbn in Lxz].
  apply String.compare_eq_iff in E as ->.
  rewrite String.compare_antisym, Hyz in Hxy. discriminate Hxy.
Qed.

Lemma insert_sorted_sorted (x : string) (l : list string) :
  StronglySorted (fun a b => String.compare a b = Lt) l ->
  StronglySorted (fun a b => String.compare a b = Lt) (Str.insert_sorted x l).
Proof.
  induction 1 as [|z l Hs IH Hz]; cbn [Str.insert_sorted].
  - repeat constructor.
  - destruct (String.compare x z) eqn:E.
    + now constructor.
    + constructor; [now constructor|]. constructor; [exact E|].
      eapply Forall_impl; [exact Hz|]. intros a Ha. now apply (compare_lt_trans x z a).
    + constructor; [exact IH|]. apply Forall_forall. intros a Ha.
      apply list_elem_of_In, insert_sorted_In in Ha as [-> | Ha].
      * rewrite String.compare_antisym, E. reflexivity.
      * rewrite Forall_forall in Hz. apply Hz. now apply list_elem_of_In.
Qed.

Lemma sorted_set_sorted (l : list string) :
  StronglySorted (fun a b => String.compare a b = Lt) (Str.sorted_set l).
Proof.
  induction l as [|x l IH]; [constructor|]. now apply insert_sorted_sorted.
Qed.

Lemma strictly_sorted_NoDup (l : list string) :
  StronglySorted (fun a b => String.compare a b = Lt) l -> List.NoDup l.
Proof.
  induction 1 as [|z l Hs IH Hz]; constructor; [|exact IH].
  intros Hin. rewrite Forall_forall in Hz. apply list_elem_of_In, Hz in Hin.
  pose proof Hin as E. rewrite String.compare_antisym, Hin in E. discriminate E.
Qed.

(** Two strictly increasing lists with the same elements are one list. *)
Lemma strictly_sorted_unique (l1 l2 : list string) :
  StronglySorted (fun a b => String.compare a b = Lt) l1 ->
  StronglySorted (fun a b => String.compare a b = Lt) l2 ->
  (forall x, In x l1 <-> In x l2) -> l1 = l2.
Proof.
  intros H1. revert l2. induction H1 as [|a l1 Hs1 IH Ha]; intros l2 H2 Hin.
  - destruct l2 as [|b l2]; [reflexivity|]. exfalso. apply (Hin b). now left.
  - destruct H2 as [|b l2 Hs2 Hb]; [exfalso; apply (Hin a); now left|].
    rewrite Forall_forall in Ha, Hb.
    assert (Hirr : forall s, String.compare s s = Lt -> False).
    { intros s E. pose proof E as E'. rewrite String.compare_antisym, E in E'. discriminate E'. }
    assert (Eab : a = b).
    { destruct (proj1 (Hin a) (or_introl eq_refl)) as [E | Hal2]; [now symmetry|].
      destruct (proj2 (Hin b) (or_introl eq_refl)) as [E | Hbl1]; [exact E|].
      exfalso. apply list_elem_of_In, Ha in Hbl1. apply list_elem_of_In, Hb in Hal2.
      apply (Hirr a). now apply (compare_lt_trans a b a). }
    subst b. f_equal. apply IH; [exact Hs2|]. intros x. split; intros Hx.
    + destruct (proj1 (Hin x) (or_intror Hx)) as [<- | H']; [|exact H'].
      exfalso. apply (Hirr a). apply Ha. now apply list_elem_of_In.
    + destruct (proj2 (Hin x) (or_intror Hx)) as [<- | H']; [|exact H'].
      exfalso. apply (Hirr a). apply Hb. now apply list_elem_of_In.
Qed.

End SortedSets.

(** ** What a run reads from git *)

Section Parsing.
Import Harness.

Lemma porcelain_path_clean (ln p : string) :
  porcelain_path ln = Some p -> p <> EmptyString /\ Str.strip p = p.
Proof.
  unfold porcelain_path.
  destruct (negb _); [discriminate|]. destruct (_ <? _)%nat; [discriminate|].
  set (q := match Str.after_first " -> " _ with Some new => Str.strip new | None => _ end).
  assert (Hq : Str.strip q = q).
  { unfold q. destruct (Str.after_first _ _); apply strip_idem. }
  destruct (String.eqb q EmptyString) eqn:E; [discriminate|].
  intros [= <-]. split; [now apply String.eqb_neq | exact Hq].
Qed.

Lemma paths_from_porcelain_clean (lines : list string) (p : string) :
  In p (paths_from_porcelain lines) -> p <> EmptyString /\ Str.strip p = p.
Proof.
  unfold paths_from_porcelain. intros Hin.
  apply list_elem_of_In, list_elem_of_omap in Hin as (ln & _ & E).
  now apply porcelain_path_clean with ln.
Qed.

Lemma stripped_lines_clean (t p : string) :
  In p (stripped_lines t) -> p <> EmptyString /\ Str.strip p = p.
Proof.
  unfold stripped_lines, status_lines. intros Hin.
  apply in_map_iff in Hin as (ln & <- & Hin). apply filter_In in Hin as [_ Hnb].
  unfold Str.nonblank in Hnb. apply negb_true_iff, String.eqb_neq in Hnb.
  split; [exact Hnb | apply strip_idem].
Qed.

Lemma is_digit_ge (c : ascii) : Str.is_digit c = true -> 48 <= Z.of_nat (nat_of_ascii c).
Proof.
  unfold Str.is_digit. intros E. apply andb_true_iff in E as [E _].
  apply Nat.leb_le in E. lia.
Qed.

Lemma digits_fold_nonneg (l : list ascii) (acc : Z) :
  0 <= acc -> forallb Str.is_digit l = true ->
  0 <= fold_left (fun acc c => 10 * acc + (Z.of_nat (nat_of_ascii c) - 48)) l acc.
Proof.
  revert acc. induction l as [|c l IH]; intros acc Hacc Hd; [exact Hacc|].
  cbn [forallb] in Hd. apply andb_true_iff in Hd as [Hc Hl]. cbn [fold_left].
  apply IH; [|exact Hl]. apply is_digit_ge in Hc. lia.
Qed.

Lemma int_of_digits_nonneg (s : string) :
  Str.isdigit s = true -> 0 <= Str.int_of_digits s.
Proof.
  unfold Str.isdigit, Str.int_of_digits. intros E.
  apply digits_fold_nonneg; [lia | now destruct s].
Qed.

Lemma numstat_line_bounds (acc : Z * Z * Z) (ln : string) (n : Z) :
  (0 <= fst (fst acc) <= n /\ 0 <= snd (fst acc) /\ 0 <= snd acc) ->
  let acc' := numstat_line acc ln in
  0 <= fst (fst acc') <= n + 1 /\ 0 <= snd (fst acc') /\ 0 <= snd acc'.
Proof.
  destruct acc as [[f a] d]. cbn [fst snd]. intros (Hf & Ha & Hd).
  unfold numstat_line. destruct (String.eqb _ _); [cbn; lia|].
  destruct (Str.split2 TAB _) as [|x [|y r]]; [cbn; lia | cbn; lia |].
  cbn [fst snd]. split; [lia|]. split.
  - destruct (Str.isdigit x) eqn:E; [|exact Ha]. apply int_of_digits_nonneg in E. lia.
  - destruct (Str.isdigit y) eqn:E; [|exact Hd]. apply int_of_digits_nonneg in E. lia.
Qed.

Lemma numstat_fold_bounds (l : list string) (acc : Z * Z * Z) (n : Z) :
  (0 <= fst (fst acc) <= n /\ 0 <= snd (fst acc) /\ 0 <= snd acc) ->
  let r := fold_left numstat_line l acc in
  0 <= fst (fst r) <= n + Z.of_nat (length l) /\ 0 <= snd (fst r) /\ 0 <= snd r.
Proof.
  revert acc n. induction l as [|ln l IH]; intros acc n H0.
  - cbn [fold_left length]. cbv zeta. lia.
  - cbn [fold_left length]. cbv zeta.
    pose proof (IH _ _ (numstat_line_bounds acc ln n H0)) as Hr. cbv zeta in Hr. lia.
Qed.

Lemma numstat_bounds (out : string) :
  0 <= fst (fst (numstat out)) <= Z.of_nat (length (Str.splitlines out))
  /\ 0 <= snd (fst (numstat out)) /\ 0 <= snd (numstat out).
Proof.
  unfold numstat.
  pose proof (numstat_fold_bounds (Str.splitlines out) (0, 0, 0) 0) as Hr.
  cbv zeta in Hr. cbn [fst snd] in Hr. specialize (Hr ltac:(lia)). lia.
Qed.

End Parsing.

Section ObservedFacts.
Import Harness HarnessFacts.
Context `{RT : Runtime} (w : World) (args : Args).

(** X5: the changed paths of a run are the union of the names that
    [git diff --name-only] gives and of the paths of the status after the
    run, each of them once, in increasing order; none is empty or has white
    space around it, and [changed_files] of the evidence is their number.
    Paths given twice, or in another order, change nothing. *)
Theorem changed_paths_are_the_sorted_union (generated_at root : string) (contract : json)
    (fs fs' : gmap string string) (rep : Report) :
  main_body w args generated_at root contract fs = (Ok rep, fs') ->
  let ob := rep_observed rep in
  (forall p, In p (ob_changed_paths ob)
             <-> In p (ob_diff_name_only ob) \/ In p (paths_from_porcelain (ob_status_after ob)))
  /\ StronglySorted (fun a b => String.compare a b = Lt) (ob_changed_paths ob)
  /\ List.NoDup (ob_changed_paths ob)
  /\ (forall p, In p (ob_changed_paths ob) -> p <> EmptyString /\ Str.strip p = p)
  /\ (forall l, (forall p, In p l <-> In p (ob_changed_paths ob)) ->
                Str.sorted_set l = ob_changed_paths ob)
  /\ member "changed_files" (member "diff" (rep_evidence rep))
     = JInt (Z.of_nat (length (ob_changed_paths ob))).
Proof.
  intros E ob. apply main_body_inv in E
    as (cfg & meta & wt & te & fs_o & _ & _ & _ & Hob & _ & _ & _ & _ & _ & art & He & _).
  apply observe_inv in Hob
    as (f1 & f2 & f3 & f4 & f5 & o1 & o4 & _ & _ & _ & _ & _ & Hn & Hc & _).
  fold ob in Hn, Hc.
  assert (Hin : forall p, In p (ob_changed_paths ob)
                  <-> In p (ob_diff_name_only ob)
                      \/ In p (paths_from_porcelain (ob_status_after ob))).
  { intros p. now rewrite Hc, sorted_set_In, in_app_iff. }
  assert (Hs : StronglySorted (fun a b => String.compare a b = Lt) (ob_changed_paths ob)).
  { rewrite Hc. apply sorted_set_sorted. }
  split; [exact Hin|]. split; [exact Hs|]. split; [now apply strictly_sorted_NoDup|].
  split; [|split].
  - intros p Hp. apply Hin in Hp as [Hp | Hp].
    + rewrite Hn in Hp. now apply stripped_lines_clean in Hp.
    + now apply paths_from_porcelain_clean in Hp.
  - intros l Hl. apply strictly_sorted_unique; [apply sorted_set_sorted | exact Hs |].
    intros x. now rewrite sorted_set_In.
  - rewrite He. reflexivity.
Qed.

(** X6: the counts a run reads from [git diff --numstat] are never
    negative, whatever the command prints, and the files counted are at
    most the lines printed; the evidence holds these counts. *)
Theorem numstat_counts_are_natural (generated_at root : string) (contract : json)
    (fs fs' : gmap string string) (rep : Report) :
  main_body w args generated_at root contract fs = (Ok rep, fs') ->
  let ob := rep_observed rep in
  (exists wt out f,
     git_capture w wt ["diff"; "--numstat"; ob_head_before ob] f = (Ok out, f)
     /\ (ob_tracked_files_changed ob, ob_added ob, ob_deleted ob) = numstat out
     /\ ob_tracked_files_changed ob <= Z.of_nat (length (Str.splitlines out)))
  /\ 0 <= ob_tracked_files_changed ob /\ 0 <= ob_added ob /\ 0 <= ob_deleted ob
  /\ member "lines_added" (member "diff" (rep_evidence rep)) = JInt (ob_added ob)
  /\ member "lines_deleted" (member "diff" (rep_evidence rep)) = JInt (ob_deleted ob)
  /\ member "tracked_files_changed" (member "diff" (rep_evidence rep))
     = JInt (ob_tracked_files_changed ob).
Proof.
  intros E ob. apply main_body_inv in E
    as (cfg & meta & wt & te & fs_o & _ & _ & _ & Hob & _ & _ & _ & _ & _ & art & He & _).
  apply observe_inv in Hob
    as (f1 & f2 & f3 & f4 & f5 & o1 & o4 & _ & _ & _ & _ & _ & _ & _ & Hg & Hnum).
  fold ob in Hg, Hnum. pose proof (numstat_bounds o4) as Hb. rewrite <- Hnum in Hb.
  cbn [fst snd] in Hb. rewrite He. cbn [member dict_get lookup_last].
  split; [|repeat split; try reflexivity; lia].
  exists wt, o4, f5. repeat split; [exact Hg | exact Hnum | lia].
Qed.

End ObservedFacts.

Section ObservedRuns.
Import Harness HarnessFacts Demo.

(** The run on [world_docs_change] comes to its end. *)
Lemma docs_change_runs :
  let w := world_docs_change in
  exists rep fs',
    main_body (RT := posix) w harness_args (w_clock w 0) "/repo" contract_src_only (w_files w)
    = (Ok rep, fs').
Proof.
  cbv zeta.
  apply (main_body_total (RT := posix) world_docs_change harness_args
           (w_clock world_docs_change 0) "/repo" contract_src_only config_src_only []).
  - intros fs cmd cwd. cbn. unfold answers. destruct (List.find _ _); eauto.
  - vm_compute; reflexivity.
  - vm_compute; reflexivity.
  - split; reflexivity.
  - reflexivity.
  - intros n _. reflexivity.
Qed.

Lemma changed_paths_are_the_sorted_union_witness :
  let w := world_docs_change in
  exists rep fs',
    main_body (RT := posix) w harness_args (w_clock w 0) "/repo" contract_src_only (w_files w)
    = (Ok rep, fs')
    /\ List.NoDup (ob_changed_paths (rep_observed rep)).
Proof.
  cbv zeta. destruct docs_change_runs as (rep & fs' & E). exists rep, fs'.
  split; [exact E|].
  exact (proj1 (proj2 (proj2 (changed_paths_are_the_sorted_union (RT := posix)
                                world_docs_change harness_args _ _ _ _ _ _ E)))).
Defined.

Lemma numstat_counts_are_natural_witness :
  let w := world_docs_change in
  exists rep fs',
    main_body (RT := posix) w harness_args (w_clock w 0) "/repo" contract_src_only (w_files w)
    = (Ok rep, fs')
    /\ 0 <= ob_added (rep_observed rep).
Proof.
  cbv zeta. destruct docs_change_runs as (rep & fs' & E). exists rep, fs'.
  split; [exact E|].
  exact (proj1 (proj2 (proj2 (numstat_counts_are_natural (RT := posix)
                                world_docs_change harness_args _ _ _ _ _ _ E)))).
Defined.

End ObservedRuns.

(** ** The manifest, further *)

Section SortByKey.
Context {A B : Type}.







End SortByKey.

Section ManifestFacts.
Import Harness HarnessFacts.
Context `{RT : Runtime}.




End ManifestFacts.

Section ManifestRuns.
Import Harness HarnessFacts.
Context `{RT : Runtime} (w : World) (args : Args).


End ManifestRuns.

(** ** The harness without a usable contract *)

Section HarnessEdges.
Import Harness HarnessFacts.
Context `{RT : Runtime} (w : World) (args : Args).

Lemma fallback_eq (out_dir err : string) (fs : gmap string string) :
  fallback w out_dir err fs
  = (Ok 2, <[child out_dir "evidence.json" :=
               json_dumps (JObj [("generated_at_utc", JStr (w_clock w 1)); ("error", JStr err)])
               +:+ LF]> fs).
Proof. reflexivity. Qed.

(** X8: when the repository is not found, or the contract file is missing
    or cannot be decoded, [main] returns 2 and leaves one file, the record
    of the error in [.codex/out/unknown/evidence.json] (below the current
    directory without a repository, below the repository otherwise); no
    snapshot is taken and no manifest written.  The error of a failed
    [git rev-parse --show-toplevel] is its standard error, or
    [not a git repo] when that is blank. *)
Theorem harness_falls_back_without_contract (fs : gmap string string) :
  let record err :=
    json_dumps (JObj [("generated_at_utc", JStr (w_clock w 1)); ("error", JStr err)]) +:+ LF in
  (forall rc out err,
     w_run w fs ["git"; "rev-parse"; "--show-toplevel"] None = Completed rc out err ->
     rc <> 0 ->
     main w args fs
     = (Ok 2, <[child (path_join ".codex/out" "unknown") "evidence.json" :=
                  record (if String.eqb (Str.strip err) EmptyString then "not a git repo"
                          else Str.strip err)]> fs))
  /\ (forall why,
        w_run w fs ["git"; "rev-parse"; "--show-toplevel"] None = NotStarted why ->
        main w args fs
        = (Ok 2, <[child (path_join ".codex/out" "unknown") "evidence.json" := record why]> fs))
  /\ (forall root err,
        git_root w fs = inr root ->
        w_docs w (contract_path w args root) = DocMissing err
        \/ w_docs w (contract_path w args root) = DocUnreadable err ->
        main w args fs
        = (Ok 2, <[child (path_join (path_join root ".codex/out") "unknown") "evidence.json" :=
                     record err]> fs)
        /\ main_report w args fs
           = (Ok (2, None),
              <[child (path_join (path_join root ".codex/out") "unknown") "evidence.json" :=
                  record err]> fs)).
Proof.
  cbv zeta. split; [|split].
  - intros rc out err Hrun Hrc. unfold main, main_report, hbind, git_root.
    rewrite Hrun. apply Z.eqb_neq in Hrc. rewrite Hrc. now rewrite fallback_eq.
  - intros why Hrun. unfold main, main_report, hbind, git_root.
    rewrite Hrun. now rewrite fallback_eq.
  - intros root err Hroot Hdoc. unfold main, main_report, hbind. rewrite Hroot.
    destruct Hdoc as [-> | ->]; now rewrite fallback_eq.
Qed.

(** X9: the fallback covers the decoding of the contract only.  A contract
    that decodes to something [main] cannot read, such as a document that
    is not an object, or an object whose [allowed_paths], [budgets] or the
    like is a number other than 0, makes [main] raise: the process ends
    with status 1 and nothing is written, not the fallback record either. *)
Theorem unreadable_contract_raises (fs : gmap string string) (root : string)
    (contract : json) :
  git_root w fs = inr root ->
  w_docs w (contract_path w args root) = DocJson contract ->
  (forall e, read_config contract = Raise e ->
             main w args fs = (Raise e, fs)
             /\ exit_status (fst (main w args fs)) = 1)
  /\ ((forall m, contract <> JObj m) -> read_config contract = Raise AttributeError)
  /\ (forall m k n,
        contract = JObj m ->
        In k ["allowed_paths"; "forbidden_outputs"; "budgets"; "run"; "evidence"] ->
        dict_get k JNull m = JInt n -> n <> 0 ->
        exists e, read_config contract = Raise e).
Proof.
  intros Hroot Hdoc. split; [|split].
  - intros e He.
    assert (Hm : main w args fs = (Raise e, fs)).
    { unfold main. unfold hbind at 1. rewrite (main_report_eq w args fs root contract Hroot Hdoc).
      unfold hbind, main_body, hbind, hlift. now rewrite He. }
    split; [exact Hm | now rewrite Hm].
  - intros Hno. destruct contract; try reflexivity. now destruct (Hno members).
  - intros m k n -> Hk Hv Hn. unfold read_config. cbn [as_dict rbind].
    assert (Ht : py_or (JInt n) (JArr []) = JInt n /\ py_or (JInt n) (JObj []) = JInt n).
    { unfold py_or. cbn [truthy]. apply Z.eqb_neq in Hn. now rewrite Hn. }
    destruct Ht as [Ha Ho].
    cbn [In] in Hk. destruct Hk as [<- | [<- | [<- | [<- | [<- | []]]]]]; rewrite ?Hv, ?Ha, ?Ho.
    + cbn. eauto.
    + destruct (py_list _); cbn; eauto.
    + destruct (py_list _); [|cbn; eauto]. destruct (py_list _); cbn; eauto.
    + destruct (py_list _); [|cbn; eauto]. destruct (py_list _); [|cbn; eauto].
      destruct (py_dict _); cbn; eauto.
    + destruct (py_list _); [|cbn; eauto]. destruct (py_list _); [|cbn; eauto].
      destruct (py_dict _); [|cbn; eauto]. destruct (py_dict _); cbn; eauto.
Qed.

End HarnessEdges.

Section HarnessEdgeRuns.
Import Harness HarnessFacts Demo.

Lemma harness_falls_back_without_contract_witness :
  w_run gate_world_no_git ∅ ["git"; "rev-parse"; "--show-toplevel"] None = NotStarted no_git
  /\ fst (main (RT := posix) gate_world_no_git harness_args ∅) = Ok 2.
Proof.
  assert (H1 : w_run gate_world_no_git ∅ ["git"; "rev-parse"; "--show-toplevel"] None
               = NotStarted no_git) by reflexivity.
  split; [exact H1|].
  rewrite (proj1 (proj2 (harness_falls_back_without_contract (RT := posix) gate_world_no_git
                           harness_args ∅)) no_git H1).
  reflexivity.
Defined.

Lemma unreadable_contract_raises_witness :
  let w := world_contract_list in
  git_root (RT := posix) w (w_files w) = inr "/repo"
  /\ w_docs w (contract_path (RT := posix) w harness_args "/repo") = DocJson (JArr [JStr "src/"])
  /\ main (RT := posix) w harness_args (w_files w) = (Raise AttributeError, w_files w).
Proof.
  cbv zeta.
  assert (H1 : git_root (RT := posix) world_contract_list (w_files world_contract_list)
               = inr "/repo") by (vm_compute; reflexivity).
  assert (H2 : w_docs world_contract_list
                 (contract_path (RT := posix) world_contract_list harness_args "/repo")
               = DocJson (JArr [JStr "src/"])) by (vm_compute; reflexivity).
  split; [exact H1|]. split; [exact H2|].
  destruct (unreadable_contract_raises (RT := posix) world_contract_list harness_args
              (w_files world_contract_list) "/repo" (JArr [JStr "src/"]) H1 H2)
    as (Hraise & Hno & _).
  apply Hraise. apply Hno. intros m. discriminate.
Defined.

End HarnessEdgeRuns.

(** ** Constraints and tests *)

Section ConstraintFacts.
Import Harness HarnessFacts.
Context `{RT : Runtime} (w : World) (args : Args).

(** X10: the result of the tests has no part in the decision.  A finished
    run records FAIL for a test command whose exit code is an integer other
    than 0, SKIP when the contract has no test command, and decides from
    the violations and the declared decision alone: without violations and
    without a declared DENY the bundle says ALLOW, failed tests or not. *)
Theorem failed_tests_do_not_deny (generated_at root : string) (contract : json)
    (fs fs' : gmap string string) (rep : Report) :
  main_body w args generated_at root contract fs = (Ok rep, fs') ->
  exists cfg meta,
    read_config contract = Ok cfg
    /\ as_dict (load_meta w args root) = Ok meta
    /\ member "result" (member "tests" (rep_evidence rep))
       = JStr (test_result (test_cmd_of cfg) (dict_get "test_rc" JNull meta))
    /\ member "exit_code" (member "tests" (rep_evidence rep)) = dict_get "test_rc" JNull meta
    /\ (forall n, test_cmd_of cfg <> EmptyString ->
                  dict_get "test_rc" JNull meta = JInt n -> n <> 0 ->
                  member "result" (member "tests" (rep_evidence rep)) = JStr "FAIL")
    /\ (test_cmd_of cfg = EmptyString ->
        member "result" (member "tests" (rep_evidence rep)) = JStr "SKIP")
    /\ (rep_violations rep = [] ->
        is_str "DENY" (dict_get "decision" JNull meta) = false ->
        member "decision" (rep_evidence rep) = JStr "ALLOW").
Proof.
  intros E. destruct (main_body_evidence w args _ _ _ _ _ _ E) as (_ & Hd & _ & _).
  apply main_body_inv in E
    as (cfg & meta & wt & te & fs_o & Hc & Hm & _ & _ & _ & _ & Hdd & _ & _ & art & He & _).
  exists cfg, meta. split; [exact Hc|]. split; [exact Hm|].
  assert (Hres : member "result" (member "tests" (rep_evidence rep))
                 = JStr (test_result (test_cmd_of cfg) (dict_get "test_rc" JNull meta)))
    by (rewrite He; reflexivity).
  split; [exact Hres|]. split; [rewrite He; reflexivity|]. split; [|split].
  - intros n Hcmd Hrc Hn. rewrite Hres. unfold test_result.
    apply String.eqb_neq in Hcmd. rewrite Hcmd, Hrc. cbn [is_int int_value].
    apply Z.eqb_neq in Hn. now rewrite Hn.
  - intros Hcmd. rewrite Hres. unfold test_result. now rewrite Hcmd.
  - intros Hv Hdeny. rewrite Hd, Hdd, Hv. unfold decide_decision. rewrite Hdeny, orb_false_r.
    destruct (dict_get "decision" JNull meta) as [| | | |s| |]; try reflexivity.
    cbn [is_str]. destruct (String.eqb s "ALLOW") eqn:Es; [|reflexivity].
    apply String.eqb_eq in Es. now subst s.
Qed.

Lemma matches_any_hit (p : string) (patterns : list string) :
  matches_any p patterns = true <->
  exists a, In a patterns /\ pattern_hit (normalize_path p) a = true.
Proof. rewrite matches_any_existsb, existsb_exists. reflexivity. Qed.

(** X11: for a contract with forbidden outputs, the paths of the status
    after the run that match a forbidden pattern are reported in their
    normal form, each once and in increasing order, as the [paths] of one
    FORBIDDEN_OUTPUT_PRESENT violation, which makes the decision DENY.
    The status is all that is looked at: a forbidden file that is among
    the changed paths only, as one that is committed already, is not
    reported. *)
Theorem forbidden_outputs_are_reported (cfg : Config) (changed status : list string)
    (total_lines : Z) :
  forbidden_outputs cfg <> [] ->
  clean_contract cfg ->
  let patterns := fst (str_prefix (forbidden_outputs cfg)) in
  let hit := Str.sorted_set (List.filter (fun pn => matches_any pn patterns)
                                         (map normalize_path status)) in
  (forall q, In q hit <->
             exists p, In p status /\ q = normalize_path p /\ matches_any p patterns = true)
  /\ StronglySorted (fun a b => String.compare a b = Lt) hit
  /\ exists vs,
       find_violations cfg changed status total_lines = Ok vs
       /\ (hit <> [] ->
           In (violation "FORBIDDEN_OUTPUT_PRESENT" [("paths", JArr (map JStr hit))]) vs
           /\ forall declared, decide_decision vs declared = JStr "DENY")
       /\ (hit = [] ->
           Forall (fun v => member "code" v <> JStr "FORBIDDEN_OUTPUT_PRESENT") vs)
       /\ (status = [] ->
           Forall (fun v => member "code" v <> JStr "FORBIDDEN_OUTPUT_PRESENT") vs).
Proof.
  intros Hne Hclean patterns hit.
  assert (Hin : forall q, In q hit <->
                  exists p, In p status /\ q = normalize_path p
                            /\ matches_any p patterns = true).
  { intros q. unfold hit. rewrite sorted_set_In, filter_In, in_map_iff. split.
    - intros ((p & <- & Hp) & Hm). exists p. split; [exact Hp|]. split; [reflexivity|].
      rewrite <- Hm. symmetry. apply matches_any_norm, normalize_path_idem.
    - intros (p & Hp & -> & Hm). split; [now exists p|].
      rewrite <- Hm. apply matches_any_norm, normalize_path_idem. }
  split; [exact Hin|]. split; [apply sorted_set_sorted|].
  rewrite (find_violations_clean cfg changed status total_lines Hclean).
  fold patterns. fold hit. eexists. split; [reflexivity|].
  destruct (forbidden_outputs cfg) as [|f0 lf]; [contradiction|].
  set (first := match allowed_paths cfg with [] => _ | _ => _ end).
  set (third := match budget_violations _ _ _ _ with [] => _ | _ => _ end).
  assert (H1 : Forall (fun v => member "code" v <> JStr "FORBIDDEN_OUTPUT_PRESENT") first).
  { unfold first. destruct (allowed_paths cfg); [constructor|].
    destruct (List.filter _ changed); constructor; [|constructor].
    rewrite violation_code. discriminate. }
  assert (H3 : Forall (fun v => member "code" v <> JStr "FORBIDDEN_OUTPUT_PRESENT") third).
  { unfold third. destruct (budget_violations _ _ _ _); constructor; [|constructor].
    rewrite violation_code. discriminate. }
  assert (Hnone : hit = [] ->
            Forall (fun v => member "code" v <> JStr "FORBIDDEN_OUTPUT_PRESENT")
                   (first ++ match hit with
                             | [] => []
                             | _ :: _ =>
                                 [violation "FORBIDDEN_OUTPUT_PRESENT"
                                    [("paths", JArr (map JStr hit))]]
                             end ++ third)%list).
  { intros ->. apply Forall_app. split; [exact H1|]. apply Forall_app. now split. }
  split; [|split].
  - intros Hh. destruct hit as [|h lh] eqn:Eh; [contradiction|]. split.
    + apply in_or_app. right. apply in_or_app. left. now left.
    + intros declared. unfold decide_decision. destruct first; reflexivity.
  - exact Hnone.
  - intros Hs. apply Hnone. unfold hit. now rewrite Hs.
Qed.

(** X12: DIFF_BUDGET_EXCEEDED is reported when, and only when, a limit that
    is an integer is less than what it limits: a run at its limits passes,
    and a limit that is a string, a fraction or [null] is ignored.  A
    boolean is an integer to Python: [true] is the limit 1. *)
Theorem budget_violation_iff (cfg : Config) (changed status : list string)
    (total_lines : Z) :
  clean_contract cfg ->
  let max_files := dict_get "max_changed_files" JNull (budgets cfg) in
  let max_lines := dict_get "max_changed_lines" JNull (budgets cfg) in
  exists vs,
    find_violations cfg changed status total_lines = Ok vs
    /\ ((exists v, In v vs /\ member "code" v = JStr "DIFF_BUDGET_EXCEEDED")
        <-> (is_int max_files = true /\ int_value max_files < Z.of_nat (length changed))
            \/ (is_int max_lines = true /\ int_value max_lines < total_lines))
    /\ (max_lines = JBool true -> 1 < total_lines ->
        exists v, In v vs /\ member "code" v = JStr "DIFF_BUDGET_EXCEEDED").
Proof.
  intros Hclean max_files max_lines.
  rewrite (find_violations_clean cfg changed status total_lines Hclean).
  fold max_files. fold max_lines. eexists. split; [reflexivity|].
  set (first := match allowed_paths cfg with [] => _ | _ => _ end).
  set (second := match forbidden_outputs cfg with [] => _ | _ => _ end).
  assert (H1 : Forall (fun v => member "code" v <> JStr "DIFF_BUDGET_EXCEEDED") first).
  { unfold first. destruct (allowed_paths cfg); [constructor|].
    destruct (List.filter _ changed); constructor; [|constructor].
    rewrite violation_code. discriminate. }
  assert (H2 : Forall (fun v => member "code" v <> JStr "DIFF_BUDGET_EXCEEDED") second).
  { unfold second. destruct (forbidden_outputs cfg); [constructor|].
    destruct (Str.sorted_set _); constructor; [|constructor].
    rewrite violation_code. discriminate. }
  assert (Hiff : budget_violations max_files max_lines (Z.of_nat (length changed)) total_lines
                 <> []
                 <-> (is_int max_files = true /\ int_value max_files < Z.of_nat (length changed))
                     \/ (is_int max_lines = true /\ int_value max_lines < total_lines)).
  { unfold budget_violations.
    destruct (is_int max_files) eqn:Ef; destruct (is_int max_lines) eqn:El; cbn [andb];
      repeat match goal with
             | |- context [?a <? ?b] =>
                 let E := fresh "E" in
                 destruct (a <? b) eqn:E;
                 [apply Z.ltb_lt in E | apply Z.ltb_ge in E]
             end; cbn [app]; split;
      try (intros _; (left; split; [reflexivity | lia]) || (right; split; [reflexivity | lia]));
      try discriminate; try congruence;
      try (intros [[? ?] | [? ?]]; (discriminate || lia)). }
  set (third := match budget_violations _ _ _ _ with [] => _ | _ => _ end).
  assert (Hex : (exists v, In v (first ++ second ++ third)%list
                           /\ member "code" v = JStr "DIFF_BUDGET_EXCEEDED")
                <-> budget_violations max_files max_lines (Z.of_nat (length changed)) total_lines
                    <> []).
  { rewrite Forall_forall in H1, H2. split.
    - intros (v & Hv & Hcode).
      apply in_app_or in Hv as [Hv | Hv];
        [exfalso; now apply (H1 v (proj2 (list_elem_of_In _ _) Hv))|].
      apply in_app_or in Hv as [Hv | Hv];
        [exfalso; now apply (H2 v (proj2 (list_elem_of_In _ _) Hv))|].
      unfold third in Hv. destruct (budget_violations _ _ _ _); [destruct Hv | discriminate].
    - intros Hb. unfold third.
      destruct (budget_violations _ _ _ _) as [|b bv]; [contradiction|].
      eexists. split; [|apply violation_code].
      apply in_or_app. right. apply in_or_app. right. now left. }
  split; [now rewrite Hex, Hiff|].
  intros Hb Hlt. apply Hex, Hiff. right. rewrite Hb. split; [reflexivity | exact Hlt].
Qed.

End ConstraintFacts.

Section ConstraintRuns.
Import Harness HarnessFacts Demo.

Lemma failed_tests_do_not_deny_witness :
  let w := world_tests_failed in
  exists rep fs',
    main_body (RT := posix) w harness_args_meta (w_clock w 0) "/repo" contract_tested (w_files w)
    = (Ok rep, fs')
    /\ member "result" (member "tests" (rep_evidence rep)) = JStr "FAIL".
Proof.
  cbv zeta.
  destruct (main_body_total (RT := posix) world_tests_failed harness_args_meta
              (w_clock world_tests_failed 0) "/repo" contract_tested config_tested
              [("test_rc", JInt 1)] (w_files world_tests_failed))
    as (rep & fs' & E).
  - intros fs cmd cwd. cbn. unfold answers. destruct (List.find _ _); eauto.
  - vm_compute; reflexivity.
  - vm_compute; reflexivity.
  - split; reflexivity.
  - reflexivity.
  - intros n _. reflexivity.
  - exists rep, fs'. split; [exact E|].
    destruct (failed_tests_do_not_deny (RT := posix) world_tests_failed harness_args_meta
                _ _ _ _ _ _ E) as (cfg & meta & Hc & Hm & _ & _ & Hfail & _).
    assert (Hc' : read_config (RT := posix) contract_tested = Ok config_tested)
      by (vm_compute; reflexivity).
    assert (Hm' : as_dict (load_meta (RT := posix) world_tests_failed harness_args_meta "/repo")
                  = Ok [("test_rc", JInt 1)]) by (vm_compute; reflexivity).
    rewrite Hc' in Hc. injection Hc as <-. rewrite Hm' in Hm. injection Hm as <-.
    apply (Hfail 1); [discriminate | reflexivity | lia].
Defined.

(** The tests fail, the change is within the allowed paths: the bundle says
    FAIL and ALLOW, and [main] returns 0. *)
Example failed_tests_are_allowed :
  let w := world_tests_failed in
  match main_report (RT := posix) w harness_args_meta (w_files w) with
  | (Ok (rc, Some rep), _) =>
      rc = 0
      /\ member "result" (member "tests" (rep_evidence rep)) = JStr "FAIL"
      /\ member "exit_code" (member "tests" (rep_evidence rep)) = JInt 1
      /\ member "decision" (rep_evidence rep) = JStr "ALLOW"
  | _ => False
  end.
Proof. vm_compute. repeat split; reflexivity. Qed.

Lemma forbidden_outputs_are_reported_witness :
  let cfg := mkConfig "p1" "main" "feat/p1" [] [JStr "build/"] [] [] ".codex/out" false in
  forbidden_outputs cfg <> []
  /\ clean_contract cfg
  /\ exists vs,
       find_violations (RT := posix) cfg ["src/a.py"] ["./build/out.bin"; "src/a.py"] 2 = Ok vs
       /\ In (violation "FORBIDDEN_OUTPUT_PRESENT" [("paths", JArr [JStr "build/out.bin"])]) vs.
Proof.
  cbv zeta.
  assert (H1 : forbidden_outputs
                 (mkConfig "p1" "main" "feat/p1" [] [JStr "build/"] [] [] ".codex/out" false)
               <> []) by discriminate.
  assert (H2 : clean_contract
                 (mkConfig "p1" "main" "feat/p1" [] [JStr "build/"] [] [] ".codex/out" false))
    by (split; reflexivity).
  split; [exact H1|]. split; [exact H2|].
  destruct (forbidden_outputs_are_reported (RT := posix) _ ["src/a.py"]
              ["./build/out.bin"; "src/a.py"] 2 H1 H2) as (_ & _ & vs & Hvs & Hhit & _).
  exists vs. split; [exact Hvs|]. apply Hhit. vm_compute. discriminate.
Defined.

Lemma budget_violation_iff_witness :
  clean_contract config_budget
  /\ exists vs,
       find_violations (RT := posix) config_budget ["src/a.py"] ["src/a.py"] 10 = Ok vs
       /\ ~ exists v, In v vs /\ member "code" v = JStr "DIFF_BUDGET_EXCEEDED".
Proof.
  assert (H1 : clean_contract config_budget) by (split; reflexivity).
  split; [exact H1|].
  destruct (budget_violation_iff (RT := posix) config_budget ["src/a.py"] ["src/a.py"] 10 H1)
    as (vs & Hvs & Hiff & _).
  exists vs. split; [exact Hvs|]. intros Hex. apply Hiff in Hex.
  destruct Hex as [[Hi _] | [_ Hlt]]; [discriminate Hi|]. vm_compute in Hlt. discriminate Hlt.
Defined.

End ConstraintRuns.

(** ** Snapshots written and read back *)

Section RoundTrips.
Import Harness HarnessFacts.

Lemma lstrip_by_fixed (f : ascii -> bool) (c : ascii) (s : string) :
  f c = false -> Str.lstrip_by f (String c s) = String c s.
Proof. intros E. cbn [Str.lstrip_by]. now rewrite E. Qed.

(** [(h + "\n").strip() == h] for a stripped [h]. *)
Lemma strip_with_newline (s : string) :
  Str.strip (with_newline (Str.strip s)) = Str.strip s.
Proof.
  unfold with_newline. pose proof (strip_head s) as Hh. pose proof (strip_idem s) as Hi.
  destruct (Str.strip s) as [|c r] eqn:E; [reflexivity|].
  change (String.eqb (String c r) EmptyString) with false. cbv iota.
  unfold Str.strip in *. change (String c r +:+ LF) with (String c (r +:+ LF)).
  rewrite lstrip_by_fixed in * by exact Hh.
  change (String c (r +:+ LF)) with (String c r +:+ LF).
  rewrite rstrip_by_app_all by reflexivity. exact Hi.
Qed.

Lemma splitlines_from_plain (cur x t : string) :
  forallb (fun c => negb (Str.is_cr c || Str.is_linebreak c)) (list_ascii_of_string x) = true ->
  Str.splitlines_from cur (x +:+ t) = Str.splitlines_from (cur +:+ x) t.
Proof.
  revert cur. induction x as [|c x IH]; intros cur Hx.
  - now rewrite append_empty_r.
  - cbn [list_ascii_of_string forallb] in Hx. apply andb_true_iff in Hx as [Hc Hx].
    apply negb_true_iff, orb_false_iff in Hc as [Hcr Hlb].
    change (String c x +:+ t) with (String c (x +:+ t)).
    cbn [Str.splitlines_from]. rewrite Hcr, Hlb, (IH _ Hx). f_equal.
    unfold Str.snoc. rewrite append_assoc. reflexivity.
Qed.

Lemma splitlines_from_lf (cur t : string) :
  Str.splitlines_from cur (LF +:+ t) = cur :: Str.splitlines_from EmptyString t.
Proof. reflexivity. Qed.

(** [("\n".join(l) + "\n").splitlines() == l] for lines without a line
    boundary. *)
Lemma splitlines_lines_text (l : list string) :
  Forall (fun x => forallb (fun c => negb (Str.is_cr c || Str.is_linebreak c))
                           (list_ascii_of_string x) = true) l ->
  Str.splitlines (lines_text l) = l.
Proof.
  unfold Str.splitlines, lines_text. induction 1 as [|x l Hx Hl IH]; [reflexivity|].
  destruct l as [|y l].
  - cbn [Str.join]. rewrite (splitlines_from_plain EmptyString x LF Hx). reflexivity.
  - change (Str.join LF (x :: y :: l)) with (x +:+ LF +:+ Str.join LF (y :: l)).
    rewrite !append_assoc. rewrite (splitlines_from_plain EmptyString x _ Hx).
    change (EmptyString +:+ x) with x. rewrite splitlines_from_lf. f_equal. exact IH.
Qed.

Lemma snoc_plain (cur : string) (c : ascii) :
  forallb (fun c => negb (Str.is_cr c || Str.is_linebreak c)) (list_ascii_of_string cur) = true ->
  Str.is_cr c = false -> Str.is_linebreak c = false ->
  forallb (fun c => negb (Str.is_cr c || Str.is_linebreak c))
          (list_ascii_of_string (Str.snoc cur c)) = true.
Proof.
  intros Hcur Hcr Hlb. unfold Str.snoc. induction cur as [|d cur IH].
  - change (EmptyString +:+ String c EmptyString) with (String c EmptyString).
    cbn [list_ascii_of_string forallb]. now rewrite Hcr, Hlb.
  - change (String d cur +:+ String c EmptyString) with (String d (cur +:+ String c EmptyString)).
    cbn [list_ascii_of_string forallb] in *. apply andb_true_iff in Hcur as [Hd Hcur].
    now rewrite Hd, IH.
Qed.

(** No line of [splitlines] holds a line boundary. *)
Lemma splitlines_from_lines (s : string) :
  (forall cur,
     forallb (fun c => negb (Str.is_cr c || Str.is_linebreak c)) (list_ascii_of_string cur)
     = true ->
     Forall (fun x => forallb (fun c => negb (Str.is_cr c || Str.is_linebreak c))
                              (list_ascii_of_string x) = true)
            (Str.splitlines_from cur s))
  /\ (forall c cur,
        forallb (fun c => negb (Str.is_cr c || Str.is_linebreak c)) (list_ascii_of_string cur)
        = true ->
        Forall (fun x => forallb (fun c => negb (Str.is_cr c || Str.is_linebreak c))
                                 (list_ascii_of_string x) = true)
               (Str.splitlines_from cur (String c s))).
Proof.
  induction s as [|d s [IH1 IH2]].
  - split.
    + intros cur Hcur. cbn [Str.splitlines_from]. destruct cur; repeat constructor. exact Hcur.
    + intros c cur Hcur. cbn [Str.splitlines_from].
      destruct (Str.is_cr c) eqn:Hcr; [repeat constructor; exact Hcur|].
      destruct (Str.is_linebreak c) eqn:Hlb; [repeat constructor; exact Hcur|].
      pose proof (snoc_plain cur c Hcur Hcr Hlb) as Hsn.
      destruct (Str.snoc cur c); repeat constructor. exact Hsn.
  - split; [intros cur Hcur; now apply IH2|].
    intros c cur Hcur. cbn [Str.splitlines_from].
    destruct (Str.is_cr c) eqn:Hcr.
    + destruct (Str.is_lf d); (constructor; [exact Hcur|]).
      * now apply IH1.
      * now apply IH2.
    + destruct (Str.is_linebreak c) eqn:Hlb.
      * constructor; [exact Hcur|]. now apply IH2.
      * apply IH2. now apply snoc_plain.
Qed.

Lemma filter_idem {A} (f : A -> bool) (l : list A) :
  List.filter f (List.filter f l) = List.filter f l.
Proof.
  induction l as [|x l IH]; [reflexivity|]. cbn [List.filter].
  destruct (f x) eqn:E; [|exact IH]. cbn [List.filter]. now rewrite E, IH.
Qed.

(** The status lines written by one run are the lines the next one reads. *)
Lemma status_lines_round_trip (t : string) :
  status_lines (lines_text (status_lines t)) = status_lines t.
Proof.
  unfold status_lines at 1. rewrite splitlines_lines_text.
  - unfold status_lines. apply filter_idem.
  - unfold status_lines, Str.splitlines.
    pose proof (proj1 (splitlines_from_lines t) EmptyString eq_refl) as Hl.
    rewrite Forall_forall in *. intros x Hx. apply Hl.
    apply list_elem_of_In in Hx. apply list_elem_of_In.
    now apply filter_In in Hx as [Hx _].
Qed.

End RoundTrips.

Section SnapshotFacts.
Import Harness HarnessFacts.
Context `{RT : Runtime} (w : World) (args : Args).

(** A head snapshot that is taken leaves its raw file, and the file reads
    back as the head. *)
Lemma snapshot_head_leaves wt p fs h f1 :
  snapshot_head w wt p fs = (Ok h, f1) ->
  exists c, f1 !! p = Some c /\ Str.strip c = h.
Proof.
  unfold snapshot_head, hbind, hexists. destruct (path_exists w fs p).
  - unfold read_text, hret. destruct (fs !! p) as [t|] eqn:Et; [|discriminate].
    intros [= <- <-]. now exists t.
  - destruct (git_capture w wt _ fs) as [[out|e] f0] eqn:Eg; [|discriminate].
    unfold write_text, hret. intros [= <- <-].
    exists (with_newline (Str.strip out)). split; [apply lookup_insert_eq|].
    apply strip_with_newline.
Qed.

Lemma snapshot_status_leaves wt p fs l f1 :
  snapshot_status w wt p fs = (Ok l, f1) ->
  exists c, f1 !! p = Some c /\ status_lines c = l.
Proof.
  unfold snapshot_status, hbind, hexists. destruct (path_exists w fs p).
  - unfold read_text, hret. destruct (fs !! p) as [t|] eqn:Et; [|discriminate].
    intros [= <- <-]. now exists t.
  - destruct (git_capture w wt _ fs) as [[out|e] f0] eqn:Eg; [|discriminate].
    unfold write_text, hret. intros [= <- <-].
    exists (lines_text (status_lines out)). split; [apply lookup_insert_eq|].
    apply status_lines_round_trip.
Qed.

Ltac keeps_next :=
  first
    [ apply keeps_snapshot_head
    | apply keeps_snapshot_status
    | apply keeps_git
    | apply keeps_read
    | apply keeps_write
    | apply keeps_bind; [|intros ?] ].

(** The observations of a run are what its four raw files read back as. *)
Lemma observe_leaves cfg raw_dir wt fs ob fs' :
  observe w cfg raw_dir wt fs = (Ok ob, fs') ->
  (exists c, fs' !! child raw_dir "head_before.txt" = Some c
             /\ Str.strip c = ob_head_before ob)
  /\ (exists c, fs' !! child raw_dir "status_before.txt" = Some c
                /\ status_lines c = ob_status_before ob)
  /\ (exists c, fs' !! child raw_dir "head_after.txt" = Some c
                /\ Str.strip c = ob_head_after ob)
  /\ (exists c, fs' !! child raw_dir "status_after.txt" = Some c
                /\ status_lines c = ob_status_after ob).
Proof.
  intros E.
  assert (Hnot : forall n m, In n snapshot_names ->
                   existsb (String.eqb m) snapshot_names = false ->
                   child raw_dir m <> child raw_dir n).
  { intros n m Hn Hm Hc. apply child_inj in Hc. subst m.
    assert (existsb (String.eqb n) snapshot_names = true) as Ht; [|congruence].
    apply existsb_exists. exists n. split; [exact Hn | apply String.eqb_refl]. }
  pose proof (observe_inv w _ _ _ _ _ _ E)
    as (g1 & g2 & g3 & g4 & g5 & o1 & o4 & I1 & I2 & I3 & I4 & _).
  unfold observe in E.
  apply hbind_ok in E as (hb & f1 & E1 & E).
  rewrite I1 in E1. injection E1 as <- <-.
  destruct (snapshot_head_leaves _ _ _ _ _ I1) as (c1 & L1 & P1).
  assert (K1 : fs' !! child raw_dir "head_before.txt" = Some c1).
  { refine (kept _ _ _ _ _ _ _ L1 E). cbv beta.
    repeat keeps_next; try (apply Hnot; [cbn; tauto | reflexivity]).
    - destruct (include_patch cfg).
      + repeat keeps_next. apply Hnot; [cbn; tauto | reflexivity].
      + apply (keeps_pure _ (fun _ => Ok tt)).
    - apply (keeps_pure _ (fun _ => Ok _)). }
  apply hbind_ok in E as (sb & f2 & E2 & E).
  rewrite I2 in E2. injection E2 as <- <-.
  destruct (snapshot_status_leaves _ _ _ _ _ I2) as (c2 & L2 & P2).
  assert (K2 : fs' !! child raw_dir "status_before.txt" = Some c2).
  { refine (kept _ _ _ _ _ _ _ L2 E). cbv beta.
    repeat keeps_next; try (apply Hnot; [cbn; tauto | reflexivity]).
    - destruct (include_patch cfg).
      + repeat keeps_next. apply Hnot; [cbn; tauto | reflexivity].
      + apply (keeps_pure _ (fun _ => Ok tt)).
    - apply (keeps_pure _ (fun _ => Ok _)). }
  apply hbind_ok in E as (ha & f3 & E3 & E).
  rewrite I3 in E3. injection E3 as <- <-.
  destruct (snapshot_head_leaves _ _ _ _ _ I3) as (c3 & L3 & P3).
  assert (K3 : fs' !! child raw_dir "head_after.txt" = Some c3).
  { refine (kept _ _ _ _ _ _ _ L3 E). cbv beta.
    repeat keeps_next; try (apply Hnot; [cbn; tauto | reflexivity]).
    - destruct (include_patch cfg).
      + repeat keeps_next. apply Hnot; [cbn; tauto | reflexivity].
      + apply (keeps_pure _ (fun _ => Ok tt)).
    - apply (keeps_pure _ (fun _ => Ok _)). }
  apply hbind_ok in E as (sa & f4 & E4 & E).
  rewrite I4 in E4. injection E4 as <- <-.
  destruct (snapshot_status_leaves _ _ _ _ _ I4) as (c4 & L4 & P4).
  assert (K4 : fs' !! child raw_dir "status_after.txt" = Some c4).
  { refine (kept _ _ _ _ _ _ _ L4 E). cbv beta.
    repeat keeps_next; try (apply Hnot; [cbn; tauto | reflexivity]).
    - destruct (include_patch cfg).
      + repeat keeps_next. apply Hnot; [cbn; tauto | reflexivity].
      + apply (keeps_pure _ (fun _ => Ok tt)).
    - apply (keeps_pure _ (fun _ => Ok _)). }
  repeat split; eauto.
Qed.

End SnapshotFacts.

Section SnapshotRuns.
Import Harness HarnessFacts.
Context `{RT : Runtime}.

(** A run whose four raw files are there observes what they hold. *)
Lemma observe_reads (w : World) cfg raw_dir wt fs ob fs' c1 c2 c3 c4 :
  observe w cfg raw_dir wt fs = (Ok ob, fs') ->
  fs !! child raw_dir "head_before.txt" = Some c1 ->
  fs !! child raw_dir "status_before.txt" = Some c2 ->
  fs !! child raw_dir "head_after.txt" = Some c3 ->
  fs !! child raw_dir "status_after.txt" = Some c4 ->
  ob_head_before ob = Str.strip c1
  /\ ob_status_before ob = status_lines c2
  /\ ob_head_after ob = Str.strip c3
  /\ ob_status_after ob = status_lines c4.
Proof.
  intros E H1 H2 H3 H4.
  apply observe_inv in E as (f1 & f2 & f3 & f4 & f5 & o1 & o4 & E1 & E2 & E3 & E4 & _).
  rewrite (snapshot_head_reads w wt _ fs c1 H1) in E1. injection E1 as Hv1 <-.
  rewrite (snapshot_status_reads w wt _ fs c2 H2) in E2. injection E2 as Hv2 <-.
  rewrite (snapshot_head_reads w wt _ fs c3 H3) in E3. injection E3 as Hv3 <-.
  rewrite (snapshot_status_reads w wt _ fs c4 H4) in E4. injection E4 as Hv4 <-.
  now repeat split.
Qed.

(** The raw files of a finished run read back as its observations. *)
Lemma run_leaves_snapshots (w : World) (args : Args) (generated_at root : string)
    (contract : json) (fs fs' : gmap string string) (rep : Report) :
  main_body w args generated_at root contract fs = (Ok rep, fs') ->
  let raw := child (rep_out_dir rep) "raw" in
  let ob := rep_observed rep in
  (exists c, fs' !! child raw "head_before.txt" = Some c /\ Str.strip c = ob_head_before ob)
  /\ (exists c, fs' !! child raw "status_before.txt" = Some c
                /\ status_lines c = ob_status_before ob)
  /\ (exists c, fs' !! child raw "head_after.txt" = Some c /\ Str.strip c = ob_head_after ob)
  /\ (exists c, fs' !! child raw "status_after.txt" = Some c
                /\ status_lines c = ob_status_after ob).
Proof.
  intros E. apply main_body_inv in E
    as (cfg & meta & wt & te & fs_o & _ & _ & _ & Hob & _ & Ho & _ & _ & _ & art & _ & Hp).
  cbv zeta. rewrite Ho.
  destruct (observe_leaves w _ _ _ _ _ _ Hob)
    as ((c1 & L1 & P1) & (c2 & L2 & P2) & (c3 & L3 & P3) & (c4 & L4 & P4)).
  assert (K : forall n c, In n snapshot_names ->
                fs_o !! child (child (bundle_dir w root cfg) "raw") n = Some c ->
                fs' !! child (child (bundle_dir w root cfg) "raw") n = Some c).
  { intros n c Hn Hl. exact (kept _ _ _ _ _ _ (keeps_publish _ _ _ _ n Hn) Hl Hp). }
  split; [|split; [|split]].
  - exists c1. split; [apply K; [cbn; tauto | exact L1] | exact P1].
  - exists c2. split; [apply K; [cbn; tauto | exact L2] | exact P2].
  - exists c3. split; [apply K; [cbn; tauto | exact L3] | exact P3].
  - exists c4. split; [apply K; [cbn; tauto | exact L4] | exact P4].
Qed.

(** X13: what a run observes of the repository is frozen by its raw files,
    the state after the run as the state before it.  A later run on the
    same bundle directory, whatever git answers by then and whatever its
    contract and run-metadata record say otherwise, reports the four
    snapshots of the first run: the raw files are written in a form that
    reads back as what was observed, and they stay as they are. *)
Theorem snapshots_are_stable_across_runs (w1 w2 : World) (args1 args2 : Args)
    (at1 at2 root1 root2 : string) (contract1 contract2 : json)
    (fs0 fs1 fs2 : gmap string string) (rep1 rep2 : Report) :
  main_body w1 args1 at1 root1 contract1 fs0 = (Ok rep1, fs1) ->
  main_body w2 args2 at2 root2 contract2 fs1 = (Ok rep2, fs2) ->
  rep_out_dir rep2 = rep_out_dir rep1 ->
  let raw := child (rep_out_dir rep1) "raw" in
  ob_head_before (rep_observed rep2) = ob_head_before (rep_observed rep1)
  /\ ob_status_before (rep_observed rep2) = ob_status_before (rep_observed rep1)
  /\ ob_head_after (rep_observed rep2) = ob_head_after (rep_observed rep1)
  /\ ob_status_after (rep_observed rep2) = ob_status_after (rep_observed rep1)
  /\ (forall n, In n snapshot_names ->
                exists c, fs1 !! child raw n = Some c /\ fs2 !! child raw n = Some c)
  /\ member "heads" (member "repo" (rep_evidence rep2))
     = member "heads" (member "repo" (rep_evidence rep1))
  /\ member "status" (rep_evidence rep2) = member "status" (rep_evidence rep1).
Proof.
  intros E1 E2 Hout raw.
  destruct (run_leaves_snapshots _ _ _ _ _ _ _ _ E1)
    as ((c1 & L1 & P1) & (c2 & L2 & P2) & (c3 & L3 & P3) & (c4 & L4 & P4)).
  fold raw in L1, L2, L3, L4.
  pose proof E1 as I1. apply main_body_inv in I1
    as (cfg1 & meta1 & wt1 & te1 & fo1 & _ & _ & _ & _ & _ & _ & _ & _ & _ & art1 & He1 & _).
  pose proof E2 as I2. apply main_body_inv in I2
    as (cfg2 & meta2 & wt2 & te2 & fo2 & Hc2 & _ & _ & Hob2 & _ & Ho2 & _ & _ & _ & art2 & He2
        & Hp2).
  assert (Hraw : child (bundle_dir w2 root2 cfg2) "raw" = raw)
    by (unfold raw; now rewrite <- Hout, Ho2).
  rewrite Hraw in Hob2.
  destruct (observe_reads w2 _ _ _ _ _ _ _ _ _ _ Hob2 L1 L2 L3 L4) as (R1 & R2 & R3 & R4).
  assert (Hb : ob_head_before (rep_observed rep2) = ob_head_before (rep_observed rep1))
    by congruence.
  assert (Hsb : ob_status_before (rep_observed rep2) = ob_status_before (rep_observed rep1))
    by congruence.
  assert (Ha : ob_head_after (rep_observed rep2) = ob_head_after (rep_observed rep1))
    by congruence.
  assert (Hsa : ob_status_after (rep_observed rep2) = ob_status_after (rep_observed rep1))
    by congruence.
  do 4 (split; [assumption|]). split; [|split].
  - intros n Hn.
    assert (Hex : exists c, fs1 !! child raw n = Some c).
    { cbn in Hn. destruct Hn as [<- | [<- | [<- | [<- | []]]]]; eauto. }
    destruct Hex as (c & Hc). exists c. split; [exact Hc|].
    pose proof (keeps_main_body w2 args2 at2 root2 contract2 cfg2 n Hc2 Hn fs1 c) as K.
    rewrite Hraw, E2 in K. now apply K.
  - rewrite He1, He2. cbn. now rewrite Hb, Ha.
  - rewrite He1, He2. cbn. now rewrite Hsb, Hsa.
Qed.

End SnapshotRuns.

Section SnapshotWitness.
Import Harness HarnessFacts Demo.

Lemma run_out_dir `{RT : Runtime} (w : World) (args : Args) (generated_at root : string)
    (contract : json) (cfg : Config) (fs fs' : gmap string string) (rep : Report) :
  main_body w args generated_at root contract fs = (Ok rep, fs') ->
  read_config contract = Ok cfg ->
  rep_out_dir rep = bundle_dir w root cfg.
Proof.
  intros E Hc. apply main_body_inv in E
    as (cfg' & meta & wt & te & fs_o & Hc' & _ & _ & _ & _ & Ho & _).
  rewrite Hc in Hc'. injection Hc' as <-. exact Ho.
Qed.


(** The repository moves on between two runs on the bundle of [p1]: the
    second run reports the snapshots of the first. *)
Lemma snapshots_are_stable_across_runs_witness :
  let w1 := world_docs_change in
  let w2 := world_second_run in
  exists rep1 fs1 rep2 fs2,
    main_body (RT := posix) w1 harness_args (w_clock w1 0) "/repo" contract_src_only ∅
    = (Ok rep1, fs1)
    /\ main_body (RT := posix) w2 harness_args (w_clock w2 0) "/repo" contract_budget fs1
       = (Ok rep2, fs2)
    /\ rep_out_dir rep2 = rep_out_dir rep1
    /\ ob_head_after (rep_observed rep2) = ob_head_after (rep_observed rep1).
Proof.
  cbv zeta. destruct docs_change_runs as (rep1 & fs1 & E1).
  change (w_files world_docs_change) with (∅ : gmap string string) in E1.
  destruct (main_body_total (RT := posix) world_second_run harness_args
              (w_clock world_second_run 0) "/repo" contract_budget config_budget [] fs1)
    as (rep2 & fs2 & E2).
  - intros fs cmd cwd. cbn. unfold answers. destruct (List.find _ _); eauto.
  - vm_compute; reflexivity.
  - vm_compute; reflexivity.
  - split; reflexivity.
  - reflexivity.
  - intros n _. reflexivity.
  - exists rep1, fs1, rep2, fs2. split; [exact E1|]. split; [exact E2|].
    assert (Hout : rep_out_dir rep2 = rep_out_dir rep1).
    { rewrite (run_out_dir _ _ _ _ _ config_budget _ _ _ E2) by (vm_compute; reflexivity).
      rewrite (run_out_dir _ _ _ _ _ config_src_only _ _ _ E1) by (vm_compute; reflexivity).
      reflexivity. }
    split; [exact Hout|].
    exact (proj1 (proj2 (proj2 (snapshots_are_stable_across_runs _ _ _ _ _ _ _ _ _ _ _ _ _ _ _
                                  E1 E2 Hout)))).
Defined.

End SnapshotWitness.

(** ** A git command that fails *)

Section FailedDiff.
Import Harness HarnessFacts.
Context `{RT : Runtime} (w : World) (args : Args).

Lemma rstrip_by_app_keep (f : ascii -> bool) (a s : string) :
  Str.rstrip_by f s <> EmptyString ->
  Str.rstrip_by f (a +:+ s) = a +:+ Str.rstrip_by f s.
Proof.
  intros Hs. induction a as [|c a IH]; [reflexivity|].
  change (String c a +:+ s) with (String c (a +:+ s)).
  rewrite rstrip_by_cons, IH.
  destruct a as [|d a].
  - change (EmptyString +:+ Str.rstrip_by f s) with (Str.rstrip_by f s).
    destruct (Str.rstrip_by f s); [contradiction | reflexivity].
  - reflexivity.
Qed.

Lemma forallb_app_string (g : ascii -> bool) (a b : string) :
  forallb g (list_ascii_of_string (a +:+ b))
  = forallb g (list_ascii_of_string a) && forallb g (list_ascii_of_string b).
Proof.
  induction a as [|c a IH]; [reflexivity|].
  change (String c a +:+ b) with (String c (a +:+ b)).
  cbn [list_ascii_of_string forallb]. now rewrite IH, andb_assoc.
Qed.

(** The marker of a failed command, as the one line it is. *)
Lemma stripped_lines_marker (err : string) :
  Str.strip err <> EmptyString ->
  forallb (fun c => negb (Str.is_cr c || Str.is_linebreak c))
          (list_ascii_of_string (Str.strip err)) = true ->
  stripped_lines ("!! " +:+ Str.strip err) = ["!! " +:+ Str.strip err].
Proof.
  intros Hne Hplain.
  assert (Hstrip : Str.strip ("!! " +:+ Str.strip err) = "!! " +:+ Str.strip err).
  { unfold Str.strip at 1.
    change ("!! " +:+ Str.strip err) with (String "!" (String "!" (String " " (Str.strip err)))).
    rewrite lstrip_by_fixed by reflexivity.
    change (String "!" (String "!" (String " " (Str.strip err)))) with ("!! " +:+ Str.strip err).
    assert (Hr : Str.rstrip_by Str.is_space (Str.strip err) = Str.strip err)
      by (unfold Str.strip; apply rstrip_by_idem).
    rewrite rstrip_by_app_keep by (now rewrite Hr). now rewrite Hr. }
  unfold stripped_lines, status_lines, Str.splitlines.
  pose proof (splitlines_from_plain EmptyString ("!! " +:+ Str.strip err) EmptyString) as Hsp.
  rewrite append_empty_r in Hsp. rewrite Hsp.
  - change (EmptyString +:+ ("!! " +:+ Str.strip err))
      with (String "!" (String "!" (String " " (Str.strip err)))).
    cbn [Str.splitlines_from List.filter].
    change (String "!" (String "!" (String " " (Str.strip err)))) with ("!! " +:+ Str.strip err).
    unfold Str.nonblank. rewrite Hstrip.
    change (String.eqb ("!! " +:+ Str.strip err) EmptyString) with false.
    cbn [negb map]. now rewrite Hstrip.
  - rewrite forallb_app_string, Hplain. reflexivity.
Qed.

(** X14: the harness does not tell a failed git command from its output:
    when [git diff --name-only] fails, the text [!! ] followed by its
    standard error is taken for the list of names.  For an error of one
    line the run goes on with that line as its one diff name, counts it
    among the changed paths and records it in the evidence. *)
Theorem failed_diff_is_read_as_a_path (generated_at root : string) (contract : json)
    (fs fs' : gmap string string) (rep : Report) (rc : Z) (out err : string) :
  (forall f head wt,
     w_run w f ["git"; "diff"; "--name-only"; head] (Some wt) = Completed rc out err) ->
  rc <> 0 ->
  Str.strip err <> EmptyString ->
  forallb (fun c => negb (Str.is_cr c || Str.is_linebreak c))
          (list_ascii_of_string (Str.strip err)) = true ->
  main_body w args generated_at root contract fs = (Ok rep, fs') ->
  let marker := "!! " +:+ Str.strip err in
  ob_diff_name_only (rep_observed rep) = [marker]
  /\ In marker (ob_changed_paths (rep_observed rep))
  /\ member "name_only" (member "diff" (rep_evidence rep)) = JArr [JStr marker]
  /\ 1 <= Z.of_nat (length (ob_changed_paths (rep_observed rep))).
Proof.
  intros Hrun Hrc Hne Hplain E marker.
  apply main_body_inv in E
    as (cfg & meta & wt & te & fs_o & _ & _ & _ & Hob & _ & _ & _ & _ & _ & art & He & _).
  apply observe_inv in Hob
    as (f1 & f2 & f3 & f4 & f5 & o1 & o4 & _ & _ & _ & _ & Hg & Hn & Hc & _).
  unfold git_capture in Hg. rewrite Hrun in Hg. apply Z.eqb_neq in Hrc. rewrite Hrc in Hg.
  assert (Herr : String.eqb err EmptyString = false).
  { apply String.eqb_neq. intros ->. now apply Hne. }
  rewrite Herr in Hg. injection Hg as <-.
  rewrite (stripped_lines_marker err Hne Hplain) in Hn. fold marker in Hn.
  assert (Hin : In marker (ob_changed_paths (rep_observed rep))).
  { rewrite Hc, sorted_set_In, Hn. now left. }
  split; [exact Hn|]. split; [exact Hin|]. split.
  - rewrite He. cbn. now rewrite Hn.
  - destruct (ob_changed_paths (rep_observed rep)); [destruct Hin | cbn [length]; lia].
Qed.

End FailedDiff.

Section FailedDiffRuns.
Import Harness HarnessFacts Demo.

Lemma failed_diff_is_read_as_a_path_witness :
  let w := world_diff_fails in
  (forall f head wt,
     w_run w f ["git"; "diff"; "--name-only"; head] (Some wt) = Completed 1 EmptyString "fatal")
  /\ exists rep fs',
       main_body (RT := posix) w harness_args (w_clock w 0) "/repo" contract_src_only (w_files w)
       = (Ok rep, fs')
       /\ In "!! fatal" (ob_changed_paths (rep_observed rep)).
Proof.
  cbv zeta.
  assert (H1 : forall f head wt,
            w_run world_diff_fails f ["git"; "diff"; "--name-only"; head] (Some wt)
            = Completed 1 EmptyString "fatal") by (intros f head wt; reflexivity).
  split; [exact H1|].
  destruct (main_body_total (RT := posix) world_diff_fails harness_args
              (w_clock world_diff_fails 0) "/repo" contract_src_only config_src_only []
              (w_files world_diff_fails))
    as (rep & fs' & E).
  - intros fs cmd cwd. cbn. unfold answers. destruct (List.find _ _); eauto.
  - vm_compute; reflexivity.
  - vm_compute; reflexivity.
  - split; reflexivity.
  - reflexivity.
  - intros n _. reflexivity.
  - exists rep, fs'. split; [exact E|].
    assert (H2 : (1 : Z) <> 0) by lia.
    assert (H3 : Str.strip "fatal" <> EmptyString) by (vm_compute; discriminate).
    assert (H4 : forallb (fun c => negb (Str.is_cr c || Str.is_linebreak c))
                         (list_ascii_of_string (Str.strip "fatal")) = true)
      by (vm_compute; reflexivity).
    exact (proj1 (proj2 (failed_diff_is_read_as_a_path (RT := posix) world_diff_fails
                           harness_args _ _ _ _ _ _ 1 EmptyString "fatal" H1 H2 H3 H4 E))).
Defined.

(** On that machine the error text is the one changed path, it is outside
    [src/], and the bundle says DENY. *)
Example failed_diff_is_denied :
  let w := world_diff_fails in
  match main_report (RT := posix) w harness_args (w_files w) with
  | (Ok (_, Some rep), _) =>
      rep_violations rep
      = [violation "DIFF_OUTSIDE_ALLOWED_PATHS" [("bad_paths", JArr [JStr "!! fatal"])]]
      /\ member "decision" (rep_evidence rep) = JStr "DENY"
      /\ member "lines_added" (member "diff" (rep_evidence rep)) = JInt 0
  | _ => False
  end.
Proof. vm_compute. repeat split; reflexivity. Qed.

End FailedDiffRuns.

(** * The admission gate, further *)

Module GateSteps.
Import Gate GateFacts.

Section Steps.
Context `{RT : Runtime} (w : World) (args : Args).

(** The checks of a run that comes to its end, one by one. *)
Lemma checks_inv (ep : string) (l : Locals) :
  checks w args = Ok (ep, l) ->
  exists rr l0 l1 l5 l6 l7,
    git_root w = Ok rr
    /\ start rr (fst (safe_read_json w (path_str (arg_contract args))))
             (snd (safe_read_json w (path_str (arg_contract args)))) = Ok l0
    /\ load_registry w l0 = Ok l1
    /\ create w (check_reuse w (check_registered w (check_policy w l1))) = Ok l5
    /\ check_git_op w l5 = Ok l6
    /\ check_ancestry w l6 = Ok l7
    /\ probe_push w l7 = Ok l.
Proof.
  unfold checks. intros E. apply rbind_ok in E as (rr & Hr & E).
  destruct (safe_read_json w (path_str (arg_contract args))) as [contract cerr].
  apply rbind_ok in E as (ep' & _ & E).
  apply rbind_ok in E as (made & _ & E).
  apply rbind_ok in E as (l0 & H0 & E).
  apply rbind_ok in E as (l1 & H1 & E).
  apply rbind_ok in E as (l5 & H5 & E).
  apply rbind_ok in E as (l6 & H6 & E).
  apply rbind_ok in E as (l7 & H7 & E).
  apply rbind_ok in E as (l8 & H8 & E).
  injection E as _ <-. exists rr, l0, l1, l5, l6, l7. now repeat split.
Qed.

Lemma mkdir_inv (d : string) (u : unit) : mkdir w d = Ok u -> w_mkdir w d = None.
Proof. unfold mkdir. now destruct (w_mkdir w d). Qed.

(** The evidence path of a run that comes to its end, and its directory. *)
Lemma checks_evidence_path (ep : string) (l : Locals) :
  checks w args = Ok (ep, l) ->
  match arg_evidence_out args with
  | Some p => if nonempty p then Ok (path_str p)
              else default_evidence_path (fst (safe_read_json w (path_str (arg_contract args))))
  | None => default_evidence_path (fst (safe_read_json w (path_str (arg_contract args))))
  end = Ok ep
  /\ w_mkdir w (path_parent ep) = None.
Proof.
  unfold checks. intros E. apply rbind_ok in E as (rr & Hr & E).
  destruct (safe_read_json w (path_str (arg_contract args))) as [contract cerr].
  apply rbind_ok in E as (ep' & Hep & E).
  apply rbind_ok in E as (made & Hmade & E).
  apply rbind_ok in E as (l0 & H0 & E).
  apply rbind_ok in E as (l1 & H1 & E).
  apply rbind_ok in E as (l5 & H5 & E).
  apply rbind_ok in E as (l6 & H6 & E).
  apply rbind_ok in E as (l7 & H7 & E).
  apply rbind_ok in E as (l8 & H8 & E).
  injection E as <- _. split; [exact Hep | exact (mkdir_inv _ _ Hmade)].
Qed.

Lemma present_denied (l : Locals) : allow (l_decision l) = false -> present w l = None.
Proof. unfold present. intros ->. now destruct (l_wt_path l). Qed.

(** After a denial no check does anything. *)
Lemma denied_stays (l : Locals) :
  allow (l_decision l) = false ->
  load_registry w l = Ok l
  /\ check_reuse w (check_registered w (check_policy w l)) = l
  /\ create w l = Ok l
  /\ check_git_op w l = Ok l
  /\ check_ancestry w l = Ok l
  /\ probe_push w l = Ok l.
Proof.
  intros Ha. pose proof (present_denied l Ha) as Hp.
  assert (H1 : check_policy w l = l) by (unfold check_policy; now rewrite Hp).
  assert (H2 : check_registered w l = l) by (unfold check_registered; now rewrite Hp).
  assert (H3 : check_reuse w l = l) by (unfold check_reuse; now rewrite Hp).
  split; [unfold load_registry; rewrite Ha; now destruct (l_repo_root l)|].
  split; [now rewrite H1, H2, H3|].
  split; [unfold create; rewrite Ha; destruct (l_wt_path l), (l_repo_root l); reflexivity|].
  split; [unfold check_git_op; rewrite Ha; now destruct (l_wt_path l)|].
  split; [unfold check_ancestry; rewrite Ha; destruct (l_wt_path l), (l_repo_root l);
          reflexivity|].
  unfold probe_push. rewrite Ha. now destruct (l_wt_path l).
Qed.

(** What [start] decides, and why. *)
Lemma start_decision (rr : option string) (contract : option json) (cerr : option string)
    (l0 : Locals) :
  start rr contract cerr = Ok l0 ->
  l_worktree_created l0 = false /\ l_worktree_reused l0 = false
  /\ l_collision l0 = false /\ l_mismatch_detail l0 = EmptyString
  /\ l_wt_list l0 = ∅ /\ l_push_probe l0 = None /\ l_base_is_ancestor l0 = None
  /\ l_base_sha l0 = EmptyString /\ l_head_sha l0 = EmptyString
  /\ l_head_ref l0 = EmptyString /\ l_repo_root l0 = rr
  /\ (contract = None -> l_fields l0 = default_fields)
  /\ (forall c, contract = Some c -> read_fields c = Ok (l_fields l0))
  /\ l_decision l0
     = match contract with
       | None =>
           deny Decision_new "WORKTREE_MISMATCH"
                (match cerr with
                 | Some e => if nonempty e then e else "contract parse failed"
                 | None => "contract parse failed"
                 end)
       | Some _ =>
           let f := l_fields l0 in
           let d :=
             if nonempty (packet_id f) && nonempty (branch f) && nonempty (base_ref f)
             then Decision_new
             else deny Decision_new "WORKTREE_MISMATCH"
                       "contract missing packet_id/branch/base_ref" in
           match rr with
           | None => deny d "WORKTREE_MISMATCH" "not a git repository"
           | Some _ => d
           end
       end
  /\ l_wt_path l0
     = match rr with
       | Some r =>
           if nonempty (packet_id (l_fields l0))
           then Some (path_join (path_join r (worktree_root (l_fields l0)))
                                (packet_id (l_fields l0)))
           else None
       | None => None
       end.
Proof.
  unfold start. intros E. apply rbind_ok in E as ([d f] & Ef & E). injection E as <-.
  cbn [l_worktree_created l_worktree_reused l_collision l_mismatch_detail l_wt_list
       l_push_probe l_base_is_ancestor l_base_sha l_head_sha l_head_ref l_repo_root
       l_fields l_decision l_wt_path].
  do 11 (split; [reflexivity|]).
  destruct contract as [c|].
  - apply rbind_ok in Ef as (f' & Hf & Ef). injection Ef as <- <-.
    split; [discriminate|]. split; [now intros c' [= <-]|]. split; [|now destruct rr].
    cbv zeta. reflexivity.
  - injection Ef as <- <-. split; [reflexivity|]. split; [discriminate|].
    split; [now destruct rr | now destruct rr].
Qed.

(** A run that [start] denies ends with the locals of [start]. *)
Lemma denied_at_start (ep : string) (l : Locals) :
  checks w args = Ok (ep, l) ->
  exists rr l0,
    git_root w = Ok rr
    /\ start rr (fst (safe_read_json w (path_str (arg_contract args))))
             (snd (safe_read_json w (path_str (arg_contract args)))) = Ok l0
    /\ (allow (l_decision l0) = false -> l = l0).
Proof.
  intros E. apply checks_inv in E as (rr & l0 & l1 & l5 & l6 & l7 & Hr & H0 & H1 & H5 & H6
                                      & H7 & H8).
  exists rr, l0. split; [exact Hr|]. split; [exact H0|]. intros Ha.
  destruct (denied_stays l0 Ha) as (D1 & D4 & D5 & D6 & D7 & D8).
  rewrite D1 in H1. injection H1 as <-. rewrite D4, D5 in H5. injection H5 as <-.
  rewrite D6 in H6. injection H6 as <-. rewrite D7 in H7. injection H7 as <-.
  rewrite D8 in H8. now injection H8 as <-.
Qed.

(** X15: without a contract that can be read and names [packet_id],
    [branch] and [base_ref], or outside a git repository, the gate denies
    with WORKTREE_MISMATCH and does nothing else: the run ends with the
    locals [main] has before its first check, no registry read, no
    worktree made, no probe run, and returns 2.  The message is that of the
    first failure: the contract error, then the missing names, then the
    missing repository. *)
Theorem gate_denies_without_contract (o : Outcome) :
  main_report w args = Ok o ->
  let contract := fst (safe_read_json w (path_str (arg_contract args))) in
  let cerr := snd (safe_read_json w (path_str (arg_contract args))) in
  let l := out_locals o in
  contract = None \/ git_root w = Ok None \/ complete (l_fields l) = false ->
  (exists rr, git_root w = Ok rr /\ start rr contract cerr = Ok l)
  /\ out_code o = 2
  /\ member "decision" (out_evidence o) = JStr "DENY"
  /\ member "deny_code" (out_evidence o) = JStr "WORKTREE_MISMATCH"
  /\ member "worktree_created" (out_evidence o) = JBool false
  /\ member "worktree_reused" (out_evidence o) = JBool false
  /\ member "push_probe" (out_evidence o) = JObj []
  /\ l_wt_list l = ∅
  /\ (contract = None ->
      message (l_decision l)
      = Some (match cerr with
              | Some e => if nonempty e then e else "contract parse failed"
              | None => "contract parse failed"
              end))
  /\ (contract <> None -> complete (l_fields l) = false ->
      message (l_decision l) = Some "contract missing packet_id/branch/base_ref")
  /\ (contract <> None -> complete (l_fields l) = true ->
      message (l_decision l) = Some "not a git repository").
Proof.
  intros E. unfold main_report in E.
  apply rbind_ok in E as ([ep l'] & Hchk & E). injection E as <-.
  cbn [out_locals out_code out_evidence] in *.
  pose proof (checks_inv _ _ Hchk) as (rr' & l0' & l1 & l5 & l6 & l7 & Hr' & H0' & H1 & H5 & H6
                                       & H7 & H8).
  destruct (denied_at_start _ _ Hchk) as (rr & l0 & Hr & H0 & Hsame).
  destruct (safe_read_json w (path_str (arg_contract args))) as [contract cerr].
  cbn [fst snd] in *. cbv zeta. intros Hwhy.
  destruct (start_decision _ _ _ _ H0)
    as (Hc & Hu & Hcol & Hmd & Hwl & Hpp & Hba & Hbs & Hhs & Hhr & Hrr & Hdf & Hrf & Hd & Hwp).
  assert (Hfields : l_fields l' = l_fields l0).
  { rewrite Hr in Hr'. injection Hr' as <-.
    rewrite H0 in H0'. injection H0' as <-.
    pose proof (advances_trans _ _ _ (advances_trans _ _ _ (check_git_op_advances w _ _ H6)
                  (check_ancestry_advances w _ _ H7)) (probe_push_advances w _ _ H8))
      as (Hst & _).
    pose proof (create_static w _ _ H5) as Hst5.
    pose proof (pure_checks_static w l1) as Hst4.
    destruct (load_registry_facts w _ _ H1) as (_ & Hf1 & _).
    assert (Hs : static l' = static l1) by congruence.
    unfold static in Hs. injection Hs as _ Hf _ _ _. congruence. }
  assert (Ha : allow (l_decision l0) = false).
  { rewrite Hd. destruct Hwhy as [Hn | [Hg | Hi]].
    - now rewrite Hn.
    - rewrite Hr in Hg. injection Hg as ->.
      destruct contract; [|reflexivity]. cbv zeta. now destruct (_ && _).
    - rewrite Hfields in Hi. unfold complete in Hi. unfold nonempty.
      destruct contract; [|reflexivity]. cbv zeta. rewrite Hi. now destruct rr. }
  specialize (Hsame Ha). subst l'.
  split; [eauto|]. rewrite Ha.
  assert (Hcode : deny_code (l_decision l0) = Some "WORKTREE_MISMATCH").
  { rewrite Hd in Ha |- *. destruct contract; [|reflexivity]. cbv zeta in *.
    set (c := nonempty _ && nonempty _ && nonempty _) in *.
    destruct c, rr; try reflexivity. discriminate Ha. }
  split; [reflexivity|]. split; [cbn; unfold decision_word; now rewrite Ha|].
  split; [cbn; now rewrite Hcode|]. split; [cbn; now rewrite Hc|].
  split; [cbn; now rewrite Hu|]. split; [cbn; now rewrite Hpp|]. split; [exact Hwl|].
  split; [|split].
  - intros Hn. rewrite Hd, Hn. reflexivity.
  - intros Hn Hi. rewrite Hd. destruct contract; [|contradiction]. cbv zeta.
    unfold complete in Hi. unfold nonempty. rewrite Hi. now destruct rr.
  - intros Hn Hi. rewrite Hd. destruct contract; [|contradiction]. cbv zeta.
    rewrite Hd in Ha. cbv zeta in Ha.
    unfold complete in Hi. unfold nonempty in *. rewrite Hi in *.
    destruct rr; [discriminate Ha | reflexivity].
Qed.

(** *** The checks of a run that ends with ALLOW *)

Ltac open_all l :=
  destruct l as [rr f wr wp wl d cr ru md col hr hs bs ba pp];
  cbn [l_repo_root l_fields l_wt_root l_wt_path l_wt_list l_decision l_worktree_created
       l_worktree_reused l_mismatch_detail l_collision l_head_ref l_head_sha l_base_sha
       l_base_is_ancestor l_push_probe] in *.

Lemma deny_with_denied (code msg : string) (l : Locals) :
  allow (l_decision (deny_with code msg l)) = false.
Proof.
  unfold deny_with, set_decision, deny. cbn. now destruct (allow (l_decision l)) eqn:E.
Qed.

Lemma load_registry_frame l l1 :
  load_registry w l = Ok l1 ->
  (l_repo_root l1, l_fields l1, l_wt_root l1, l_wt_path l1)
  = (l_repo_root l, l_fields l, l_wt_root l, l_wt_path l)
  /\ findings l1 = findings l /\ heads l1 = heads l
  /\ l_push_probe l1 = l_push_probe l /\ l_decision l1 = l_decision l
  /\ (allow (l_decision l) = true ->
      forall repo, l_repo_root l = Some repo ->
                   parse_worktree_list w repo = Ok (l_wt_list l1)).
Proof.
  unfold load_registry. open_all l. destruct rr as [repo|]; [|intros [= <-]; now repeat split].
  destruct (allow d) eqn:Ea; [|intros [= <-]; repeat split; discriminate].
  intros E. apply rbind_ok in E as (wl' & Hwl & E). injection E as <-. cbn.
  repeat split. intros _ repo' [= <-]. exact Hwl.
Qed.

Lemma pure_checks_allowed l :
  let l' := check_reuse w (check_registered w (check_policy w l)) in
  allow (l_decision l') = true ->
  static l' = static l /\ heads l' = heads l /\ l_push_probe l' = l_push_probe l
  /\ l_decision l' = l_decision l
  /\ forall p,
       l_wt_path l = Some p ->
       (path_exists w p = false -> l' = l)
       /\ (path_exists w p = true ->
           deny_if_exists (l_fields l) = false
           /\ registered w (l_wt_list l) p = true
           /\ worktree_branch (registry_entry w (l_wt_list l) p) = Some (branch (l_fields l))
           /\ findings l' = (l_worktree_created l, true, l_mismatch_detail l, l_collision l)).
Proof.
  cbv zeta. open_all l. destruct d as [[|] dc dm].
  2:{ unfold check_policy, check_registered, check_reuse, present.
      destruct wp; cbn; intros Hf; discriminate Hf. }
  destruct wp as [p|]; [|cbn; intros _; do 4 (split; [reflexivity|]); discriminate].
  unfold check_policy, present.
  cbn -[path_exists registered registry_entry worktree_branch].
  destruct (path_exists w p) eqn:Ex.
  - destruct (deny_if_exists f) eqn:Ep.
    + unfold check_registered, check_reuse, present. cbn. intros Hf. discriminate Hf.
    + unfold check_registered, present.
      cbn -[path_exists registered registry_entry worktree_branch]. rewrite Ex.
      destruct (registered w wl p) eqn:Er.
      * unfold check_reuse, present.
        cbn -[path_exists registered registry_entry worktree_branch]. rewrite Ex.
        destruct (worktree_branch (registry_entry w wl p)) as [b|] eqn:Eb.
        -- destruct (nonempty b && String.eqb b (branch f)) eqn:Em.
           ++ cbn. intros _. apply andb_true_iff in Em as [_ Em].
              apply String.eqb_eq in Em. subst b.
              do 4 (split; [reflexivity|]). intros q [= <-]. split; [congruence|].
              intros _. now repeat split.
           ++ cbn. intros Hf. discriminate Hf.
        -- cbn. intros Hf. discriminate Hf.
      * unfold check_reuse, present. cbn. intros Hf. discriminate Hf.
  - unfold check_registered, present.
    cbn -[path_exists registered registry_entry worktree_branch]. rewrite Ex.
    unfold check_reuse, present.
    cbn -[path_exists registered registry_entry worktree_branch]. rewrite Ex. intros _.
    do 4 (split; [reflexivity|]). intros q [= <-]. split; [reflexivity | congruence].
Qed.

Lemma create_allowed l l' :
  create w l = Ok l' ->
  allow (l_decision l') = true ->
  static l' = static l /\ heads l' = heads l /\ l_push_probe l' = l_push_probe l
  /\ l_decision l' = l_decision l
  /\ forall p repo,
       l_wt_path l = Some p -> l_repo_root l = Some repo ->
       (path_exists w p = true -> l' = l)
       /\ (path_exists w p = false ->
           findings l'
           = (true, l_worktree_reused l, l_mismatch_detail l, l_collision l)
           /\ exists rc_branch out_branch err_branch out err,
                run w ["git"; "show-ref"; "--verify"; "refs/heads/" +:+ branch (l_fields l)]
                    (Some repo) = Ok (rc_branch, out_branch, err_branch)
                /\ run w (if rc_branch =? 0
                          then ["git"; "worktree"; "add"; p; branch (l_fields l)]
                          else ["git"; "worktree"; "add"; "-b"; branch (l_fields l); p;
                                base_ref (l_fields l)])
                       (Some repo) = Ok (0, out, err)).
Proof.
  unfold create. open_all l. destruct d as [[|] dc dm].
  2:{ destruct wp, rr; intros [= <-]; cbn; intros Hf; discriminate Hf. }
  destruct wp as [p|]; [|intros [= <-] _; do 4 (split; [reflexivity|]); discriminate].
  destruct rr as [repo|]; [|intros [= <-] _; do 4 (split; [reflexivity|]); discriminate].
  cbn [allow andb]. destruct (path_exists w p) eqn:Ex; cbn [negb].
  - intros [= <-] _. do 4 (split; [reflexivity|]). intros q r [= <-] [= <-].
    split; [reflexivity | congruence].
  - intros E. apply rbind_ok in E as (made & _ & E).
    apply rbind_ok in E as ([[rc1 o1] e1] & Hr1 & E).
    apply rbind_ok in E as ([[rc2 o2] e2] & Hr2 & E).
    destruct (rc2 =? 0) eqn:Erc; injection E as <-; [|cbn; intros Hf; discriminate Hf].
    intros _. do 4 (split; [reflexivity|]). intros q r [= <-] [= <-].
    split; [congruence|]. intros _. split; [reflexivity|].
    apply Z.eqb_eq in Erc. subst rc2. exists rc1, o1, e1, o2, e2. cbn [branch base_ref].
    split; [exact Hr1 | exact Hr2].
Qed.

Lemma check_git_op_allowed l l' :
  check_git_op w l = Ok l' -> allow (l_decision l') = true -> l' = l.
Proof.
  unfold check_git_op. open_all l. destruct d as [[|] dc dm].
  2:{ destruct wp; intros [= <-]; cbn; intros Hf; discriminate Hf. }
  destruct wp as [p|]; [|now intros [= <-]]. cbn [allow].
  intros E. apply rbind_ok in E as (g & _ & E).
  destruct g as [g|]; [|now injection E as <-].
  destruct (git_op_in_progress w g); injection E as <-; [|reflexivity].
  cbn. intros Hf. discriminate Hf.
Qed.

Lemma check_ancestry_allowed l l' :
  check_ancestry w l = Ok l' ->
  allow (l_decision l') = true ->
  static l' = static l /\ findings l' = findings l /\ l_push_probe l' = l_push_probe l
  /\ l_decision l' = l_decision l
  /\ (l_base_is_ancestor l <> Some false -> l_base_is_ancestor l' <> Some false)
  /\ (forall p repo,
        l_wt_path l = Some p -> l_repo_root l = Some repo ->
        nonempty (base_ref (l_fields l)) = true ->
        l_base_is_ancestor l' = Some true \/ l_base_sha l' = EmptyString).
Proof.
  unfold check_ancestry. open_all l. destruct d as [[|] dc dm].
  2:{ destruct wp, rr; intros [= <-]; cbn; intros Hf; discriminate Hf. }
  destruct wp as [p|];
    [|intros [= <-] _; do 4 (split; [reflexivity|]); split; [auto | discriminate]].
  destruct rr as [repo|];
    [|intros [= <-] _; do 4 (split; [reflexivity|]); split; [auto | discriminate]].
  cbn [allow andb]. destruct (nonempty (base_ref f)) eqn:Eb.
  2:{ intros [= <-] _. do 4 (split; [reflexivity|]). split; [auto|].
      intros q r _ _ Hf. discriminate Hf. }
  intros E. apply rbind_ok in E as (b & _ & E).
  apply rbind_ok in E as ([[rc1 o1] e1] & _ & E).
  apply rbind_ok in E as ([[rc2 o2] e2] & _ & E).
  destruct (nonempty (default EmptyString b)) eqn:En.
  - apply rbind_ok in E as ([[rc3 o3] e3] & _ & E).
    destruct ((rc3 =? 0) && String.eqb (Str.strip o3) (default EmptyString b));
      injection E as <-; [|cbn; intros Hf; discriminate Hf].
    intros _. do 4 (split; [reflexivity|]). cbn. split; [discriminate|]. intros; now left.
  - injection E as <-. intros _. do 4 (split; [reflexivity|]). cbn.
    split; [discriminate|]. intros q r _ _ _. right.
    unfold nonempty in En. apply negb_false_iff, String.eqb_eq in En. exact En.
Qed.

Lemma probe_push_allowed l l' :
  probe_push w l = Ok l' ->
  allow (l_decision l') = true ->
  static l' = static l /\ findings l' = findings l /\ heads l' = heads l
  /\ l_decision l' = l_decision l
  /\ forall p,
       l_wt_path l = Some p ->
       exists rc out err,
         run w ["git"; "push"; "--dry-run"; "-u"; "origin"; "HEAD:" +:+ branch (l_fields l)]
             (Some p) = Ok (rc, out, err)
         /\ l_push_probe l' = Some (rc, out, err)
         /\ (github_ops_required (l_fields l) = true -> rc = 0).
Proof.
  unfold probe_push. open_all l. destruct d as [[|] dc dm].
  2:{ destruct wp; intros [= <-]; cbn; intros Hf; discriminate Hf. }
  destruct wp as [p|]; [|intros [= <-] _; do 4 (split; [reflexivity|]); discriminate].
  cbn [allow]. intros E. apply rbind_ok in E as ([[rc o] e] & Hr & E).
  destruct (github_ops_required f && negb (rc =? 0)) eqn:Eg; injection E as <-;
    [cbn; intros Hf; discriminate Hf|].
  intros _. do 4 (split; [reflexivity|]). intros q [= <-]. exists rc, o, e.
  split; [exact Hr|]. split; [reflexivity|]. cbn [github_ops_required]. intros Hreq.
  rewrite Hreq in Eg. cbn in Eg. apply negb_false_iff, Z.eqb_eq in Eg. exact Eg.
Qed.

(** X16: what ALLOW means.  When the gate returns 0, the contract names
    [packet_id], [branch] and [base_ref], the repository was found, and
    the worktree path [worktree_root/packet_id] is ready: if it was on disk
    the policy let it be, it is registered on the contract's branch and is
    marked reused; if it was not, [git worktree add] made it and it is
    marked created; never both.  Nothing was found against it (no
    collision, no mismatch), the base is an ancestor of its head unless
    the base does not resolve, and the push probe ran, with success if the
    contract requires GitHub operations. *)
Theorem allow_means_worktree_ready (o : Outcome) :
  main_report w args = Ok o ->
  out_code o = 0 ->
  let l := out_locals o in
  let f := l_fields l in
  l_decision l = Decision_new
  /\ complete f = true
  /\ exists repo p,
       l_repo_root l = Some repo
       /\ l_wt_path l = Some p
       /\ p = path_join (path_join repo (worktree_root f)) (packet_id f)
       /\ l_worktree_created l = negb (path_exists w p)
       /\ l_worktree_reused l = path_exists w p
       /\ l_collision l = false
       /\ l_mismatch_detail l = EmptyString
       /\ (path_exists w p = true ->
           deny_if_exists f = false
           /\ registered w (l_wt_list l) p = true
           /\ worktree_branch (registry_entry w (l_wt_list l) p) = Some (branch f))
       /\ (path_exists w p = false ->
           exists rc_branch out_branch err_branch out err,
             run w ["git"; "show-ref"; "--verify"; "refs/heads/" +:+ branch f] (Some repo)
             = Ok (rc_branch, out_branch, err_branch)
             /\ run w (if rc_branch =? 0
                       then ["git"; "worktree"; "add"; p; branch f]
                       else ["git"; "worktree"; "add"; "-b"; branch f; p; base_ref f])
                    (Some repo) = Ok (0, out, err))
       /\ (l_base_is_ancestor l = Some true \/ l_base_sha l = EmptyString)
       /\ exists rc out err,
            l_push_probe l = Some (rc, out, err)
            /\ (github_ops_required f = true -> rc = 0).
Proof.
  intros E Hcode. unfold main_report in E.
  apply rbind_ok in E as ([ep l] & Hchk & E). injection E as <-.
  cbn [out_locals out_code] in *. cbv zeta.
  assert (Ha : allow (l_decision l) = true)
    by (destruct (allow (l_decision l)); [reflexivity | discriminate Hcode]).
  apply checks_inv in Hchk
    as (rr & l0 & l1 & l5 & l6 & l7 & Hr & H0 & H1 & H5 & H6 & H7 & H8).
  destruct (probe_push_allowed _ _ H8 Ha) as (S8 & F8 & G8 & D8 & P8).
  assert (Ha7 : allow (l_decision l7) = true) by now rewrite <- D8.
  destruct (check_ancestry_allowed _ _ H7 Ha7) as (S7 & F7 & Q7 & D7 & B7 & A7).
  assert (Ha6 : allow (l_decision l6) = true) by now rewrite <- D7.
  pose proof (check_git_op_allowed _ _ H6 Ha6) as ->.
  destruct (create_allowed _ _ H5 Ha6) as (S5 & G5 & Q5 & D5 & C5).
  set (l4 := check_reuse w (check_registered w (check_policy w l1))) in *.
  assert (Ha4 : allow (l_decision l4) = true) by now rewrite <- D5.
  destruct (pure_checks_allowed l1 Ha4) as (S4 & G4 & Q4 & D4 & C4). fold l4 in S4, G4, Q4, D4, C4.
  destruct (load_registry_frame _ _ H1) as (S1 & F1 & G1 & Q1 & D1 & _).
  assert (Ha0 : allow (l_decision l0) = true) by (rewrite <- D1, <- D4; exact Ha4).
  destruct (start_decision _ _ _ _ H0)
    as (Hc & Hu & Hcol & Hmd & Hwl & Hpp & Hba & Hbs & Hhs & Hhr & Hrr & Hdf & Hrf & Hd & Hwp).
  assert (Hfacts : complete (l_fields l0) = true /\ (exists repo, rr = Some repo)
                   /\ l_decision l0 = Decision_new).
  { destruct (fst (safe_read_json w (path_str (arg_contract args))));
      [|rewrite Hd in Ha0; discriminate Ha0].
    cbv zeta in Hd. unfold complete. unfold nonempty in Hd. rewrite Hd in Ha0 |- *.
    destruct (negb _ && negb _ && negb _); destruct rr; try discriminate Ha0; eauto. }
  destruct Hfacts as (Hcomp & (repo & ->) & Hnew).
  assert (Hne : nonempty (packet_id (l_fields l0)) = true
                /\ nonempty (base_ref (l_fields l0)) = true).
  { unfold complete in Hcomp. apply andb_true_iff in Hcomp as [Hcomp Hb].
    apply andb_true_iff in Hcomp as [Hp _]. now split. }
  destruct Hne as [Hpid Hbase]. rewrite Hpid in Hwp.
  set (p0 := path_join (path_join repo (worktree_root (l_fields l0))) (packet_id (l_fields l0)))
    in *.
  unfold static in S8, S7, S5, S4.
  assert (Ef : l_fields l = l_fields l0) by congruence.
  assert (Ef7 : l_fields l7 = l_fields l0) by congruence.
  assert (Ef5 : l_fields l5 = l_fields l0) by congruence.
  assert (Ef4 : l_fields l4 = l_fields l0) by congruence.
  assert (Ef1 : l_fields l1 = l_fields l0) by congruence.
  assert (Ew : l_wt_path l = Some p0) by congruence.
  assert (Ew7 : l_wt_path l7 = Some p0) by congruence.
  assert (Ew5 : l_wt_path l5 = Some p0) by congruence.
  assert (Ew4 : l_wt_path l4 = Some p0) by congruence.
  assert (Ew1 : l_wt_path l1 = Some p0) by congruence.
  assert (Er : l_repo_root l = Some repo) by congruence.
  assert (Er5 : l_repo_root l5 = Some repo) by congruence.
  assert (Er4 : l_repo_root l4 = Some repo) by congruence.
  assert (El : l_wt_list l = l_wt_list l1) by congruence.
  assert (Ed : l_decision l = Decision_new) by congruence.
  assert (F0 : findings l0 = (false, false, EmptyString, false))
    by (unfold findings; now rewrite Hc, Hu, Hcol, Hmd).
  assert (Fl : findings l = findings l5) by congruence.
  rewrite Ef. split; [exact Ed|]. split; [exact Hcomp|].
  exists repo, p0. split; [exact Er|]. split; [exact Ew|]. split; [reflexivity|].
  destruct (C4 p0 Ew1) as [C4n C4y]. destruct (C5 p0 repo Ew4 Er4) as [C5y C5n].
  rewrite Ef4 in C5n. rewrite Ef1 in C4y. rewrite El.
  assert (Hfind : findings l = (negb (path_exists w p0), path_exists w p0, EmptyString, false)
                  /\ (path_exists w p0 = true ->
                      deny_if_exists (l_fields l0) = false
                      /\ registered w (l_wt_list l1) p0 = true
                      /\ worktree_branch (registry_entry w (l_wt_list l1) p0)
                         = Some (branch (l_fields l0)))
                  /\ (path_exists w p0 = false ->
                      exists rc_branch out_branch err_branch out err,
                        run w ["git"; "show-ref"; "--verify";
                               "refs/heads/" +:+ branch (l_fields l0)] (Some repo)
                        = Ok (rc_branch, out_branch, err_branch)
                        /\ run w (if rc_branch =? 0
                                  then ["git"; "worktree"; "add"; p0; branch (l_fields l0)]
                                  else ["git"; "worktree"; "add"; "-b"; branch (l_fields l0);
                                        p0; base_ref (l_fields l0)])
                               (Some repo) = Ok (0, out, err))).
  { destruct (path_exists w p0) eqn:Ex.
    - destruct (C4y eq_refl) as (Hpol & Hreg & Hbr & F4). rewrite (C5y eq_refl) in Fl.
      split; [|split; [now intros _ | discriminate]].
      rewrite Fl, F4. unfold findings in F1, F0. cbn [negb]. congruence.
    - destruct (C5n eq_refl) as (F5 & Hrun). rewrite (C4n eq_refl) in F5.
      split; [|split; [discriminate | now intros _]].
      rewrite Fl, F5. unfold findings in F1, F0. cbn [negb]. congruence. }
  destruct Hfind as (Hfind & Hyes & Hno). unfold findings in Hfind.
  injection Hfind as -> -> -> ->.
  do 4 (split; [reflexivity|]). split; [exact Hyes|]. split; [exact Hno|]. split.
  - unfold heads in G8. assert (Eb : l_base_is_ancestor l = l_base_is_ancestor l7) by congruence.
    assert (Es : l_base_sha l = l_base_sha l7) by congruence. rewrite Eb, Es.
    apply (A7 p0 repo Ew5 Er5). now rewrite Ef5.
  - destruct (P8 p0 Ew7) as (rc & out & err & _ & Hprobe & Hreq).
    exists rc, out, err. split; [exact Hprobe|]. now rewrite Ef7 in Hreq.
Qed.

(** *** What every run keeps *)

(** What each check leaves as it is, and the code it denies with. *)
Lemma pure_checks_frame l :
  let l' := check_reuse w (check_registered w (check_policy w l)) in
  heads l' = heads l /\ l_push_probe l' = l_push_probe l
  /\ l_worktree_created l' = l_worktree_created l
  /\ (l_worktree_reused l' = l_worktree_reused l
      \/ exists p, l_wt_path l = Some p /\ path_exists w p = true)
  /\ (l_decision l' = l_decision l
      \/ deny_code (l_decision l') = Some "WORKTREE_COLLISION"
      \/ deny_code (l_decision l') = Some "WORKTREE_MISMATCH").
Proof.
  cbv zeta. open_all l. destruct d as [[|] dc dm].
  2:{ unfold check_policy, check_registered, check_reuse, present.
      destruct wp; cbn; repeat split; auto. }
  destruct wp as [p|]; [|cbn; repeat split; auto].
  unfold check_policy, present.
  cbn -[path_exists registered registry_entry worktree_branch].
  destruct (path_exists w p) eqn:Ex.
  - destruct (deny_if_exists f) eqn:Ep.
    + unfold check_registered, check_reuse, present. cbn. repeat split; auto.
    + unfold check_registered, present.
      cbn -[path_exists registered registry_entry worktree_branch]. rewrite Ex.
      destruct (registered w wl p) eqn:Er.
      * unfold check_reuse, present.
        cbn -[path_exists registered registry_entry worktree_branch]. rewrite Ex.
        destruct (match worktree_branch (registry_entry w wl p) with
                  | Some b => nonempty b && String.eqb b (branch f)
                  | None => false
                  end); cbn; repeat split; eauto.
      * unfold check_reuse, present. cbn. repeat split; auto.
  - unfold check_registered, present.
    cbn -[path_exists registered registry_entry worktree_branch]. rewrite Ex.
    unfold check_reuse, present.
    cbn -[path_exists registered registry_entry worktree_branch]. rewrite Ex.
    repeat split; auto.
Qed.

Lemma create_frame l l' :
  create w l = Ok l' ->
  heads l' = heads l /\ l_push_probe l' = l_push_probe l
  /\ l_worktree_reused l' = l_worktree_reused l
  /\ (l_worktree_created l' = l_worktree_created l
      \/ exists p, l_wt_path l = Some p /\ path_exists w p = false)
  /\ (l_decision l' = l_decision l
      \/ deny_code (l_decision l') = Some "WORKTREE_MISMATCH").
Proof.
  unfold create. open_all l. destruct d as [[|] dc dm].
  2:{ destruct wp, rr; intros [= <-]; cbn; repeat split; auto. }
  destruct wp as [p|]; [|intros [= <-]; repeat split; auto].
  destruct rr as [repo|]; [|intros [= <-]; repeat split; auto].
  cbn [allow andb]. destruct (path_exists w p) eqn:Ex; cbn [negb].
  - intros [= <-]. repeat split; auto.
  - intros E. apply rbind_ok in E as (made & _ & E).
    apply rbind_ok in E as ([[rc1 o1] e1] & _ & E).
    apply rbind_ok in E as ([[rc2 o2] e2] & _ & E).
    destruct (rc2 =? 0); injection E as <-; cbn; repeat split; eauto.
Qed.

Lemma check_git_op_frame l l' :
  check_git_op w l = Ok l' ->
  heads l' = heads l /\ l_push_probe l' = l_push_probe l /\ findings l' = findings l
  /\ (l_decision l' = l_decision l
      \/ (allow (l_decision l) = true /\ allow (l_decision l') = false
          /\ deny_code (l_decision l') = Some "GIT_OP_IN_PROGRESS")).
Proof.
  unfold check_git_op. open_all l. destruct d as [[|] dc dm].
  2:{ destruct wp; intros [= <-]; cbn; repeat split; auto. }
  destruct wp as [p|]; [|intros [= <-]; repeat split; auto]. cbn [allow].
  intros E. apply rbind_ok in E as (g & _ & E).
  destruct g as [g|]; [|injection E as <-; repeat split; auto].
  destruct (git_op_in_progress w g); injection E as <-; cbn; repeat split; auto.
Qed.

Lemma check_ancestry_frame l l' :
  check_ancestry w l = Ok l' ->
  l_push_probe l' = l_push_probe l /\ findings l' = findings l
  /\ (l_base_is_ancestor l' = l_base_is_ancestor l
      \/ (allow (l_decision l) = true
          /\ (l_base_is_ancestor l' = Some false -> allow (l_decision l') = false)))
  /\ (l_decision l' = l_decision l
      \/ (allow (l_decision l) = true /\ allow (l_decision l') = false
          /\ deny_code (l_decision l') = Some "WORKTREE_MISMATCH"
          /\ l_base_is_ancestor l' = Some false)).
Proof.
  unfold check_ancestry. open_all l. destruct d as [[|] dc dm].
  2:{ destruct wp, rr; intros [= <-]; cbn; repeat split; auto. }
  destruct wp as [p|]; [|intros [= <-]; repeat split; auto].
  destruct rr as [repo|]; [|intros [= <-]; repeat split; auto].
  cbn [allow andb]. destruct (nonempty (base_ref f)); [|intros [= <-]; repeat split; auto].
  intros E. apply rbind_ok in E as (b & _ & E).
  apply rbind_ok in E as ([[rc1 o1] e1] & _ & E).
  apply rbind_ok in E as ([[rc2 o2] e2] & _ & E).
  destruct (nonempty (default EmptyString b)).
  - apply rbind_ok in E as ([[rc3 o3] e3] & _ & E).
    destruct ((rc3 =? 0) && String.eqb (Str.strip o3) (default EmptyString b));
      injection E as <-; cbn; repeat split; auto.
    right. split; [reflexivity | discriminate].
  - injection E as <-. cbn. repeat split; auto.
    right. split; [reflexivity | discriminate].
Qed.

Lemma probe_push_frame l l' :
  probe_push w l = Ok l' ->
  heads l' = heads l /\ findings l' = findings l
  /\ (l_decision l' = l_decision l
      \/ (allow (l_decision l) = true /\ allow (l_decision l') = false
          /\ deny_code (l_decision l') = Some "GH_PUSH_DENIED")).
Proof.
  unfold probe_push. open_all l. destruct d as [[|] dc dm].
  2:{ destruct wp; intros [= <-]; cbn; repeat split; auto. }
  destruct wp as [p|]; [|intros [= <-]; repeat split; auto]. cbn [allow].
  intros E. apply rbind_ok in E as ([[rc o] e] & _ & E).
  destruct (github_ops_required f && negb (rc =? 0)); injection E as <-; cbn;
    repeat split; auto.
Qed.

(** Once the worktree is made or found fit for reuse, it is marked so. *)
Lemma worktree_ready rr contract cerr l0 l1 l5 :
  start rr contract cerr = Ok l0 ->
  load_registry w l0 = Ok l1 ->
  create w (check_reuse w (check_registered w (check_policy w l1))) = Ok l5 ->
  allow (l_decision l5) = true ->
  exists p,
    l_wt_path l5 = Some p
    /\ findings l5 = (negb (path_exists w p), path_exists w p, EmptyString, false).
Proof.
  intros H0 H1 H5 Ha5.
  destruct (create_allowed _ _ H5 Ha5) as (S5 & G5 & Q5 & D5 & C5).
  set (l4 := check_reuse w (check_registered w (check_policy w l1))) in *.
  assert (Ha4 : allow (l_decision l4) = true) by now rewrite <- D5.
  destruct (pure_checks_allowed l1 Ha4) as (S4 & G4 & Q4 & D4 & C4). fold l4 in S4, G4, Q4, D4, C4.
  destruct (load_registry_frame _ _ H1) as (S1 & F1 & G1 & Q1 & D1 & _).
  assert (Ha0 : allow (l_decision l0) = true) by (rewrite <- D1, <- D4; exact Ha4).
  destruct (start_decision _ _ _ _ H0)
    as (Hc & Hu & Hcol & Hmd & Hwl & Hpp & Hba & Hbs & Hhs & Hhr & Hrr & Hdf & Hrf & Hd & Hwp).
  assert (Hfacts : nonempty (packet_id (l_fields l0)) = true /\ exists repo, rr = Some repo).
  { destruct contract; [|rewrite Hd in Ha0; discriminate Ha0].
    cbv zeta in Hd. rewrite Hd in Ha0.
    destruct (nonempty (packet_id (l_fields l0))); [|destruct rr; discriminate Ha0].
    destruct rr; [eauto | destruct (_ && _); discriminate Ha0]. }
  destruct Hfacts as (Hpid & repo & ->). rewrite Hpid in Hwp.
  set (p0 := path_join (path_join repo (worktree_root (l_fields l0))) (packet_id (l_fields l0)))
    in *.
  unfold static in S5, S4.
  assert (Ew5 : l_wt_path l5 = Some p0) by congruence.
  assert (Ew4 : l_wt_path l4 = Some p0) by congruence.
  assert (Ew1 : l_wt_path l1 = Some p0) by congruence.
  assert (Er4 : l_repo_root l4 = Some repo) by congruence.
  assert (F0 : findings l0 = (false, false, EmptyString, false))
    by (unfold findings; now rewrite Hc, Hu, Hcol, Hmd).
  exists p0. split; [exact Ew5|].
  destruct (C4 p0 Ew1) as [C4n C4y]. destruct (C5 p0 repo Ew4 Er4) as [C5y C5n].
  destruct (path_exists w p0) eqn:Ex.
  - destruct (C4y eq_refl) as (_ & _ & _ & F4). rewrite (C5y eq_refl), F4.
    unfold findings in F1, F0. cbn [negb]. congruence.
  - destruct (C5n eq_refl) as (F5 & _). rewrite (C4n eq_refl) in F5. rewrite F5.
    unfold findings in F1, F0. cbn [negb]. congruence.
Qed.

(** X17: the evidence never says both created and reused: a worktree is
    marked created only when its path was not on disk, reused only when it
    was.  A denial by the operation guard, the ancestry check or the push
    probe comes after the worktree is made or accepted for reuse, and does
    not undo it: the run returns 2 for a worktree that it has created and
    left in place. *)
Theorem late_denials_keep_the_worktree (o : Outcome) :
  main_report w args = Ok o ->
  let l := out_locals o in
  l_worktree_created l && l_worktree_reused l = false
  /\ (l_worktree_created l = true ->
      exists p, l_wt_path l = Some p /\ path_exists w p = false)
  /\ (l_worktree_reused l = true ->
      exists p, l_wt_path l = Some p /\ path_exists w p = true)
  /\ (deny_code (l_decision l) = Some "GIT_OP_IN_PROGRESS"
      \/ deny_code (l_decision l) = Some "GH_PUSH_DENIED"
      \/ l_base_is_ancestor l = Some false ->
      out_code o = 2
      /\ member "decision" (out_evidence o) = JStr "DENY"
      /\ exists p,
           l_wt_path l = Some p
           /\ l_worktree_created l = negb (path_exists w p)
           /\ l_worktree_reused l = path_exists w p).
Proof.
  intros E. unfold main_report in E.
  apply rbind_ok in E as ([ep l] & Hchk & E). injection E as <-.
  cbn [out_locals out_code out_evidence]. cbv zeta.
  apply checks_inv in Hchk
    as (rr & l0 & l1 & l5 & l6 & l7 & Hr & H0 & H1 & H5 & H6 & H7 & H8).
  destruct (start_decision _ _ _ _ H0)
    as (Hc & Hu & Hcol & Hmd & Hwl & Hpp & Hba & Hbs & Hhs & Hhr & Hrr & Hdf & Hrf & Hd & Hwp).
  destruct (load_registry_frame _ _ H1) as (S1 & F1 & G1 & Q1 & D1 & _).
  pose proof (pure_checks_frame l1) as (G4 & Q4 & C4 & U4 & D4). cbv zeta in G4, Q4, C4, U4, D4.
  pose proof (pure_checks_static w l1) as S4.
  set (l4 := check_reuse w (check_registered w (check_policy w l1))) in *.
  destruct (create_frame _ _ H5) as (G5 & Q5 & U5 & C5 & D5).
  pose proof (create_static w _ _ H5) as S5.
  destruct (check_git_op_frame _ _ H6) as (G6 & Q6 & F6 & D6).
  destruct (check_ancestry_frame _ _ H7) as (Q7 & F7 & B7 & D7).
  destruct (probe_push_frame _ _ H8) as (G8 & F8 & D8).
  pose proof (advances_trans _ _ _ (advances_trans _ _ _ (check_git_op_advances w _ _ H6)
                (check_ancestry_advances w _ _ H7)) (probe_push_advances w _ _ H8))
    as (S8 & _).
  unfold static in S8, S5, S4. unfold findings in F1, F6, F7, F8.
  assert (Ew : l_wt_path l = l_wt_path l1) by congruence.
  assert (Ew4 : l_wt_path l4 = l_wt_path l1) by congruence.
  assert (Ecr : l_worktree_created l = l_worktree_created l5) by congruence.
  assert (Eru : l_worktree_reused l = l_worktree_reused l4) by congruence.
  assert (Hcr : l_worktree_created l = true ->
                exists p, l_wt_path l = Some p /\ path_exists w p = false).
  { intros Ht. destruct C5 as [C5 | (p & Hp & Hx)].
    - rewrite Ecr, C5, C4 in Ht. congruence.
    - exists p. split; [congruence | exact Hx]. }
  assert (Hru : l_worktree_reused l = true ->
                exists p, l_wt_path l = Some p /\ path_exists w p = true).
  { intros Ht. destruct U4 as [U4 | (p & Hp & Hx)].
    - rewrite Eru, U4 in Ht. congruence.
    - exists p. split; [congruence | exact Hx]. }
  split; [|split; [exact Hcr|split; [exact Hru|]]].
  - destruct (l_worktree_created l) eqn:E1; [|reflexivity].
    destruct (l_worktree_reused l) eqn:E2; [|reflexivity].
    destruct (Hcr eq_refl) as (p & Hp & Hx). destruct (Hru eq_refl) as (q & Hq & Hy). congruence.
  - intros Hlate.
    assert (Hearly : deny_code (l_decision l5) <> Some "GIT_OP_IN_PROGRESS"
                     /\ deny_code (l_decision l5) <> Some "GH_PUSH_DENIED").
    { assert (H0c : deny_code (l_decision l0) = None
                    \/ deny_code (l_decision l0) = Some "WORKTREE_MISMATCH").
      { rewrite Hd. destruct (fst (safe_read_json w (path_str (arg_contract args))));
          [|now right].
        cbv zeta. destruct (_ && _), rr; cbn; auto. }
      destruct D5 as [-> | ->]; [|split; discriminate].
      destruct D4 as [-> | [-> | ->]]; try (split; discriminate).
      rewrite D1. destruct H0c as [-> | ->]; split; discriminate. }
    destruct Hearly as [Hno_op Hno_push].
    assert (Hb5 : l_base_is_ancestor l5 = None).
    { unfold heads in G5, G4, G1. congruence. }
    assert (Hb6 : l_base_is_ancestor l6 = None).
    { unfold heads in G6. congruence. }
    assert (Hal : allow (l_decision l5) = true /\ allow (l_decision l) = false).
    { destruct Hlate as [Hop | [Hpush | Hanc]].
      - destruct D8 as [D8 | (_ & _ & D8)]; [|congruence]. rewrite D8 in Hop |- *.
        destruct D7 as [D7 | (_ & _ & D7 & _)]; [|congruence]. rewrite D7 in Hop |- *.
        destruct D6 as [D6 | (A5 & A6 & _)]; [rewrite D6 in Hop; contradiction|]. now split.
      - destruct D8 as [D8 | (A7 & A8 & _)].
        + rewrite D8 in Hpush. destruct D7 as [D7 | (_ & _ & D7 & _)]; [|congruence].
          rewrite D7 in Hpush. destruct D6 as [D6 | (_ & _ & D6)]; [|congruence].
          rewrite D6 in Hpush. contradiction.
        + split; [|exact A8].
          destruct (check_ancestry_allowed _ _ H7 A7) as (_ & _ & _ & D7' & _).
          rewrite D7' in A7. now rewrite (check_git_op_allowed _ _ H6 A7) in A7.
      - unfold heads in G8. assert (Hb7 : l_base_is_ancestor l7 = Some false) by congruence.
        destruct B7 as [B7 | (A6 & B7)]; [congruence|]. specialize (B7 Hb7).
        split; [now rewrite (check_git_op_allowed _ _ H6 A6) in A6|].
        destruct D8 as [D8 | (A7 & _)]; [now rewrite D8 | congruence]. }
    destruct Hal as [Ha5 Hdeny]. rewrite Hdeny. split; [reflexivity|].
    split; [cbn; unfold decision_word; now rewrite Hdeny|].
    destruct (worktree_ready _ _ _ _ _ _ H0 H1 H5 Ha5) as (p & Hp & Hf).
    exists p. split; [congruence|].
    unfold findings in Hf, F6. injection Hf as Hf1 Hf2 _ _. split; congruence.
Qed.

(** *** A worktree path that is on disk and is not reused *)

Lemma pure_checks_denials l p :
  allow (l_decision l) = true ->
  l_wt_path l = Some p ->
  path_exists w p = true ->
  let l' := check_reuse w (check_registered w (check_policy w l)) in
  let found :=
    match worktree_branch (registry_entry w (l_wt_list l) p) with
    | Some b => b
    | None => "None"
    end in
  let detail :=
    "branch mismatch: expected " +:+ branch (l_fields l) +:+ ", found " +:+ found in
  (deny_if_exists (l_fields l) = true ->
   l_decision l'
   = mkDecision false (Some "WORKTREE_COLLISION")
                (Some "worktree exists and deny_if_worktree_exists=true")
   /\ findings l' = findings l)
  /\ (deny_if_exists (l_fields l) = false ->
      registered w (l_wt_list l) p = false ->
      l_decision l'
      = mkDecision false (Some "WORKTREE_COLLISION")
                   (Some "worktree path exists but is not registered")
      /\ findings l'
         = (l_worktree_created l, l_worktree_reused l, l_mismatch_detail l, true))
  /\ (deny_if_exists (l_fields l) = false ->
      registered w (l_wt_list l) p = true ->
      nonempty (branch (l_fields l)) = true ->
      worktree_branch (registry_entry w (l_wt_list l) p) <> Some (branch (l_fields l)) ->
      l_decision l' = mkDecision false (Some "WORKTREE_MISMATCH") (Some detail)
      /\ findings l' = (l_worktree_created l, l_worktree_reused l, detail, l_collision l)).
Proof.
  open_all l. destruct d as [[|] dc dm]; [|discriminate]. intros _ -> Ex. cbv zeta.
  split; [|split].
  - intros Hpol. unfold check_policy, present.
    cbn -[path_exists registered registry_entry worktree_branch]. rewrite Ex, Hpol.
    unfold check_registered, check_reuse, present. cbn. now split.
  - intros Hpol Hreg. unfold check_policy, present.
    cbn -[path_exists registered registry_entry worktree_branch]. rewrite Ex, Hpol.
    unfold check_registered, present.
    cbn -[path_exists registered registry_entry worktree_branch]. rewrite Ex, Hreg.
    unfold check_reuse, present. cbn. now split.
  - intros Hpol Hreg Hne Hbr. unfold check_policy, present.
    cbn -[path_exists registered registry_entry worktree_branch]. rewrite Ex, Hpol.
    unfold check_registered, present.
    cbn -[path_exists registered registry_entry worktree_branch]. rewrite Ex, Hreg.
    unfold check_reuse, present.
    cbn -[path_exists registered registry_entry worktree_branch]. rewrite Ex.
    assert (Hm : match worktree_branch (registry_entry w wl p) with
                 | Some b => nonempty b && String.eqb b (branch f)
                 | None => false
                 end = false).
    { destruct (worktree_branch (registry_entry w wl p)) as [b|]; [|reflexivity].
      destruct (String.eqb b (branch f)) eqn:Eb; [|apply andb_false_r].
      apply String.eqb_eq in Eb. subst b. now destruct Hbr. }
    rewrite Hm. cbn. now split.
Qed.

(** X18: a worktree path that is on disk is reused or denied, and never
    touched.  Under the default policy it is a WORKTREE_COLLISION, whatever
    the registry says, with the [collision] member left false; with
    [deny_if_worktree_exists] false it is a WORKTREE_COLLISION with
    [collision] true when git does not list it, and a WORKTREE_MISMATCH
    that names both branches when git lists it on another branch or on
    none.  After such a denial no worktree is made, and the operation
    guard, the ancestry check and the push probe are not run. *)
Theorem existing_path_is_denied_unless_reusable (o : Outcome) (p : string) :
  main_report w args = Ok o ->
  let l := out_locals o in
  let f := l_fields l in
  let found :=
    match worktree_branch (registry_entry w (l_wt_list l) p) with
    | Some b => b
    | None => "None"
    end in
  let detail := "branch mismatch: expected " +:+ branch f +:+ ", found " +:+ found in
  l_wt_path l = Some p ->
  path_exists w p = true ->
  complete f = true ->
  let untouched :=
    out_code o = 2 /\ l_worktree_reused l = false /\ l_push_probe l = None
    /\ l_base_is_ancestor l = None in
  l_worktree_created l = false
  /\ (deny_if_exists f = true ->
      l_decision l
      = mkDecision false (Some "WORKTREE_COLLISION")
                   (Some "worktree exists and deny_if_worktree_exists=true")
      /\ l_collision l = false /\ untouched)
  /\ (deny_if_exists f = false -> registered w (l_wt_list l) p = false ->
      l_decision l
      = mkDecision false (Some "WORKTREE_COLLISION")
                   (Some "worktree path exists but is not registered")
      /\ l_collision l = true /\ untouched)
  /\ (deny_if_exists f = false -> registered w (l_wt_list l) p = true ->
      worktree_branch (registry_entry w (l_wt_list l) p) <> Some (branch f) ->
      l_decision l = mkDecision false (Some "WORKTREE_MISMATCH") (Some detail)
      /\ l_mismatch_detail l = detail /\ untouched).
Proof.
  intros E. unfold main_report in E.
  apply rbind_ok in E as ([ep l] & Hchk & E). injection E as <-.
  cbn [out_locals out_code out_evidence]. cbv zeta. intros Hwp Hex Hcomp.
  apply checks_inv in Hchk
    as (rr & l0 & l1 & l5 & l6 & l7 & Hr & H0 & H1 & H5 & H6 & H7 & H8).
  destruct (start_decision _ _ _ _ H0)
    as (Hc & Hu & Hcol & Hmd & Hwl & Hpp & Hba & Hbs & Hhs & Hhr & Hrr & Hdf & Hrf & Hd & Hwp0).
  destruct (load_registry_frame _ _ H1) as (S1 & F1 & G1 & Q1 & D1 & _).
  pose proof (pure_checks_frame l1) as (G4 & Q4 & C4 & U4 & D4). cbv zeta in G4, Q4, C4, U4, D4.
  pose proof (pure_checks_static w l1) as S4.
  pose proof (pure_checks_denials l1 p) as Hden. cbv zeta in Hden.
  set (l4 := check_reuse w (check_registered w (check_policy w l1))) in *.
  destruct (create_frame _ _ H5) as (G5 & Q5 & U5 & C5 & D5).
  pose proof (create_static w _ _ H5) as S5.
  destruct (check_git_op_frame _ _ H6) as (G6 & Q6 & F6 & D6).
  destruct (check_ancestry_frame _ _ H7) as (Q7 & F7 & B7 & D7).
  destruct (probe_push_frame _ _ H8) as (G8 & F8 & D8).
  pose proof (advances_trans _ _ _ (advances_trans _ _ _ (check_git_op_advances w _ _ H6)
                (check_ancestry_advances w _ _ H7)) (probe_push_advances w _ _ H8))
    as (S8 & _).
  unfold static in S8, S5, S4.
  assert (Ef : l_fields l = l_fields l0) by congruence.
  assert (Ef1 : l_fields l1 = l_fields l0) by congruence.
  assert (Ew1 : l_wt_path l1 = Some p) by congruence.
  assert (Ew0 : l_wt_path l0 = Some p) by congruence.
  assert (El : l_wt_list l = l_wt_list l1) by congruence.
  assert (F0 : findings l0 = (false, false, EmptyString, false))
    by (unfold findings; now rewrite Hc, Hu, Hcol, Hmd).
  assert (Ha0 : allow (l_decision l0) = true).
  { rewrite Hd. rewrite Hwp0 in Ew0. destruct rr as [repo|]; [|discriminate Ew0].
    destruct (fst (safe_read_json w (path_str (arg_contract args)))) as [c|] eqn:Ec.
    - cbv zeta. rewrite Ef in Hcomp. unfold complete in Hcomp. unfold nonempty.
      now rewrite Hcomp.
    - rewrite Ef, (Hdf eq_refl) in Hcomp. discriminate Hcomp. }
  assert (Ha1 : allow (l_decision l1) = true) by now rewrite D1.
  assert (Hne : nonempty (branch (l_fields l1)) = true).
  { rewrite Ef1. rewrite Ef in Hcomp. unfold complete in Hcomp.
    apply andb_true_iff in Hcomp as [Hcomp _]. now apply andb_true_iff in Hcomp as [_ Hb]. }
  destruct (Hden Ha1 Ew1 Hex) as (Hpolicy & Hunreg & Hmis).
  rewrite Ef1 in Hpolicy, Hunreg, Hmis. rewrite Ef1 in Hne.
  assert (Hrest : allow (l_decision l4) = false ->
                  l = l4 /\ l_push_probe l4 = None /\ l_base_is_ancestor l4 = None).
  { intros Ha4. destruct (denied_stays l4 Ha4) as (_ & _ & E5 & E6 & E7 & E8).
    rewrite E5 in H5. injection H5 as <-. rewrite E6 in H6. injection H6 as <-.
    rewrite E7 in H7. injection H7 as <-. rewrite E8 in H8. injection H8 as <-.
    unfold heads in G4, G1. repeat split; congruence. }
  assert (Hcr : l_worktree_created l = false).
  { unfold findings in F6, F7, F8, F1, F0.
    assert (Ecr : l_worktree_created l = l_worktree_created l5) by congruence.
    rewrite Ecr. destruct C5 as [-> | (q & Hq & Hx)]; [congruence|].
    assert (q = p) by congruence. subst q. congruence. }
  rewrite Ef, El. split; [exact Hcr|].
  unfold findings in F1, F0. split; [|split].
  - intros Hpol. destruct (Hpolicy Hpol) as (Hdec & Hf).
    destruct (Hrest ltac:(now rewrite Hdec)) as (-> & Hprobe & Hanc). unfold findings in Hf.
    rewrite Hdec. cbn [allow]. repeat split; congruence.
  - intros Hpol Hreg. destruct (Hunreg Hpol Hreg) as (Hdec & Hf).
    destruct (Hrest ltac:(now rewrite Hdec)) as (-> & Hprobe & Hanc). unfold findings in Hf.
    rewrite Hdec. cbn [allow]. repeat split; congruence.
  - intros Hpol Hreg Hbr. destruct (Hmis Hpol Hreg Hne Hbr) as (Hdec & Hf).
    destruct (Hrest ltac:(now rewrite Hdec)) as (-> & Hprobe & Hanc). unfold findings in Hf.
    rewrite Hdec. cbn [allow]. repeat split; congruence.
Qed.

End Steps.

(** *** The registry of worktrees *)

Section Registry.
Context `{RT : Runtime} (w : World).

Lemma flush_filed entries current :
  filed entries ->
  (forall key v, current !! key = Some v -> Str.strip v = v) ->
  filed (flush entries current).
Proof.
  intros He Hc. unfold flush. destruct (current !! "path") as [p|] eqn:Ep; [|exact He].
  destruct (String.eqb p EmptyString) eqn:Ee; [exact He|].
  apply String.eqb_neq in Ee. intros k e Hk.
  destruct (decide (p = k)) as [<- | Hne].
  - rewrite lookup_insert_eq in Hk. injection Hk as <-. now repeat split.
  - rewrite lookup_insert_ne in Hk by exact Hne. now apply He.
Qed.

Lemma worktree_line_filed st line :
  filed (fst st) ->
  (forall key v, snd st !! key = Some v -> Str.strip v = v) ->
  filed (fst (worktree_line st line))
  /\ (forall key v, snd (worktree_line st line) !! key = Some v -> Str.strip v = v).
Proof.
  destruct st as [entries current]. cbn [fst snd]. intros He Hc. unfold worktree_line.
  destruct (String.prefix "worktree " line).
  - cbn [fst snd]. split; [now apply flush_filed|]. intros key v Hv.
    apply lookup_singleton_Some in Hv as [_ <-]. apply strip_idem.
  - destruct (negb (Str.nonblank line)); [now split|].
    destruct (match Str.cut " " line with Some (k, v) => (k, v) | None => _ end)
      as [key val].
    cbn [fst snd]. split; [exact He|]. intros key' v Hv.
    destruct (decide (key = key')) as [<- | Hne].
    + rewrite lookup_insert_eq in Hv. injection Hv as <-. apply strip_idem.
    + rewrite lookup_insert_ne in Hv by exact Hne. now apply (Hc key').
Qed.

Lemma parse_worktree_output_filed (out : string) : filed (parse_worktree_output out).
Proof.
  unfold parse_worktree_output.
  assert (H0 : filed (fst ((∅, ∅) : gmap string (gmap string string) * gmap string string))
               /\ forall key v,
                    snd ((∅, ∅) : gmap string (gmap string string) * gmap string string)
                    !! key = Some v -> Str.strip v = v).
  { split; [intros k e Hk | intros key v Hk]; cbn in Hk; now rewrite lookup_empty in Hk. }
  revert H0. generalize ((∅, ∅) : gmap string (gmap string string) * gmap string string).
  induction (Str.splitlines out) as [|ln lines IH]; intros st [He Hc].
  - cbn [fold_left]. destruct st as [entries current]. now apply flush_filed.
  - cbn [fold_left]. apply IH. now apply worktree_line_filed.
Qed.

(** X19: every entry of the worktree registry that the gate reads from
    [git worktree list --porcelain] is filed under its own [path], which is
    not empty, and holds values without white space around them, whatever
    the command prints; when the command fails the registry is empty, so
    that no path is registered.  The branch of an entry is the value of its
    [branch] line without [refs/heads/] in front. *)
Theorem registry_entries_are_keyed_by_path (repo : string)
    (reg : gmap string (gmap string string)) :
  parse_worktree_list w repo = Ok reg ->
  (forall k e,
     reg !! k = Some e ->
     e !! "path" = Some k /\ k <> EmptyString /\ Str.strip k = k
     /\ (forall key v, e !! key = Some v -> Str.strip v = v)
     /\ (forall b, worktree_branch e = Some b ->
                   exists v, e !! "branch" = Some v /\ v <> EmptyString
                             /\ (v = "refs/heads/" +:+ b \/ v = b)))
  /\ (forall rc out err,
        run w ["git"; "worktree"; "list"; "--porcelain"] (Some repo) = Ok (rc, out, err) ->
        (rc <> 0 -> reg = ∅ /\ forall p, registered w reg p = false)
        /\ (rc = 0 -> reg = parse_worktree_output out)).
Proof.
  unfold parse_worktree_list. intros E. apply rbind_ok in E as ([[rc out] err] & Hrun & E).
  injection E as <-. split.
  - intros k e Hk.
    assert (Hf : filed (if rc =? 0 then parse_worktree_output out else ∅)).
    { destruct (rc =? 0); [apply parse_worktree_output_filed|].
      intros k' e' Hk'. now rewrite lookup_empty in Hk'. }
    destruct (Hf k e Hk) as (Hp & Hne & Hv).
    split; [exact Hp|]. split; [exact Hne|]. split; [now apply (Hv "path")|].
    split; [exact Hv|]. intros b Hb. unfold worktree_branch in Hb.
    destruct (e !! "branch") as [v|] eqn:Ev; [|discriminate Hb].
    destruct (String.eqb v EmptyString) eqn:Ee; [discriminate Hb|].
    apply String.eqb_neq in Ee. exists v. split; [reflexivity|]. split; [exact Ee|].
    destruct (String.prefix "refs/heads/" v) eqn:Epre; injection Hb as <-; [left | now right].
    now apply prefix_drop in Epre.
  - intros rc' out' err' Hrun'. rewrite Hrun in Hrun'. injection Hrun' as <- <- <-.
    split.
    + intros Hrc. apply Z.eqb_neq in Hrc. rewrite Hrc. split; [reflexivity|].
      intros p. apply registered_empty.
    + intros ->. reflexivity.
Qed.

End Registry.

(** *** The base reference and the push probe *)

Section Probes.
Context `{RT : Runtime} (w : World) (args : Args).

Ltac open_fields l :=
  destruct l as [rr f wr wp wl d cr ru md col hr hs bs ba pp];
  cbn [l_repo_root l_fields l_wt_root l_wt_path l_wt_list l_decision l_worktree_created
       l_worktree_reused l_mismatch_detail l_collision l_head_ref l_head_sha l_base_sha
       l_base_is_ancestor l_push_probe] in *.

Lemma check_ancestry_unresolved l l' :
  (forall ref repo rc out err,
     run w ["git"; "rev-parse"; "--verify"; ref] (Some repo) = Ok (rc, out, err) ->
     rc <> 0 \/ Str.strip out = EmptyString) ->
  check_ancestry w l = Ok l' ->
  l_decision l' = l_decision l
  /\ (l_base_is_ancestor l' = l_base_is_ancestor l \/ l_base_is_ancestor l' = None)
  /\ (l_base_sha l' = l_base_sha l \/ l_base_sha l' = EmptyString).
Proof.
  intros Hun. unfold check_ancestry. open_fields l.
  destruct wp as [p|]; [|intros [= <-]; repeat split; auto].
  destruct rr as [repo|]; [|intros [= <-]; repeat split; auto].
  destruct (allow d && nonempty (base_ref f)); [|intros [= <-]; repeat split; auto].
  intros E. apply rbind_ok in E as (b & Hb & E).
  assert (Hnone : default EmptyString b = EmptyString).
  { unfold git_rev_parse in Hb. apply rbind_ok in Hb as ([[rc o] e] & Hrun & Hb).
    injection Hb as <-. destruct (Hun _ _ _ _ _ Hrun) as [Hrc | Hout].
    - apply Z.eqb_neq in Hrc. now rewrite Hrc.
    - destruct (rc =? 0); [exact Hout | reflexivity]. }
  rewrite Hnone in E.
  apply rbind_ok in E as ([[rc1 o1] e1] & _ & E).
  apply rbind_ok in E as ([[rc2 o2] e2] & _ & E).
  change (nonempty EmptyString) with false in E. injection E as <-. cbn. repeat split; auto.
Qed.

(** X20: a base reference that does not resolve is no reason to deny.
    When [git rev-parse --verify] fails, or prints nothing, the ancestry
    check compares nothing and denies nothing: the evidence has [base_sha]
    and [base_ref_is_ancestor] null, and the decision is that of the other
    checks. *)
Theorem unresolved_base_is_not_checked (o : Outcome) :
  (forall ref repo rc out err,
     run w ["git"; "rev-parse"; "--verify"; ref] (Some repo) = Ok (rc, out, err) ->
     rc <> 0 \/ Str.strip out = EmptyString) ->
  main_report w args = Ok o ->
  let l := out_locals o in
  (forall l6 l7, check_ancestry w l6 = Ok l7 -> l_decision l7 = l_decision l6)
  /\ l_base_sha l = EmptyString
  /\ l_base_is_ancestor l = None
  /\ member "base_sha" (out_evidence o) = JNull
  /\ member "base_ref_is_ancestor" (out_evidence o) = JNull.
Proof.
  intros Hun E. unfold main_report in E.
  apply rbind_ok in E as ([ep l] & Hchk & E). injection E as <-.
  cbn [out_locals out_code out_evidence]. cbv zeta.
  split; [intros l6 l7 H; now destruct (check_ancestry_unresolved _ _ Hun H)|].
  apply checks_inv in Hchk
    as (rr & l0 & l1 & l5 & l6 & l7 & Hr & H0 & H1 & H5 & H6 & H7 & H8).
  destruct (start_decision _ _ _ _ H0)
    as (Hc & Hu & Hcol & Hmd & Hwl & Hpp & Hba & Hbs & Hhs & Hhr & Hrr & Hdf & Hrf & Hd & Hwp0).
  destruct (load_registry_frame w _ _ H1) as (S1 & F1 & G1 & Q1 & D1 & _).
  pose proof (pure_checks_frame w l1) as (G4 & _). cbv zeta in G4.
  destruct (create_frame w _ _ H5) as (G5 & _).
  destruct (check_git_op_frame w _ _ H6) as (G6 & _).
  destruct (check_ancestry_unresolved _ _ Hun H7) as (_ & B7 & Sh7).
  destruct (probe_push_frame w _ _ H8) as (G8 & _).
  unfold heads in G1, G4, G5, G6, G8.
  assert (Hs : l_base_sha l = EmptyString) by (destruct Sh7; congruence).
  assert (Hb : l_base_is_ancestor l = None) by (destruct B7; congruence).
  split; [exact Hs|]. split; [exact Hb|]. cbn. rewrite Hs, Hb. now split.
Qed.

Lemma probe_push_cases l l' :
  probe_push w l = Ok l' ->
  (l' = l /\ (allow (l_decision l) = false \/ l_wt_path l = None))
  \/ (allow (l_decision l) = true
      /\ exists p rc out err,
           l_wt_path l = Some p
           /\ run w ["git"; "push"; "--dry-run"; "-u"; "origin";
                     "HEAD:" +:+ branch (l_fields l)] (Some p) = Ok (rc, out, err)
           /\ l_push_probe l' = Some (rc, out, err)
           /\ l_fields l' = l_fields l
           /\ l_decision l'
              = if github_ops_required (l_fields l) && negb (rc =? 0)
                then mkDecision false (Some "GH_PUSH_DENIED") (Some "git push --dry-run failed")
                else l_decision l).
Proof.
  unfold probe_push. open_fields l.
  destruct wp as [p|]; [|intros [= <-]; left; auto].
  destruct d as [[|] dc dm]; [|intros [= <-]; left; auto]. cbn [allow].
  intros E. apply rbind_ok in E as ([[rc o] e] & Hr & E). right. split; [reflexivity|].
  exists p, rc, o, e. split; [reflexivity|]. split; [exact Hr|].
  destruct (github_ops_required f && negb (rc =? 0)); injection E as <-; cbn; auto.
Qed.

(** X21: the push probe is the last check and runs only when every other
    check has passed, so the evidence holds a probe exactly in the runs
    that end with ALLOW or with GH_PUSH_DENIED, and an empty [push_probe]
    means an earlier denial.  A probe that fails denies only under a
    contract that requires GitHub operations; under any other contract its
    failure is recorded and the run is allowed. *)
Theorem push_probe_denies_only_when_required (o : Outcome) :
  main_report w args = Ok o ->
  let l := out_locals o in
  let f := l_fields l in
  (github_ops_required f = false -> deny_code (l_decision l) <> Some "GH_PUSH_DENIED")
  /\ (deny_code (l_decision l) = Some "GH_PUSH_DENIED" ->
      github_ops_required f = true
      /\ out_code o = 2
      /\ message (l_decision l) = Some "git push --dry-run failed"
      /\ exists rc out err, l_push_probe l = Some (rc, out, err) /\ rc <> 0)
  /\ (forall rc out err,
        l_push_probe l = Some (rc, out, err) ->
        member "push_probe" (out_evidence o)
        = JObj [("rc", JInt rc); ("stdout", JStr out); ("stderr", JStr err)]
        /\ (out_code o = 0
            \/ (deny_code (l_decision l) = Some "GH_PUSH_DENIED" /\ rc <> 0))
        /\ (github_ops_required f = false -> out_code o = 0))
  /\ (l_push_probe l = None ->
      out_code o = 2 /\ member "push_probe" (out_evidence o) = JObj []).
Proof.
  intros E. unfold main_report in E.
  apply rbind_ok in E as ([ep l] & Hchk & E). injection E as <-.
  cbn [out_locals out_code out_evidence]. cbv zeta.
  apply checks_inv in Hchk
    as (rr & l0 & l1 & l5 & l6 & l7 & Hr & H0 & H1 & H5 & H6 & H7 & H8).
  destruct (start_decision _ _ _ _ H0)
    as (Hc & Hu & Hcol & Hmd & Hwl & Hpp & Hba & Hbs & Hhs & Hhr & Hrr & Hdf & Hrf & Hd & Hwp0).
  destruct (load_registry_frame w _ _ H1) as (S1 & F1 & G1 & Q1 & D1 & _).
  pose proof (pure_checks_frame w l1) as (G4 & Q4 & C4 & U4 & D4). cbv zeta in Q4, D4.
  destruct (create_frame w _ _ H5) as (G5 & Q5 & U5 & C5 & D5).
  destruct (check_git_op_frame w _ _ H6) as (G6 & Q6 & F6 & D6).
  destruct (check_ancestry_frame w _ _ H7) as (Q7 & F7 & B7 & D7).
  assert (Hp7 : l_push_probe l7 = None) by congruence.
  assert (Hc7 : deny_code (l_decision l7) <> Some "GH_PUSH_DENIED").
  { destruct D7 as [-> | (_ & _ & -> & _)]; [|discriminate].
    destruct D6 as [-> | (_ & _ & ->)]; [|discriminate].
    destruct D5 as [-> | ->]; [|discriminate].
    destruct D4 as [-> | [-> | ->]]; try discriminate.
    rewrite D1, Hd. destruct (fst (safe_read_json w (path_str (arg_contract args))));
      [|discriminate].
    cbv zeta. destruct (_ && _), rr; discriminate. }
  assert (Hw7 : allow (l_decision l7) = true -> l_wt_path l7 <> None).
  { intros A7. destruct (check_ancestry_allowed w _ _ H7 A7) as (S7 & _ & _ & D7' & _).
    rewrite D7' in A7. pose proof (check_git_op_allowed w _ _ H6 A7) as ->.
    destruct (worktree_ready w _ _ _ _ _ _ H0 H1 H5 A7) as (p & Hp & _).
    unfold static in S7. congruence. }
  destruct (probe_push_cases _ _ H8) as [(-> & Hskip) | (A7 & p & rc & out & err & Hp & Hrun
                                                        & Hprobe & Hf & Hdec)].
  - assert (Hdeny : allow (l_decision l7) = false).
    { destruct Hskip as [Hs | Hs]; [exact Hs|].
      destruct (allow (l_decision l7)) eqn:A7; [|reflexivity]. now destruct (Hw7 eq_refl). }
    rewrite Hdeny. split; [now intros _|]. split; [intros Hx; contradiction|].
    split; [intros rc out err Hx; congruence|]. intros _. split; [reflexivity|].
    cbn. now rewrite Hp7.
  - rewrite Hf, Hdec, Hprobe.
    destruct (github_ops_required (l_fields l7)) eqn:Ereq; cbn [andb].
    + destruct (rc =? 0) eqn:Erc; cbn [negb].
      * rewrite A7. split; [discriminate|]. split; [intros Hx; contradiction|].
        split; [|discriminate]. intros rc' out' err' [= <- <- <-].
        split; [cbn; now rewrite Hprobe|]. split; [now left | discriminate].
      * apply Z.eqb_neq in Erc. cbn [allow deny_code message].
        split; [discriminate|]. split; [intros _; repeat split; eauto|].
        split; [|discriminate]. intros rc' out' err' [= <- <- <-].
        split; [cbn; now rewrite Hprobe|]. split; [right; now split | discriminate].
    + rewrite A7. split; [intros _; exact Hc7|]. split; [intros Hx; contradiction|].
      split; [|discriminate]. intros rc' out' err' [= <- <- <-].
      split; [cbn; now rewrite Hprobe|]. split; [now left | reflexivity].
Qed.

End Probes.
End GateSteps.

(** ** The admission gate: the evidence record and the exit code *)

Section GateClaims.
Import Gate GateFacts GateSteps.
Context `{RT : Runtime} (w : World) (args : Args).

Lemma create_made l l' :
  create w l = Ok l' ->
  l_worktree_created l' = l_worktree_created l
  \/ exists r, l_wt_root l = Some r /\ w_mkdir w r = None.
Proof.
  unfold create. destruct (l_wt_path l) as [p|]; [|intros [= <-]; now left].
  destruct (l_repo_root l) as [repo|]; [|intros [= <-]; now left].
  destruct (allow (l_decision l) && negb (path_exists w p)); [|intros [= <-]; now left].
  intros E. apply rbind_ok in E as (made & Hmade & _).
  destruct (l_wt_root l) as [r|]; [|discriminate Hmade].
  right. exists r. split; [reflexivity | exact (mkdir_inv w _ _ Hmade)].
Qed.

(** A worktree is made below a root directory that [mkdir] has made. *)
Lemma created_root (o : Outcome) :
  main_report w args = Ok o ->
  l_worktree_created (out_locals o) = true ->
  exists r, l_wt_root (out_locals o) = Some r /\ w_mkdir w r = None.
Proof.
  intros E Hc. unfold main_report in E. apply rbind_ok in E as ([ep l] & Hchk & E).
  injection E as <-. cbn [out_locals] in *.
  apply checks_inv in Hchk
    as (rr & l0 & l1 & l5 & l6 & l7 & Hr & H0 & H1 & H5 & H6 & H7 & H8).
  destruct (start_decision _ _ _ _ H0) as (Hc0 & _).
  destruct (load_registry_frame w _ _ H1) as (_ & F1 & _).
  pose proof (pure_checks_frame w l1) as P4. cbv zeta in P4. destruct P4 as (_ & _ & C4 & _).
  destruct (check_git_op_frame w _ _ H6) as (_ & _ & F6 & _).
  destruct (check_ancestry_frame w _ _ H7) as (_ & F7 & _).
  destruct (probe_push_frame w _ _ H8) as (_ & F8 & _).
  pose proof (advances_trans _ _ _ (advances_trans _ _ _ (check_git_op_advances w _ _ H6)
                (check_ancestry_advances w _ _ H7)) (probe_push_advances w _ _ H8))
    as (Hst & _).
  pose proof (pure_checks_static w l1) as S4.
  unfold findings in F1, F6, F7, F8. unfold static in Hst, S4.
  destruct (create_made _ _ H5) as [Hsame | (r & Hr5 & Hm)].
  - exfalso. congruence.
  - exists r. split; [|exact Hm]. pose proof (create_static w _ _ H5) as S5.
    unfold static in S5. congruence.
Qed.

(** C2, as the code has it: [main] has no exception handler.  A run that
    returns has written the evidence record, last of all, in a directory
    that [mkdir] has made, at the path given on the command line if one is
    given, and returns 0 for ALLOW and 2 for DENY, whatever its checks
    deny.  A run that raises writes nothing: it raises when [git] cannot be
    started, when the directory of the record cannot be made, and when the
    record cannot be written.  A worktree is made only below a root that
    [mkdir] has made.  Nothing raises when every command starts, every
    directory can be made, the contract has the expected shape and the
    record can be written. *)
Theorem gate_writes_evidence_unless_raised (fs : gmap string string) :
  (forall rc fs',
     main w args fs = (Ok rc, fs') ->
     exists o,
       main_report w args = Ok o
       /\ fs' = <[out_path o := json_dumps (out_evidence o) +:+ LF]> fs
       /\ ((rc = 0 /\ member "decision" (out_evidence o) = JStr "ALLOW")
           \/ (rc = 2 /\ member "decision" (out_evidence o) = JStr "DENY"))
       /\ w_mkdir w (path_parent (out_path o)) = None
       /\ w_write w (out_path o) = None
       /\ (forall p, arg_evidence_out args = Some p -> p <> EmptyString ->
                     out_path o = path_str p)
       /\ (member "worktree_created" (out_evidence o) = JBool true ->
           exists r, l_wt_root (out_locals o) = Some r /\ w_mkdir w r = None))
  /\ (forall e fs',
        main w args fs = (Raise e, fs') ->
        fs' = fs
        /\ (main_report w args = Raise e
            \/ exists o msg,
                 main_report w args = Ok o
                 /\ w_write w (out_path o) = Some msg /\ e = OSError msg))
  /\ (forall why,
        w_run w (w_files w) ["git"; "rev-parse"; "--show-toplevel"] None = NotStarted why ->
        main w args fs = (Raise (OSError why), fs))
  /\ (forall rr p msg,
        git_root w = Ok rr ->
        arg_evidence_out args = Some p -> p <> EmptyString ->
        w_mkdir w (path_parent (path_str p)) = Some msg ->
        main w args fs = (Raise (OSError msg), fs))
  /\ (forall o msg,
        main_report w args = Ok o ->
        w_write w (out_path o) = Some msg ->
        main w args fs = (Raise (OSError msg), fs))
  /\ (starts w -> makes_dirs w ->
      (forall c, w_docs w (path_str (arg_contract args)) = DocJson c ->
                 c = JNull \/ well_shaped c) ->
      exists o,
        main_report w args = Ok o
        /\ (w_write w (out_path o) = None ->
            main w args fs
            = (Ok (out_code o), <[out_path o := json_dumps (out_evidence o) +:+ LF]> fs))).
Proof.
  split; [|split; [|split; [|split; [|split]]]].
  - intros rc fs' E. unfold main in E.
    destruct (main_report w args) as [o|e] eqn:Eo; [|discriminate E].
    unfold write_text in E. destruct (w_write w (out_path o)) eqn:Ew; [discriminate E|].
    injection E as <- <-. exists o. split; [reflexivity|]. split; [reflexivity|].
    pose proof (created_root o Eo) as Hroot.
    unfold main_report in Eo. apply rbind_ok in Eo as ([ep l] & Hchk & Eo).
    injection Eo as <-. cbn [out_code out_evidence out_path out_locals] in *.
    destruct (evidence_decision w l) as (-> & _ & -> & _). unfold decision_word.
    destruct (checks_evidence_path w args _ _ Hchk) as [Hep Hdir].
    split; [destruct (allow (l_decision l)); [left | right]; now split|].
    split; [exact Hdir|]. split; [exact Ew|]. split.
    + intros p Hp Hne. rewrite Hp in Hep. unfold nonempty in Hep.
      apply String.eqb_neq in Hne. rewrite Hne in Hep. cbn in Hep. now injection Hep.
    + intros [= Hc]. now apply Hroot.
  - intros e fs' E. unfold main in E.
    destruct (main_report w args) as [o|e0] eqn:Eo.
    + unfold write_text in E. destruct (w_write w (out_path o)) as [msg|] eqn:Ew;
        [|discriminate E].
      injection E as <- <-. split; [reflexivity|]. right. now exists o, msg.
    + injection E as <- <-. split; [reflexivity | now left].
  - intros why Hrun. unfold main, main_report, checks, git_root, run. now rewrite Hrun.
  - intros rr p msg Hr Hp Hne Hmk. unfold main, main_report, checks. rewrite Hr. cbn [rbind].
    destruct (safe_read_json w (path_str (arg_contract args))) as [contract cerr].
    rewrite Hp. unfold nonempty. apply String.eqb_neq in Hne. rewrite Hne. cbn [negb rbind].
    unfold mkdir. now rewrite Hmk.
  - intros o msg Eo Ew. unfold main. rewrite Eo. unfold write_text. now rewrite Ew.
  - intros Hs Hm Hd. unfold main, main_report.
    destruct (checks_total w args Hs Hm Hd) as [[ep l] ->]. cbn [rbind].
    eexists. split; [reflexivity|]. cbn [out_path out_code out_evidence].
    intros Ew. unfold write_text. cbn [out_path]. now rewrite Ew.
Qed.

(** *** Reuse of the worktree *)







End GateClaims.

Section GateMoreRuns.
Import Gate GateFacts GateSteps Demo.

Lemma machine_makes_dirs (table : list (list string * string)) (dirs : list string)
    (docs : list (string * json)) :
  makes_dirs (machine table ∅ dirs docs).
Proof. intros d. reflexivity. Qed.

(** On the machines of this section every command starts, every directory
    can be made, and the contract, when it is there, has the expected
    shape: the gate comes to its end. *)
Lemma gate_runs (table : list (list string * string))
    (dirs : list string) (docs : list (string * json)) (args : Gate.Args) :
  (forall c, w_docs (machine table ∅ dirs docs) (path_str (Runtime := posix) (arg_contract args))
             = DocJson c -> c = JNull \/ well_shaped c) ->
  exists o, main_report (RT := posix) (machine table ∅ dirs docs) args = Ok o.
Proof.
  intros Hd. unfold main_report.
  destruct (checks_total (RT := posix) (machine table ∅ dirs docs) args) as [[ep l] ->].
  - intros fs cmd cwd. cbn. unfold answers. destruct (List.find _ table); eauto.
  - apply machine_makes_dirs.
  - exact Hd.
  - cbn. eauto.
Qed.

Lemma shaped_resume : well_shaped contract_resume.
Proof.
  eexists. split; [reflexivity|]. split; [right; eexists; reflexivity | left; reflexivity].
Qed.

Lemma shaped_default : well_shaped contract_default_policy.
Proof. eexists. split; [reflexivity|]. split; left; reflexivity. Qed.

Lemma shaped_github : well_shaped contract_github.
Proof. eexists. split; [reflexivity|]. split; left; reflexivity. Qed.

Lemma gate_denies_without_contract_witness :
  let w := gate_world contract_resume in
  fst (safe_read_json w (path_str (Runtime := posix) (arg_contract gate_args_missing))) = None
  /\ exists o,
       main_report (RT := posix) w gate_args_missing = Ok o
       /\ out_code o = 2
       /\ member "deny_code" (out_evidence o) = JStr "WORKTREE_MISMATCH".
Proof.
  cbv zeta.
  assert (H1 : fst (safe_read_json (gate_world contract_resume)
                      (path_str (Runtime := posix) (arg_contract gate_args_missing))) = None)
    by reflexivity.
  split; [exact H1|].
  destruct (gate_runs git_gate ["/repo/.codex/.worktrees/p1"]
              [("contract.json", contract_resume)] gate_args_missing) as (o & Eo).
  - intros c E. vm_compute in E. discriminate E.
  - exists o. split; [exact Eo|].
    destruct (gate_denies_without_contract (RT := posix) (gate_world contract_resume)
                gate_args_missing o Eo (or_introl H1)) as (_ & Hcode & _ & Hdc & _).
    split; [exact Hcode | exact Hdc].
Defined.

Lemma allow_means_worktree_ready_witness :
  let w := gate_world contract_resume in
  exists o,
    main_report (RT := posix) w gate_args = Ok o
    /\ out_code o = 0
    /\ l_decision (out_locals o) = Decision_new.
Proof.
  cbv zeta.
  destruct (gate_runs git_gate ["/repo/.codex/.worktrees/p1"]
              [("contract.json", contract_resume)] gate_args) as (o & Eo).
  - intros c E. vm_compute in E. injection E as <-. right. exact shaped_resume.
  - exists o. split; [exact Eo|].
    assert (Hfacts : match main_report (RT := posix) (gate_world contract_resume) gate_args with
                     | Ok o' => out_code o' = 0
                     | Raise _ => False
                     end) by (vm_compute; reflexivity).
    unfold gate_world in Hfacts. rewrite Eo in Hfacts. split; [exact Hfacts|].
    exact (proj1 (allow_means_worktree_ready (RT := posix) _ gate_args o Eo Hfacts)).
Defined.

(** The worktree is made, the push cannot be made: the gate returns 2 for
    a worktree that it has created. *)
Example denied_after_creation :
  match main_report (RT := posix) gate_world_fresh gate_args with
  | Ok o =>
      out_code o = 2
      /\ member "deny_code" (out_evidence o) = JStr "GH_PUSH_DENIED"
      /\ member "worktree_created" (out_evidence o) = JBool true
      /\ member "base_ref_is_ancestor" (out_evidence o) = JBool true
  | Raise _ => False
  end.
Proof. vm_compute. repeat split; reflexivity. Qed.

Lemma late_denials_keep_the_worktree_witness :
  exists o,
    main_report (RT := posix) gate_world_fresh gate_args = Ok o
    /\ l_worktree_created (out_locals o) && l_worktree_reused (out_locals o) = false.
Proof.
  destruct (gate_runs git_fresh [] [("contract.json", contract_github)] gate_args)
    as (o & Eo).
  - intros c E. vm_compute in E. injection E as <-. right. exact shaped_github.
  - exists o. split; [exact Eo|].
    exact (proj1 (late_denials_keep_the_worktree (RT := posix) _ gate_args o Eo)).
Defined.

Lemma existing_path_is_denied_unless_reusable_witness :
  let w := gate_world contract_default_policy in
  let p := "/repo/.codex/.worktrees/p1" in
  exists o,
    main_report (RT := posix) w gate_args = Ok o
    /\ l_wt_path (out_locals o) = Some p
    /\ path_exists w p = true
    /\ complete (l_fields (out_locals o)) = true
    /\ l_worktree_created (out_locals o) = false.
Proof.
  cbv zeta.
  destruct (gate_runs git_gate ["/repo/.codex/.worktrees/p1"]
              [("contract.json", contract_default_policy)] gate_args) as (o & Eo).
  - intros c E. vm_compute in E. injection E as <-. right. exact shaped_default.
  - exists o. split; [exact Eo|].
    assert (Hfacts : match main_report (RT := posix) (gate_world contract_default_policy)
                             gate_args with
                     | Ok o' =>
                         l_wt_path (out_locals o') = Some "/repo/.codex/.worktrees/p1"
                         /\ path_exists (gate_world contract_default_policy)
                              "/repo/.codex/.worktrees/p1" = true
                         /\ complete (l_fields (out_locals o')) = true
                     | Raise _ => False
                     end) by (vm_compute; repeat split; reflexivity).
    unfold gate_world in Hfacts. rewrite Eo in Hfacts. destruct Hfacts as (F1 & F2 & F3).
    split; [exact F1|]. split; [exact F2|]. split; [exact F3|].
    exact (proj1 (existing_path_is_denied_unless_reusable (RT := posix) _ gate_args o _
                    Eo F1 F2 F3)).
Defined.

Lemma registry_entries_are_keyed_by_path_witness :
  exists reg,
    parse_worktree_list (gate_world contract_resume) "/repo" = Ok reg
    /\ forall k e, reg !! k = Some e -> e !! "path" = Some k.
Proof.
  destruct (parse_worktree_list (gate_world contract_resume) "/repo")
    as [reg|e] eqn:E; [|vm_compute in E; discriminate E].
  exists reg. split; [reflexivity|]. intros k e Hk.
  exact (proj1 (proj1 (registry_entries_are_keyed_by_path (RT := posix)
                         (gate_world contract_resume) "/repo" reg E) k e Hk)).
Defined.

Lemma unresolved_base_is_not_checked_witness :
  let w := gate_world_no_base in
  (forall ref repo rc out err,
     run w ["git"; "rev-parse"; "--verify"; ref] (Some repo) = Ok (rc, out, err) ->
     rc <> 0 \/ Str.strip out = EmptyString)
  /\ exists o,
       main_report (RT := posix) w gate_args = Ok o
       /\ member "base_sha" (out_evidence o) = JNull.
Proof.
  cbv zeta.
  assert (H1 : forall ref repo rc out err,
            run gate_world_no_base ["git"; "rev-parse"; "--verify"; ref] (Some repo)
            = Ok (rc, out, err) -> rc <> 0 \/ Str.strip out = EmptyString).
  { intros ref repo rc out err E. cbn in E. injection E as <- _ _. left. lia. }
  split; [exact H1|].
  destruct (gate_runs git_gate_no_base ["/repo/.codex/.worktrees/p1"]
              [("contract.json", contract_resume)] gate_args) as (o & Eo).
  - intros c E. vm_compute in E. injection E as <-. right. exact shaped_resume.
  - exists o. split; [exact Eo|].
    exact (proj1 (proj2 (proj2 (proj2 (unresolved_base_is_not_checked (RT := posix)
                                         gate_world_no_base gate_args o H1 Eo))))).
Defined.

(** On that machine the worktree is reused and the gate allows, with a base
    it could not resolve. *)
Example unresolved_base_is_allowed :
  match main_report (RT := posix) gate_world_no_base gate_args with
  | Ok o =>
      out_code o = 0
      /\ member "base_sha" (out_evidence o) = JNull
      /\ member "base_ref_is_ancestor" (out_evidence o) = JNull
      /\ member "worktree_reused" (out_evidence o) = JBool true
  | Raise _ => False
  end.
Proof. vm_compute. repeat split; reflexivity. Qed.

Lemma push_probe_denies_only_when_required_witness :
  exists o,
    main_report (RT := posix) gate_world_fresh gate_args = Ok o
    /\ (l_push_probe (out_locals o) = None -> out_code o = 2).
Proof.
  destruct (gate_runs git_fresh [] [("contract.json", contract_github)] gate_args)
    as (o & Eo).
  - intros c E. vm_compute in E. injection E as <-. right. exact shaped_github.
  - exists o. split; [exact Eo|]. intros Hn.
    exact (proj1 (proj2 (proj2 (proj2 (push_probe_denies_only_when_required (RT := posix)
                                         _ gate_args o Eo))) Hn)).
Defined.

End GateMoreRuns.

(** ** The claims on the gate, on the concrete machines *)

Section GateClaimRuns.
Import Gate GateFacts GateSteps Demo.

Lemma gate_writes_evidence_unless_raised_witness :
  let w := gate_world contract_resume in
  starts w /\ makes_dirs w
  /\ (forall c, w_docs w (path_str (Runtime := posix) (arg_contract gate_args)) = DocJson c ->
                c = JNull \/ well_shaped c)
  /\ (exists o,
        main_report (RT := posix) w gate_args = Ok o
        /\ out_path o = ".codex/out/p1/g0_enter_work.json"
        /\ main (RT := posix) w gate_args ∅
           = (Ok 0, <[out_path o := json_dumps (Runtime := posix) (out_evidence o) +:+ LF]> ∅))
  /\ (exists o,
        main_report (RT := posix) gate_world_docs gate_args_docs = Ok o
        /\ w_write gate_world_docs (out_path o) = Some "[Errno 21] Is a directory: docs"
        /\ main (RT := posix) gate_world_docs gate_args_docs ∅
           = (Raise (OSError "[Errno 21] Is a directory: docs"), ∅))
  /\ git_root (RT := posix) gate_world_blocked = Ok (Some "/repo")
  /\ w_mkdir gate_world_blocked
             (path_parent (Runtime := posix) (path_str (Runtime := posix) "out/g0.json"))
     = Some "[Errno 17] File exists: out"
  /\ main (RT := posix) gate_world_blocked gate_args_blocked ∅
     = (Raise (OSError "[Errno 17] File exists: out"), ∅).
Proof.
  cbv zeta.
  assert (H1 : starts (gate_world contract_resume)) by apply machine_starts.
  assert (H2 : makes_dirs (gate_world contract_resume)) by apply machine_makes_dirs.
  pose proof contract_resume_shaped as H3.
  split; [exact H1|]. split; [exact H2|]. split; [exact H3|].
  split; [|split].
  - destruct (proj2 (proj2 (proj2 (proj2 (proj2
                (gate_writes_evidence_unless_raised (RT := posix)
                   (gate_world contract_resume) gate_args ∅))))) H1 H2 H3)
      as (o & Eo & Hmain).
    exists o. split; [exact Eo|].
    assert (Hfacts : match main_report (RT := posix) (gate_world contract_resume) gate_args with
                     | Ok o' =>
                         out_path o' = ".codex/out/p1/g0_enter_work.json" /\ out_code o' = 0
                     | Raise _ => False
                     end) by (vm_compute; split; reflexivity).
    rewrite Eo in Hfacts. destruct Hfacts as [Hp Hc]. split; [exact Hp|].
    rewrite <- Hc. apply Hmain. rewrite Hp. reflexivity.
  - destruct (gate_runs git_gate ["/repo/.codex/.worktrees/p1"; "docs"]
                [("contract.json", contract_resume)] gate_args_docs) as (o & Eo).
    + intros c E. vm_compute in E. injection E as <-. right. exact shaped_resume.
    + exists o. split; [exact Eo|].
      assert (Hfacts : match main_report (RT := posix) gate_world_docs gate_args_docs with
                       | Ok o' => out_path o' = "docs"
                       | Raise _ => False
                       end) by (vm_compute; reflexivity).
      unfold gate_world_docs in Hfacts. rewrite Eo in Hfacts.
      assert (Hw : w_write gate_world_docs (out_path o)
                   = Some "[Errno 21] Is a directory: docs") by (rewrite Hfacts; reflexivity).
      split; [exact Hw|].
      exact (proj1 (proj2 (proj2 (proj2 (proj2
               (gate_writes_evidence_unless_raised (RT := posix) gate_world_docs
                  gate_args_docs ∅))))) o _ Eo Hw).
  - assert (G1 : git_root (RT := posix) gate_world_blocked = Ok (Some "/repo"))
      by (vm_compute; reflexivity).
    assert (G2 : w_mkdir gate_world_blocked
                   (path_parent (Runtime := posix) (path_str (Runtime := posix) "out/g0.json"))
                 = Some "[Errno 17] File exists: out") by (vm_compute; reflexivity).
    split; [exact G1|]. split; [exact G2|].
    apply (proj1 (proj2 (proj2 (proj2
             (gate_writes_evidence_unless_raised (RT := posix) gate_world_blocked
                gate_args_blocked ∅)))) (Some "/repo") "out/g0.json" _ G1).
    + reflexivity.
    + discriminate.
    + exact G2.
Defined.


End GateClaimRuns.

(** ** The summary *)

Section SummaryFacts.
Import Harness HarnessFacts.
Context `{RT : Runtime} (w : World) (args : Args).

(** X22: [evidence.md] is written from the values that go into
    [evidence.json]: the summary a finished run leaves shows the decision,
    the heads, the number of changed files and the line counts of the
    evidence, says [- None] under the violations exactly when the evidence
    has none, and gives the exit code of the tests only when it is an
    integer. *)
Theorem summary_agrees_with_evidence (generated_at root : string) (contract : json)
    (fs fs' : gmap string string) (rep : Report) :
  main_body w args generated_at root contract fs = (Ok rep, fs') ->
  let ev := rep_evidence rep in
  exists lines,
    fs' !! child (rep_out_dir rep) "evidence.md" = Some (Str.join LF lines +:+ LF)
    /\ In ("- Decision: **" +:+ py_str (member "decision" ev) +:+ "**") lines
    /\ In ("- Before: `" +:+ py_str (member "before" (member "heads" (member "repo" ev))) +:+ "`")
          lines
    /\ In ("- After: `" +:+ py_str (member "after" (member "heads" (member "repo" ev))) +:+ "`")
          lines
    /\ In ("- Changed files: " +:+ py_str (member "changed_files" (member "diff" ev))) lines
    /\ In ("- Lines added/deleted: " +:+ py_str (member "lines_added" (member "diff" ev))
           +:+ "/" +:+ py_str (member "lines_deleted" (member "diff" ev))) lines
    /\ In ("- Result: **" +:+ py_str (member "result" (member "tests" ev)) +:+ "**") lines
    /\ (member "violations" (member "constraints" ev) = JArr [] -> In "- None" lines)
    /\ (member "violations" (member "constraints" ev) <> JArr [] ->
        In (json_dumps (member "violations" (member "constraints" ev))) lines)
    /\ (is_int (member "exit_code" (member "tests" ev)) = true ->
        In ("- Exit code: `" +:+ py_str (member "exit_code" (member "tests" ev)) +:+ "`") lines).
Proof.
  intros E. apply main_body_inv in E
    as (cfg & meta & wt & te & fs_o & _ & _ & _ & _ & _ & Ho & _ & _ & Hf & art & He & Hp).
  cbv zeta in *. rewrite publish_eq in Hp. injection Hp as _ _ <-.
  exists (render_md wt (w_clock w 1) cfg meta (rep_observed rep) (rep_violations rep)).
  rewrite Ho, He. split.
  - rewrite !lookup_insert_ne by (intros Hc; apply child_inj in Hc; discriminate Hc).
    apply lookup_insert_eq.
  - cbn [member dict_get lookup_last String.eqb Ascii.eqb Bool.eqb].
    unfold render_md. cbn [py_str].
    repeat split; try (cbn [In app]; tauto).
    + intros Hv. injection Hv as ->. cbn [In app].
      repeat (first [left; reflexivity | right]).
      apply in_or_app. right. cbn [In]. repeat (first [left; reflexivity | right]).
    + intros Hv. destruct (rep_violations rep); [contradiction|]. cbn [In app].
      repeat (first [left; reflexivity | right]).
      apply in_or_app. right. cbn [In]. repeat (first [left; reflexivity | right]).
    + intros Hi. change (is_int (dict_get "test_rc" JNull meta) = true) in Hi.
      rewrite Hi. cbn [In app]. repeat (first [left; reflexivity | right]).
Qed.

End SummaryFacts.

Section SummaryRuns.
Import Harness HarnessFacts Demo.

Lemma summary_agrees_with_evidence_witness :
  let w := world_docs_change in
  exists rep fs' lines,
    main_body (RT := posix) w harness_args (w_clock w 0) "/repo" contract_src_only (w_files w)
    = (Ok rep, fs')
    /\ fs' !! child (rep_out_dir rep) "evidence.md" = Some (Str.join LF lines +:+ LF)
    /\ In ("- Decision: **" +:+ py_str (RT := posix) (member "decision" (rep_evidence rep))
           +:+ "**") lines.
Proof.
  cbv zeta. destruct docs_change_runs as (rep & fs' & E).
  destruct (summary_agrees_with_evidence (RT := posix) world_docs_change harness_args
              _ _ _ _ _ _ E) as (lines & Hmd & Hdec & _).
  exists rep, fs', lines. split; [exact E|]. split; [exact Hmd | exact Hdec].
Defined.

End SummaryRuns.
